(** * Operandi broker: the submit and status workers

    A shallow embedding of [operandi_broker/job_submit_worker.py] and
    [operandi_broker/job_status_worker.py].  Both workers are Python
    classes whose methods mutate instance fields, call the job state store,
    the HPC gateway and the message channel, and signal errors by raising.
    They are embedded in a state-and-exception monad in which the state
    survives a raised exception, as it does in Python.  The methods of
    [operandi_harvester/harvester.py] that submit a workspace and poll its
    job are embedded in the same monad. *)

From Stdlib Require Import List String ZArith Bool Lia.
Import ListNotations.
Open Scope string_scope.

(** ** Python values and exceptions *)

(** The values [json.loads] can return, and the values the workers keep in
    their [current_message_*] fields ([PNone] is Python's [None]).
    [PDict items] is the dict with these items, each key once.  JSON floats
    are left out. *)
#[local] Unset Elimination Schemes.
Inductive pyval : Type :=
| PNone
| PBool (b : bool)
| PInt (z : Z)
| PStr (s : string)
| PList (l : list pyval)
| PDict (items : list (string * pyval)).
#[local] Set Elimination Schemes.

(** The exception classes the workers tell apart.  [OtherException] stands
    for [Exception] itself and any subclass not listed; [SystemExit] is
    what [sys.exit] raises and is not an [Exception]. *)
Inductive exn : Type :=
| RuntimeError
| ValueError
| KeyError
| TypeError
| OtherException
| SystemExit.

Definition is_Exception (e : exn) : bool :=
  match e with SystemExit => false | _ => true end.

Definition is_ValueError (e : exn) : bool :=
  match e with ValueError => true | _ => false end.

Inductive Res (A : Type) : Type :=
| Ok (a : A)
| Raise (e : exn).

Arguments Ok {A} a.
Arguments Raise {A} e.

(** ** Enumerations and store records *)

Module StateJob.
(** Modelled from the spec: the enum [operandi_utils.constants.StateJob] is
    not part of the sources; these are the job states of the life cycle in
    section 4.1, under the names the workers use. *)
Inductive t : Type :=
| QUEUED
| TRANSFERRING_TO_HPC
| PENDING
| RUNNING
| TRANSFERRING_FROM_HPC
| SUCCESS
| FAILED.

Definition eqb (a b : t) : bool :=
  match a, b with
  | QUEUED, QUEUED | TRANSFERRING_TO_HPC, TRANSFERRING_TO_HPC
  | PENDING, PENDING | RUNNING, RUNNING
  | TRANSFERRING_FROM_HPC, TRANSFERRING_FROM_HPC
  | SUCCESS, SUCCESS | FAILED, FAILED => true
  | _, _ => false
  end.

Definition is_terminal (a : t) : bool :=
  match a with SUCCESS | FAILED => true | _ => false end.
End StateJob.

Module StateWorkspace.
(** Modelled from the spec: the enum [operandi_utils.constants.StateWorkspace]
    is not part of the sources; these are the workspace states of section
    4.1. *)
Inductive t : Type :=
| QUEUED
| TRANSFERRING_TO_HPC
| PENDING
| TRANSFERRING_FROM_HPC
| READY.
End StateWorkspace.

Module DBWorkflowJob.
(** Modelled from the spec: the document class is not part of the sources;
    the fields are the WorkflowJob attributes of section 3. *)
Record t : Type := mk {
  job_id : string;
  workspace_id : string;
  workflow_id : string;
  user_id : string;
  job_dir : string;
  job_state : StateJob.t
}.

Definition with_job_state (s : StateJob.t) (r : t) : t :=
  mk (job_id r) (workspace_id r) (workflow_id r) (user_id r) (job_dir r) s.
End DBWorkflowJob.

Module DBWorkspace.
(** Modelled from the spec: the document class is not part of the sources;
    the fields are the Workspace attributes of section 3 and the ones the
    workers read ([user_id], [workspace_mets_path]). *)
Record t : Type := mk {
  workspace_id : string;
  user_id : string;
  workspace_dir : string;
  workspace_mets_path : string;
  mets_basename : string;
  pages_amount : Z;
  file_groups : list string;
  state : StateWorkspace.t
}.

Definition with_state (s : StateWorkspace.t) (r : t) : t :=
  mk (workspace_id r) (user_id r) (workspace_dir r) (workspace_mets_path r)
     (mets_basename r) (pages_amount r) (file_groups r) s.

Definition with_file_groups (g : list string) (r : t) : t :=
  mk (workspace_id r) (user_id r) (workspace_dir r) (workspace_mets_path r)
     (mets_basename r) (pages_amount r) g (state r).
End DBWorkspace.

Module DBWorkflow.
(** Modelled from the spec: the document class is not part of the sources;
    the fields are the ones the submit worker reads. *)
Record t : Type := mk {
  workflow_id : string;
  workflow_script_path : string;
  uses_mets_server : bool;
  executable_steps : list string
}.
End DBWorkflow.

Module DBHPCSlurmJob.
(** Modelled from the spec: the document class is not part of the sources;
    the fields are the RemoteJobHandle attributes of section 3.  A handle
    that was just created has no scheduler state yet. *)
Record t : Type := mk {
  user_id : pyval;
  workflow_job_id : string;
  hpc_slurm_job_id : string;
  hpc_slurm_job_state : option string;
  hpc_batch_script_path : string;
  hpc_slurm_workspace_path : string
}.

Definition with_hpc_slurm_job_state (s : string) (r : t) : t :=
  mk (user_id r) (workflow_job_id r) (hpc_slurm_job_id r) (Some s)
     (hpc_batch_script_path r) (hpc_slurm_workspace_path r).
End DBHPCSlurmJob.

Module DBProcessingStats.
(** Modelled from the spec: the document class is not part of the sources;
    the fields are the ProcessingStats attributes of section 3. *)
Record t : Type := mk {
  user_id : string;
  pages_succeed : Z;
  pages_failed : Z
}.

Definition increase (succeed failed : Z) (r : t) : t :=
  mk (user_id r) (pages_succeed r + succeed) (pages_failed r + failed).
End DBProcessingStats.

(** The job state store: one collection of documents per entity. *)
Record Store : Type := mkStore {
  jobs : list DBWorkflowJob.t;
  workspaces : list DBWorkspace.t;
  workflows : list DBWorkflow.t;
  slurm_jobs : list DBHPCSlurmJob.t;
  stats : list DBProcessingStats.t
}.

(** A query value selects the documents whose key is that very string; a
    value that is not a string (for instance [None]) selects nothing. *)
Definition id_matches (id : pyval) (k : string) : bool :=
  match id with
  | PStr s => String.eqb s k
  | _ => false
  end.

Fixpoint find_doc {A : Type} (key : A -> string) (id : pyval) (l : list A) : option A :=
  match l with
  | [] => None
  | r :: rest => if id_matches id (key r) then Some r else find_doc key id rest
  end.

(** Replaces the first document selected by [id], the one [find_doc] returns. *)
Fixpoint update_doc {A : Type} (key : A -> string) (id : pyval) (f : A -> A) (l : list A)
  : list A :=
  match l with
  | [] => []
  | r :: rest => if id_matches id (key r) then f r :: rest else r :: update_doc key id f rest
  end.

(** All the documents selected by [id]. *)
Definition select_docs {A : Type} (key : A -> string) (id : pyval) (l : list A) : list A :=
  filter (fun r => id_matches id (key r)) l.

(** ** The world outside the worker classes *)

(** The arguments of [NHRExecutor.trigger_slurm_job], as the submit worker
    passes them. *)
Record TriggerArgs : Type := mkTriggerArgs {
  ta_workflow_job_id : pyval;
  ta_nextflow_script_path : string;
  ta_workspace_id : pyval;
  ta_mets_basename : string;
  ta_input_file_grp : pyval;
  ta_nf_process_forks : Z;
  ta_ws_pages_amount : Z;
  ta_use_mets_server : bool;
  ta_nf_executable_steps : list string;
  ta_file_groups_to_remove : pyval;
  ta_cpus : Z;
  ta_ram : Z;
  ta_job_deadline_time : string;
  ta_partition : pyval;
  ta_qos : string
}.

(** What the worker takes as given.  The constants and
    [StateJob.convert_from_slurm_job] belong to [operandi_utils], which is
    not part of the sources, and are parameters; [int_of_str] is Python's
    [int] on a [str]; the remaining fields say how the outside world answers:
    [fault n] is the exception, if any, with which the [n]-th call to the
    store, the gateway or the channel fails. *)
Record Env : Type := mkEnv {
  convert_from_slurm_job : string -> Res StateJob.t;
  HPC_BATCH_SUBMIT_WORKFLOW_JOB : string;
  HPC_JOB_DEADLINE_TIME_REGULAR : string;
  HPC_JOB_DEADLINE_TIME_TEST : string;
  HPC_JOB_QOS_SHORT : string;
  HPC_JOB_QOS_DEFAULT : string;
  slurm_workspaces_dir : string;
  int_of_str : string -> option Z;
  fault : nat -> option exn;
  slurm_state_reply : string -> string;
  slurm_id_reply : TriggerArgs -> string;
  mets_file_groups : string -> string -> option (list string)
}.

(** The writes to the store and the calls to the gateway and to the channel
    that completed, in the order in which they did; reads of the store are
    not recorded. *)
Inductive Event : Type :=
| EvUpdateWorkflowJob (find_job_id : pyval) (job_state : StateJob.t)
| EvUpdateWorkspace (find_workspace_id : pyval) (state : StateWorkspace.t)
    (file_groups : option (list string))
| EvUpdateHPCSlurmJob (find_workflow_job_id : pyval) (hpc_slurm_job_state : string)
| EvCreateHPCSlurmJob (doc : DBHPCSlurmJob.t)
| EvIncreaseProcessingStats (find_user_id : pyval) (pages_succeed pages_failed : Z)
| EvCheckSlurmJobState (slurm_job_id : string)
| EvDownloadSlurmJobLogFile (slurm_job_id job_dir : string)
| EvPackAndPutSlurmWorkspace (ocrd_workspace_dir : string) (workflow_job_id : pyval)
    (nextflow_script_path : string)
| EvGetAndUnpackSlurmWorkspace (ocrd_workspace_dir workflow_job_dir : string)
| EvTriggerSlurmJob (args : TriggerArgs)
| EvAck (delivery_tag : option nat)
| EvDisconnect.

Definition is_ack (ev : Event) : bool :=
  match ev with EvAck _ => true | _ => false end.

(** A worker instance [self] together with the store and the record of
    completed outside calls; [clock] counts the outside calls made so far. *)
Record World (S : Type) : Type := mkWorld {
  self : S;
  store : Store;
  trace : list Event;
  clock : nat
}.

Arguments mkWorld {S} self store trace clock.
Arguments self {S} w.
Arguments store {S} w.
Arguments trace {S} w.
Arguments clock {S} w.

(** ** The monad of worker methods *)

Definition M (S A : Type) : Type := World S -> Res A * World S.

Definition ret {S A : Type} (a : A) : M S A := fun w => (Ok a, w).

Definition raise {S A : Type} (e : exn) : M S A := fun w => (Raise e, w).

Definition bind {S A B : Type} (m : M S A) (k : A -> M S B) : M S B :=
  fun w =>
    match m w with
    | (Ok a, w') => k a w'
    | (Raise e, w') => (Raise e, w')
    end.

Declare Scope py_scope.
Delimit Scope py_scope with py.
Notation "x <- m ;; k" := (bind m (fun x => k))
  (at level 61, m at next level, right associativity) : py_scope.
Notation "m ;; k" := (bind m (fun _ => k))
  (at level 61, right associativity) : py_scope.
Open Scope py_scope.

(** [try: m] with the outcome handed to the code after it: an exception that
    is an [Exception] is caught, anything else passes through. *)
Definition try_Exception {S A : Type} (m : M S A) : M S (Res A) :=
  fun w =>
    match m w with
    | (Ok a, w') => (Ok (Ok a), w')
    | (Raise e, w') => if is_Exception e then (Ok (Raise e), w') else (Raise e, w')
    end.

(** [try: m / except ValueError]: only a [ValueError] is caught. *)
Definition try_ValueError {S A : Type} (m : M S A) : M S (Res A) :=
  fun w =>
    match m w with
    | (Ok a, w') => (Ok (Ok a), w')
    | (Raise e, w') => if is_ValueError e then (Ok (Raise e), w') else (Raise e, w')
    end.

Definition get_self {S : Type} : M S S := fun w => (Ok (self w), w).

Definition modify_self {S : Type} (f : S -> S) : M S unit :=
  fun w => (Ok tt, mkWorld (f (self w)) (store w) (trace w) (clock w)).

Definition of_option {S A : Type} (e : exn) (o : option A) : M S A :=
  match o with
  | Some a => ret a
  | None => raise e
  end.

(** A pure computation that may raise. *)
Definition of_res {S A : Type} (r : Res A) : M S A := fun w => (r, w).

Section Outside.

Variable E : Env.

(** A call that leaves the worker process.  It is the [clock w]-th such
    call: when the world answers it with a fault, it raises and changes
    nothing; otherwise [call] computes its outcome on the store. *)
Definition outside {S A : Type} (call : Store -> Res (A * Store * list Event)) : M S A :=
  fun w =>
    match fault E (clock w) with
    | Some e => (Raise e, mkWorld (self w) (store w) (trace w) (Datatypes.S (clock w)))
    | None =>
        match call (store w) with
        | Ok (a, st, evs) => (Ok a, mkWorld (self w) st (trace w ++ evs) (Datatypes.S (clock w)))
        | Raise e => (Raise e, mkWorld (self w) (store w) (trace w) (Datatypes.S (clock w)))
        end
    end.

(** *** The job state store *)

(** Modelled from the spec: [operandi_utils.database] is not part of the
    sources.  Section 6 gives get and update by id for each entity; a read
    or an update of a record that is missing is the store error of section
    7, raised as the [RuntimeError] the workers catch around their reads. *)
Definition sync_db_get_workflow_job {S : Type} (job_id : pyval) : M S DBWorkflowJob.t :=
  outside (fun st =>
    match find_doc DBWorkflowJob.job_id job_id (jobs st) with
    | Some r => Ok (r, st, [])
    | None => Raise RuntimeError
    end).

(** Modelled from the spec: see [sync_db_get_workflow_job]. *)
Definition sync_db_get_workspace {S : Type} (workspace_id : pyval) : M S DBWorkspace.t :=
  outside (fun st =>
    match find_doc DBWorkspace.workspace_id workspace_id (workspaces st) with
    | Some r => Ok (r, st, [])
    | None => Raise RuntimeError
    end).

(** Modelled from the spec: see [sync_db_get_workflow_job]. *)
Definition sync_db_get_workflow {S : Type} (workflow_id : pyval) : M S DBWorkflow.t :=
  outside (fun st =>
    match find_doc DBWorkflow.workflow_id workflow_id (workflows st) with
    | Some r => Ok (r, st, [])
    | None => Raise RuntimeError
    end).

(** Modelled from the spec: see [sync_db_get_workflow_job]. *)
Definition sync_db_get_hpc_slurm_job {S : Type} (workflow_job_id : pyval) : M S DBHPCSlurmJob.t :=
  outside (fun st =>
    match find_doc DBHPCSlurmJob.workflow_job_id workflow_job_id (slurm_jobs st) with
    | Some r => Ok (r, st, [])
    | None => Raise RuntimeError
    end).

(** Modelled from the spec: see [sync_db_get_workflow_job]; the update
    replaces the record and returns the new one. *)
Definition sync_db_update_workflow_job {S : Type} (find_job_id : pyval) (job_state : StateJob.t)
  : M S DBWorkflowJob.t :=
  outside (fun st =>
    match find_doc DBWorkflowJob.job_id find_job_id (jobs st) with
    | Some r =>
        Ok (DBWorkflowJob.with_job_state job_state r,
            mkStore (update_doc DBWorkflowJob.job_id find_job_id
                       (DBWorkflowJob.with_job_state job_state) (jobs st))
                    (workspaces st) (workflows st) (slurm_jobs st) (stats st),
            [EvUpdateWorkflowJob find_job_id job_state])
    | None => Raise RuntimeError
    end).

Definition workspace_change (state : StateWorkspace.t) (file_groups : option (list string))
  (r : DBWorkspace.t) : DBWorkspace.t :=
  match file_groups with
  | Some g => DBWorkspace.with_file_groups g (DBWorkspace.with_state state r)
  | None => DBWorkspace.with_state state r
  end.

(** Modelled from the spec: see [sync_db_update_workflow_job];
    [file_groups] is the optional keyword argument. *)
Definition sync_db_update_workspace {S : Type} (find_workspace_id : pyval)
  (state : StateWorkspace.t) (file_groups : option (list string)) : M S DBWorkspace.t :=
  outside (fun st =>
    match find_doc DBWorkspace.workspace_id find_workspace_id (workspaces st) with
    | Some r =>
        Ok (workspace_change state file_groups r,
            mkStore (jobs st)
                    (update_doc DBWorkspace.workspace_id find_workspace_id
                       (workspace_change state file_groups) (workspaces st))
                    (workflows st) (slurm_jobs st) (stats st),
            [EvUpdateWorkspace find_workspace_id state file_groups])
    | None => Raise RuntimeError
    end).

(** Modelled from the spec: see [sync_db_update_workflow_job]. *)
Definition sync_db_update_hpc_slurm_job {S : Type} (find_workflow_job_id : pyval)
  (hpc_slurm_job_state : string) : M S DBHPCSlurmJob.t :=
  outside (fun st =>
    match find_doc DBHPCSlurmJob.workflow_job_id find_workflow_job_id (slurm_jobs st) with
    | Some r =>
        Ok (DBHPCSlurmJob.with_hpc_slurm_job_state hpc_slurm_job_state r,
            mkStore (jobs st) (workspaces st) (workflows st)
                    (update_doc DBHPCSlurmJob.workflow_job_id find_workflow_job_id
                       (DBHPCSlurmJob.with_hpc_slurm_job_state hpc_slurm_job_state)
                       (slurm_jobs st))
                    (stats st),
            [EvUpdateHPCSlurmJob find_workflow_job_id hpc_slurm_job_state])
    | None => Raise RuntimeError
    end).

(** Modelled from the spec: section 3 has the handle created by the submit
    worker; the store adds the new document to the collection and enforces
    no uniqueness (section 5: no compare-and-swap or versioning).  A job id
    that is not a string cannot be stored. *)
Definition sync_db_create_hpc_slurm_job {S : Type} (user_id workflow_job_id : pyval)
  (hpc_slurm_job_id hpc_batch_script_path hpc_slurm_workspace_path : string)
  : M S DBHPCSlurmJob.t :=
  outside (fun st =>
    match workflow_job_id with
    | PStr j =>
        let doc := DBHPCSlurmJob.mk user_id j hpc_slurm_job_id None
                     hpc_batch_script_path hpc_slurm_workspace_path in
        Ok (doc,
            mkStore (jobs st) (workspaces st) (workflows st) (slurm_jobs st ++ [doc]) (stats st),
            [EvCreateHPCSlurmJob doc])
    | _ => Raise ValueError
    end).

(** Modelled from the spec: section 3 has the counters incremented by the
    given page counts; the updated record is returned. *)
Definition sync_db_increase_processing_stats {S : Type} (find_user_id : pyval)
  (pages_succeed pages_failed : Z) : M S DBProcessingStats.t :=
  outside (fun st =>
    match find_doc DBProcessingStats.user_id find_user_id (stats st) with
    | Some r =>
        Ok (DBProcessingStats.increase pages_succeed pages_failed r,
            mkStore (jobs st) (workspaces st) (workflows st) (slurm_jobs st)
                    (update_doc DBProcessingStats.user_id find_user_id
                       (DBProcessingStats.increase pages_succeed pages_failed) (stats st)),
            [EvIncreaseProcessingStats find_user_id pages_succeed pages_failed])
    | None => Raise RuntimeError
    end).

(** *** The HPC gateway ([NHRExecutor], [NHRTransfer]) *)

Definition check_slurm_job_state {S : Type} (slurm_job_id : string) : M S string :=
  outside (fun st =>
    Ok (slurm_state_reply E slurm_job_id, st, [EvCheckSlurmJobState slurm_job_id])).

Definition download_slurm_job_log_file {S : Type} (slurm_job_id job_dir : string) : M S unit :=
  outside (fun st => Ok (tt, st, [EvDownloadSlurmJobLogFile slurm_job_id job_dir])).

Definition pack_and_put_slurm_workspace {S : Type} (ocrd_workspace_dir : string)
  (workflow_job_id : pyval) (nextflow_script_path : string) : M S unit :=
  outside (fun st =>
    Ok (tt, st,
        [EvPackAndPutSlurmWorkspace ocrd_workspace_dir workflow_job_id
           nextflow_script_path])).

Definition get_and_unpack_slurm_workspace {S : Type} (ocrd_workspace_dir workflow_job_dir : string)
  : M S unit :=
  outside (fun st =>
    Ok (tt, st, [EvGetAndUnpackSlurmWorkspace ocrd_workspace_dir workflow_job_dir])).

Definition trigger_slurm_job {S : Type} (args : TriggerArgs) : M S string :=
  outside (fun st => Ok (slurm_id_reply E args, st, [EvTriggerSlurmJob args])).

(** *** The message channel *)

(** [ch.basic_ack(delivery_tag=...)]. *)
Definition basic_ack {S : Type} (delivery_tag : nat) : M S unit :=
  outside (fun st => Ok (tt, st, [EvAck (Some delivery_tag)])).

(** [rmq_consumer.ack_message(delivery_tag=...)] on a connected consumer. *)
Definition ack_message {S : Type} (delivery_tag : option nat) : M S unit :=
  outside (fun st => Ok (tt, st, [EvAck delivery_tag])).

(** [rmq_consumer.disconnect()] on a connected consumer. *)
Definition disconnect {S : Type} : M S unit :=
  outside (fun st => Ok (tt, st, [EvDisconnect])).

(** *** Start-up calls of [run] *)

(** [os.setsid()]. *)
Definition setsid {S : Type} : M S unit :=
  outside (fun st => Ok (tt, st, [])).

(** [sync_db_initiate_database(db_url)]. *)
Definition sync_db_initiate_database {S : Type} : M S unit :=
  outside (fun st => Ok (tt, st, [])).

(** [NHRExecutor()]. *)
Definition connect_hpc_executor {S : Type} : M S unit :=
  outside (fun st => Ok (tt, st, [])).

(** [NHRTransfer()]. *)
Definition connect_hpc_transfer {S : Type} : M S unit :=
  outside (fun st => Ok (tt, st, [])).

(** [get_connection_consumer(rabbitmq_url=...)]. *)
Definition get_connection_consumer {S : Type} : M S unit :=
  outside (fun st => Ok (tt, st, [])).

(** [rmq_consumer.configure_consuming(queue_name=..., callback_method=...)]. *)
Definition configure_consuming {S : Type} : M S unit :=
  outside (fun st => Ok (tt, st, [])).

(** *** Python built-ins used on the message *)

(** [json.loads(body)]: the body is given by what it parses to, [None] when
    it is not JSON ([JSONDecodeError] is a [ValueError]). *)
Definition loads {S : Type} (body : option pyval) : M S pyval :=
  of_option ValueError body.

Fixpoint dict_get (items : list (string * pyval)) (k : string) : option pyval :=
  match items with
  | [] => None
  | (k', v) :: rest => if String.eqb k k' then Some v else dict_get rest k
  end.

(** [v[k]] for a string [k]. *)
Definition getitem {S : Type} (v : pyval) (k : string) : M S pyval :=
  match v with
  | PDict items => of_option KeyError (dict_get items k)
  | _ => raise TypeError
  end.

(** [int(v)]. *)
Definition py_int (v : pyval) : Res Z :=
  match v with
  | PInt z => Ok z
  | PBool b => Ok (if b then 1%Z else 0%Z)
  | PStr s =>
      match int_of_str E s with
      | Some z => Ok z
      | None => Raise ValueError
      end
  | _ => Raise TypeError
  end.

Definition ends_with_slash (s : string) : bool :=
  match String.length s with
  | O => false
  | Datatypes.S n => String.eqb (String.substring n 1 s) "/"
  end.

(** [os.path.join(a, b)] for two components. *)
Definition join (a : string) (b : pyval) : Res string :=
  match b with
  | PStr b =>
      if String.prefix "/" b then Ok b
      else if (String.eqb a EmptyString || ends_with_slash a)%bool then Ok (a ++ b)
      else Ok (a ++ "/" ++ b)
  | _ => Raise TypeError
  end.

End Outside.

(** Modelled from the spec: [rmq_consumer.start_consuming()] belongs to
    [operandi_utils.rabbitmq], which is not part of the sources.  Section 5
    has consumption strictly sequential, one message at a time: each
    delivery (its tag and its body) is handed to the callback in turn, and
    an exception of the callback leaves the loop.  [deliveries] are the
    messages the queue delivers while the worker runs. *)
Fixpoint start_consuming {S : Type} (callback_method : nat -> option pyval -> M S unit)
  (deliveries : list (nat * option pyval)) : M S unit :=
  match deliveries with
  | [] => ret tt
  | (delivery_tag, body) :: rest =>
      callback_method delivery_tag body ;; start_consuming callback_method rest
  end.

(** ** The submit worker *)

Module JobSubmitWorker.

(** The instance fields the methods read or write; [rmq_consumer] says
    whether the field holds a consumer ([true]) or [None]. *)
Record t : Type := mk {
  test_sbatch : bool;
  rmq_consumer : bool;
  current_message_delivery_tag : option nat;
  current_message_user_id : pyval;
  current_message_ws_id : pyval;
  current_message_wf_id : pyval;
  current_message_job_id : pyval;
  has_consumed_message : bool
}.

Definition set_rmq_consumer (v : bool) (s : t) : t :=
  mk (test_sbatch s) v (current_message_delivery_tag s) (current_message_user_id s)
     (current_message_ws_id s) (current_message_wf_id s) (current_message_job_id s)
     (has_consumed_message s).

Definition set_current_message_delivery_tag (v : option nat) (s : t) : t :=
  mk (test_sbatch s) (rmq_consumer s) v (current_message_user_id s)
     (current_message_ws_id s) (current_message_wf_id s) (current_message_job_id s)
     (has_consumed_message s).

Definition set_current_message_user_id (v : pyval) (s : t) : t :=
  mk (test_sbatch s) (rmq_consumer s) (current_message_delivery_tag s) v
     (current_message_ws_id s) (current_message_wf_id s) (current_message_job_id s)
     (has_consumed_message s).

Definition set_current_message_ws_id (v : pyval) (s : t) : t :=
  mk (test_sbatch s) (rmq_consumer s) (current_message_delivery_tag s)
     (current_message_user_id s) v (current_message_wf_id s) (current_message_job_id s)
     (has_consumed_message s).

Definition set_current_message_wf_id (v : pyval) (s : t) : t :=
  mk (test_sbatch s) (rmq_consumer s) (current_message_delivery_tag s)
     (current_message_user_id s) (current_message_ws_id s) v (current_message_job_id s)
     (has_consumed_message s).

Definition set_current_message_job_id (v : pyval) (s : t) : t :=
  mk (test_sbatch s) (rmq_consumer s) (current_message_delivery_tag s)
     (current_message_user_id s) (current_message_ws_id s) (current_message_wf_id s) v
     (has_consumed_message s).

Definition set_has_consumed_message (v : bool) (s : t) : t :=
  mk (test_sbatch s) (rmq_consumer s) (current_message_delivery_tag s)
     (current_message_user_id s) (current_message_ws_id s) (current_message_wf_id s)
     (current_message_job_id s) v.

(** What the parsing block of [__callback] leaves in local variables. *)
Record Parsed : Type := mkParsed {
  input_file_grp : pyval;
  remove_file_grps : pyval;
  slurm_job_partition : pyval;
  slurm_job_cpus : Z;
  slurm_job_ram : Z;
  nf_process_forks : Z
}.

(** What the database block of [__callback] leaves in local variables. *)
Record Loaded : Type := mkLoaded {
  workflow_script_path : string;
  nf_uses_mets_server : bool;
  nf_executable_steps : list string;
  workspace_dir : string;
  mets_basename : string;
  ws_pages_amount : Z
}.

Section Methods.

Variable E : Env.

(** [self.rmq_consumer.ack_message(...)]: an attribute of [None] cannot be
    looked up. *)
Definition consumer_ack_message (delivery_tag : option nat) : M t unit :=
  s <- get_self ;;
  if rmq_consumer s then ack_message E delivery_tag else raise OtherException.

Definition consumer_disconnect : M t unit :=
  s <- get_self ;;
  if rmq_consumer s then disconnect E else raise OtherException.

Definition handle_message_failure (interruption set_ws_ready : bool) : M t unit :=
  s <- get_self ;;
  sync_db_update_workflow_job E (current_message_job_id s) StateJob.FAILED ;;
  modify_self (set_has_consumed_message false) ;;
  (if set_ws_ready
   then (s <- get_self ;;
         sync_db_update_workspace E (current_message_ws_id s) StateWorkspace.READY None ;;
         ret tt)
   else ret tt) ;;
  if interruption
  then (s <- get_self ;; consumer_ack_message (current_message_delivery_tag s))
  else (s <- get_self ;;
        consumer_ack_message (current_message_delivery_tag s) ;;
        modify_self (set_current_message_delivery_tag None) ;;
        modify_self (set_current_message_ws_id PNone) ;;
        modify_self (set_current_message_wf_id PNone) ;;
        modify_self (set_current_message_job_id PNone)).

Definition signal_handler : M t unit :=
  s <- get_self ;;
  (if has_consumed_message s then handle_message_failure true false else ret tt) ;;
  consumer_disconnect ;;
  modify_self (set_rmq_consumer false) ;;
  raise SystemExit.

Definition prepare_and_trigger_slurm_job (workflow_job_id workspace_id : pyval)
  (workspace_dir : string) (workspace_base_mets : string) (workflow_script_path : string)
  (input_file_grp : pyval) (nf_process_forks ws_pages_amount : Z) (use_mets_server : bool)
  (nf_executable_steps : list string) (file_groups_to_remove : pyval) (cpus ram : Z)
  (partition : pyval) : M t string :=
  s <- get_self ;;
  let job_deadline_time :=
    if test_sbatch s then HPC_JOB_DEADLINE_TIME_TEST E else HPC_JOB_DEADLINE_TIME_REGULAR E in
  let qos := if test_sbatch s then HPC_JOB_QOS_SHORT E else HPC_JOB_QOS_DEFAULT E in
  r <- try_Exception
         (sync_db_update_workspace E workspace_id StateWorkspace.TRANSFERRING_TO_HPC None ;;
          sync_db_update_workflow_job E workflow_job_id StateJob.TRANSFERRING_TO_HPC ;;
          pack_and_put_slurm_workspace E workspace_dir workflow_job_id workflow_script_path) ;;
  match r with
  | Raise _ => raise OtherException
  | Ok _ =>
      r <- try_Exception
             (trigger_slurm_job E
                (mkTriggerArgs workflow_job_id workflow_script_path workspace_id
                   workspace_base_mets input_file_grp nf_process_forks ws_pages_amount
                   use_mets_server nf_executable_steps file_groups_to_remove cpus ram
                   job_deadline_time partition qos)) ;;
      match r with
      | Raise _ =>
          s <- get_self ;;
          sync_db_increase_processing_stats E (current_message_user_id s) 0 ws_pages_amount ;;
          raise OtherException
      | Ok slurm_job_id =>
          r <- try_Exception
                 (s <- get_self ;;
                  path <- of_res (join (slurm_workspaces_dir E) workflow_job_id) ;;
                  sync_db_create_hpc_slurm_job E (current_message_user_id s) workflow_job_id
                    slurm_job_id (HPC_BATCH_SUBMIT_WORKFLOW_JOB E) path) ;;
          match r with
          | Raise _ => raise OtherException
          | Ok _ => ret slurm_job_id
          end
      end
  end.

(** The first [try] block of [__callback]. *)
Definition parse_message (body : option pyval) : M t Parsed :=
  consumed_message <- loads body ;;
  v <- getitem consumed_message "user_id" ;;
  modify_self (set_current_message_user_id v) ;;
  v <- getitem consumed_message "workspace_id" ;;
  modify_self (set_current_message_ws_id v) ;;
  v <- getitem consumed_message "workflow_id" ;;
  modify_self (set_current_message_wf_id v) ;;
  v <- getitem consumed_message "job_id" ;;
  modify_self (set_current_message_job_id v) ;;
  input_file_grp <- getitem consumed_message "input_file_grp" ;;
  remove_file_grps <- getitem consumed_message "remove_file_grps" ;;
  slurm_job_partition <- getitem consumed_message "partition" ;;
  v <- getitem consumed_message "cpus" ;;
  slurm_job_cpus <- of_res (py_int E v) ;;
  v <- getitem consumed_message "ram" ;;
  slurm_job_ram <- of_res (py_int E v) ;;
  ret (mkParsed input_file_grp remove_file_grps slurm_job_partition slurm_job_cpus
         slurm_job_ram slurm_job_cpus).

(** The second [try] block of [__callback]. *)
Definition load_records : M t Loaded :=
  s <- get_self ;;
  workflow_db <- sync_db_get_workflow E (current_message_wf_id s) ;;
  s <- get_self ;;
  workspace_db <- sync_db_get_workspace E (current_message_ws_id s) ;;
  let mets_basename := DBWorkspace.mets_basename workspace_db in
  ret (mkLoaded (DBWorkflow.workflow_script_path workflow_db)
         (DBWorkflow.uses_mets_server workflow_db)
         (DBWorkflow.executable_steps workflow_db)
         (DBWorkspace.workspace_dir workspace_db)
         (if String.eqb mets_basename EmptyString then "mets.xml" else mets_basename)
         (DBWorkspace.pages_amount workspace_db)).

Definition callback (delivery_tag : nat) (body : option pyval) : M t unit :=
  modify_self (set_current_message_delivery_tag (Some delivery_tag)) ;;
  modify_self (set_has_consumed_message true) ;;
  r <- try_Exception (parse_message body) ;;
  match r with
  | Raise _ => handle_message_failure false false
  | Ok p =>
      r <- try_Exception load_records ;;
      match r with
      | Raise _ => handle_message_failure false true
      | Ok l =>
          r <- try_Exception
                 (s <- get_self ;;
                  prepare_and_trigger_slurm_job (current_message_job_id s)
                    (current_message_ws_id s) (workspace_dir l) (mets_basename l)
                    (workflow_script_path l) (input_file_grp p) (nf_process_forks p)
                    (ws_pages_amount l) (nf_uses_mets_server l) (nf_executable_steps l)
                    (remove_file_grps p) (slurm_job_cpus p) (slurm_job_ram p)
                    (slurm_job_partition p)) ;;
          match r with
          | Raise _ => handle_message_failure false true
          | Ok _ =>
              s <- get_self ;;
              sync_db_update_workflow_job E (current_message_job_id s) StateJob.PENDING ;;
              s <- get_self ;;
              sync_db_update_workspace E (current_message_ws_id s) StateWorkspace.PENDING None ;;
              modify_self (set_has_consumed_message false) ;;
              basic_ack E delivery_tag
          end
      end
  end.

(** [__del__]. *)
Definition __del__ : M t unit :=
  s <- get_self ;;
  if rmq_consumer s then disconnect E else ret tt.

(** [run], on the deliveries of the worker's queue.  Logging and the
    registration of [signal_handler] for SIGINT and SIGTERM are left out. *)
Definition run (deliveries : list (nat * option pyval)) : M t unit :=
  r <- try_Exception
         (setsid E ;;
          sync_db_initiate_database E ;;
          connect_hpc_executor E ;;
          connect_hpc_transfer E ;;
          get_connection_consumer E ;;
          modify_self (set_rmq_consumer true) ;;
          configure_consuming E ;;
          start_consuming (callback) deliveries) ;;
  match r with
  | Raise _ => raise OtherException
  | Ok _ => ret tt
  end.

End Methods.

End JobSubmitWorker.

(** ** The status worker *)

Module JobStatusWorker.

Record t : Type := mk {
  rmq_consumer : bool;
  current_message_delivery_tag : option nat;
  current_message_job_id : pyval;
  has_consumed_message : bool
}.

Definition set_rmq_consumer (v : bool) (s : t) : t :=
  mk v (current_message_delivery_tag s) (current_message_job_id s) (has_consumed_message s).

Definition set_current_message_delivery_tag (v : option nat) (s : t) : t :=
  mk (rmq_consumer s) v (current_message_job_id s) (has_consumed_message s).

Definition set_current_message_job_id (v : pyval) (s : t) : t :=
  mk (rmq_consumer s) (current_message_delivery_tag s) v (has_consumed_message s).

Definition set_has_consumed_message (v : bool) (s : t) : t :=
  mk (rmq_consumer s) (current_message_delivery_tag s) (current_message_job_id s) v.

Definition opt_string_eqb (a b : option string) : bool :=
  match a, b with
  | Some x, Some y => String.eqb x y
  | None, None => true
  | _, _ => false
  end.

Section Methods.

Variable E : Env.

Definition consumer_ack_message (delivery_tag : option nat) : M t unit :=
  s <- get_self ;;
  if rmq_consumer s then ack_message E delivery_tag else raise OtherException.

Definition consumer_disconnect : M t unit :=
  s <- get_self ;;
  if rmq_consumer s then disconnect E else raise OtherException.

Definition download_results_from_hpc (job_dir workspace_dir : string) : M t unit :=
  get_and_unpack_slurm_workspace E workspace_dir job_dir.

(** [Resolver().workspace_from_url(...).mets.file_groups] reads the METS
    file on the local disk; [mets_file_groups] is what it finds there,
    [None] when reading raises. *)
Definition extract_updated_file_groups (db_workspace : DBWorkspace.t) : list string :=
  match mets_file_groups E (DBWorkspace.workspace_mets_path db_workspace)
          (DBWorkspace.mets_basename db_workspace) with
  | Some groups => groups
  | None => ["CORRUPTED FILE GROUPS"]
  end.

Definition handle_hpc_and_workflow_states (hpc_slurm_job_db : DBHPCSlurmJob.t)
  (workflow_job_db : DBWorkflowJob.t) (workspace_db : DBWorkspace.t) : M t unit :=
  let old_slurm_job_state := DBHPCSlurmJob.hpc_slurm_job_state hpc_slurm_job_db in
  new_slurm_job_state <-
    check_slurm_job_state E (DBHPCSlurmJob.hpc_slurm_job_id hpc_slurm_job_db) ;;
  let job_id := PStr (DBWorkflowJob.job_id workflow_job_db) in
  let job_dir := DBWorkflowJob.job_dir workflow_job_db in
  let old_job_state := DBWorkflowJob.job_state workflow_job_db in
  let workspace_id := PStr (DBWorkspace.workspace_id workspace_db) in
  let workspace_dir := DBWorkspace.workspace_dir workspace_db in
  (if negb (opt_string_eqb old_slurm_job_state (Some new_slurm_job_state))
   then (sync_db_update_hpc_slurm_job E job_id new_slurm_job_state ;; ret tt)
   else ret tt) ;;
  new_job_state <- of_res (convert_from_slurm_job E new_slurm_job_state) ;;
  if negb (StateJob.eqb old_job_state new_job_state)
  then
    (match new_job_state with
     | StateJob.SUCCESS =>
         download_slurm_job_log_file E (DBHPCSlurmJob.hpc_slurm_job_id hpc_slurm_job_db) job_dir ;;
         sync_db_update_workspace E workspace_id StateWorkspace.TRANSFERRING_FROM_HPC None ;;
         sync_db_update_workflow_job E job_id StateJob.TRANSFERRING_FROM_HPC ;;
         download_results_from_hpc job_dir workspace_dir ;;
         let updated_file_groups := extract_updated_file_groups workspace_db in
         db_workspace <- sync_db_update_workspace E workspace_id StateWorkspace.READY
                           (Some updated_file_groups) ;;
         s <- get_self ;;
         sync_db_update_workflow_job E (current_message_job_id s) StateJob.SUCCESS ;;
         sync_db_increase_processing_stats E (PStr (DBWorkspace.user_id workspace_db))
           (DBWorkspace.pages_amount db_workspace) 0 ;;
         ret tt
     | _ => ret tt
     end) ;;
    (match new_job_state with
     | StateJob.FAILED =>
         download_slurm_job_log_file E (DBHPCSlurmJob.hpc_slurm_job_id hpc_slurm_job_db) job_dir ;;
         db_workspace <- sync_db_update_workspace E workspace_id StateWorkspace.READY None ;;
         s <- get_self ;;
         sync_db_update_workflow_job E (current_message_job_id s) StateJob.FAILED ;;
         sync_db_increase_processing_stats E (PStr (DBWorkspace.user_id workspace_db))
           0 (DBWorkspace.pages_amount db_workspace) ;;
         ret tt
     | _ => ret tt
     end)
  else ret tt.

Definition handle_message_failure (interruption : bool) : M t unit :=
  modify_self (set_has_consumed_message false) ;;
  if interruption
  then (s <- get_self ;; consumer_ack_message (current_message_delivery_tag s))
  else (s <- get_self ;;
        consumer_ack_message (current_message_delivery_tag s) ;;
        modify_self (set_current_message_delivery_tag None) ;;
        modify_self (set_current_message_job_id PNone)).

(** The first [try] block of [__callback]. *)
Definition parse_message (body : option pyval) : M t unit :=
  consumed_message <- loads body ;;
  v <- getitem consumed_message "job_id" ;;
  modify_self (set_current_message_job_id v).

(** The second [try] block of [__callback]. *)
Definition load_records : M t (DBWorkflowJob.t * DBWorkspace.t * DBHPCSlurmJob.t) :=
  s <- get_self ;;
  db_workflow_job <- sync_db_get_workflow_job E (current_message_job_id s) ;;
  db_workspace <- sync_db_get_workspace E (PStr (DBWorkflowJob.workspace_id db_workflow_job)) ;;
  s <- get_self ;;
  db_hpc_slurm_job <- sync_db_get_hpc_slurm_job E (current_message_job_id s) ;;
  ret (db_workflow_job, db_workspace, db_hpc_slurm_job).

Definition callback (delivery_tag : nat) (body : option pyval) : M t unit :=
  modify_self (set_current_message_delivery_tag (Some delivery_tag)) ;;
  modify_self (set_has_consumed_message true) ;;
  r <- try_Exception (parse_message body) ;;
  match r with
  | Raise _ => handle_message_failure false
  | Ok _ =>
      r <- try_Exception load_records ;;
      match r with
      | Raise _ => handle_message_failure false
      | Ok (db_workflow_job, db_workspace, db_hpc_slurm_job) =>
          r <- try_ValueError
                 (handle_hpc_and_workflow_states db_hpc_slurm_job db_workflow_job db_workspace) ;;
          match r with
          | Raise _ => handle_message_failure false
          | Ok _ =>
              modify_self (set_has_consumed_message false) ;;
              basic_ack E delivery_tag
          end
      end
  end.

Definition signal_handler : M t unit :=
  s <- get_self ;;
  (if has_consumed_message s then handle_message_failure true else ret tt) ;;
  consumer_disconnect ;;
  modify_self (set_rmq_consumer false) ;;
  raise SystemExit.

(** [__del__]. *)
Definition __del__ : M t unit :=
  s <- get_self ;;
  if rmq_consumer s then disconnect E else ret tt.

(** [run], on the deliveries of the worker's queue.  Logging and the
    registration of [signal_handler] for SIGINT and SIGTERM are left out. *)
Definition run (deliveries : list (nat * option pyval)) : M t unit :=
  r <- try_Exception
         (setsid E ;;
          sync_db_initiate_database E ;;
          connect_hpc_executor E ;;
          connect_hpc_transfer E ;;
          get_connection_consumer E ;;
          modify_self (set_rmq_consumer true) ;;
          configure_consuming E ;;
          start_consuming (callback) deliveries) ;;
  match r with
  | Raise _ => raise OtherException
  | Ok _ => ret tt
  end.

End Methods.

End JobStatusWorker.

(** ** The harvester

    A shallow embedding of the methods of class [Harvester]
    ([operandi_harvester/harvester.py]) that submit a workspace to the
    Operandi server and poll the state of the job.  They run in the monad of
    the workers; the job state store and the record of broker events are
    out of their reach and stay as they are. *)

Module Harvester.

(** A response of the server, by what [response.json()] gives for it. *)
Record Response : Type := mkResponse {
  json : Res pyval
}.

(** The waits and the requests to the server, as the harvester makes them. *)
Inductive Action : Type :=
| Sleep (seconds : Z)
| PostWorkflow (nf_script_path : string)
| PostWorkspaceUrl (mets_url file_grp : string)
| PostWorkflowJob (workflow_id workspace_id : pyval) (input_file_grp mets_base : string)
    (cpus ram : Z)
| GetWorkflowJobState (workflow_id job_id : pyval).

(** What the harvester takes as given.  The constants belong to
    [operandi_harvester.constants] and [is_url_responsive] to
    [operandi_utils], which are not part of the sources; [state_equals v s]
    is [v == s] for a member [s] of the enum [StateJob]; [strip] is Python's
    [str.strip]; [file_opens] says whether [open(path, "rb")] succeeds;
    [vd18_ids_lines] are the lines of the file [VD18_IDS_FILE], [None] when
    it cannot be opened; [answer n] is how the [n]-th request ends: with a
    response, or with the exception that [requests.post] or [requests.get]
    raises. *)
Record Net : Type := mkNet {
  TRIES_TILL_TIMEOUT : Z;
  WAIT_TIME_BETWEEN_POLLS : Z;
  USE_WORKSPACE_FILE_GROUP : string;
  VD18_URL : string;
  VD18_METS_EXT : string;
  state_equals : pyval -> StateJob.t -> bool;
  strip : string -> string;
  is_url_responsive : string -> bool;
  file_opens : string -> bool;
  vd18_ids_lines : option (list string);
  answer : nat -> Res Response
}.

(** The instance fields the methods read or write, and [done]: the waits
    and requests made so far, which is no field of the class. *)
Record t : Type := mk {
  default_workflow_id : pyval;
  default_nf_workflow : string;
  done : list Action
}.

Definition set_default_workflow_id (v : pyval) (s : t) : t :=
  mk v (default_nf_workflow s) (done s).

Definition record (a : Action) (s : t) : t :=
  mk (default_workflow_id s) (default_nf_workflow s) (done s ++ [a]).

(** [bool(v)]. *)
Definition truthy (v : pyval) : bool :=
  match v with
  | PNone => false
  | PBool b => b
  | PInt z => negb (z =? 0)%Z
  | PStr s => negb (String.eqb s EmptyString)
  | PList l => match l with [] => false | _ :: _ => true end
  | PDict items => match items with [] => false | _ :: _ => true end
  end.

(** [response.json().get(field_key, None)]; only a dict has [get]. *)
Definition _parse_response_field (response : Response) (field_key : string) : Res pyval :=
  match json response with
  | Raise e => Raise e
  | Ok (PDict items) =>
      match dict_get items field_key with
      | Some resource_id => Ok resource_id
      | None => Ok PNone
      end
  | Ok _ => Raise OtherException
  end.

Section Methods.

Variable N : Net.

(** [time.sleep(seconds)]: a negative length is a [ValueError]. *)
Definition sleep (seconds : Z) : M t unit :=
  if (seconds <? 0)%Z then raise ValueError else modify_self (record (Sleep seconds)).

(** [open(path, "rb")]: a file that cannot be opened is an [OSError]. *)
Definition open_rb (path : string) : M t unit :=
  if file_opens N path then ret tt else raise OtherException.

(** [requests.post(...)] and [requests.get(...)]: the request is the
    [clock w]-th one; it is recorded whether it is answered or raises. *)
Definition send (a : Action) : M t Response :=
  fun w =>
    (answer N (clock w),
     mkWorld (record a (self w)) (store w) (trace w) (Datatypes.S (clock w))).

Definition post_workspace_url (mets_url file_grp : string) : M t pyval :=
  if negb (is_url_responsive N mets_url) then raise ValueError
  else
    response <- send (PostWorkspaceUrl mets_url file_grp) ;;
    workspace_id <- of_res (_parse_response_field response "resource_id") ;;
    if negb (truthy workspace_id) then raise ValueError else ret workspace_id.

Definition post_workflow_nf_script (nf_script_path : string) : M t pyval :=
  open_rb nf_script_path ;;
  response <- send (PostWorkflow nf_script_path) ;;
  workflow_id <- of_res (_parse_response_field response "resource_id") ;;
  if negb (truthy workflow_id) then raise ValueError else ret workflow_id.

Definition post_workflow_job (workflow_id workspace_id : pyval) (input_file_grp mets_base : string)
  (cpus ram : Z) : M t pyval :=
  response <- send (PostWorkflowJob workflow_id workspace_id input_file_grp mets_base cpus ram) ;;
  workflow_job_id <- of_res (_parse_response_field response "resource_id") ;;
  if negb (truthy workflow_job_id) then raise ValueError else ret workflow_job_id.

Definition get_workflow_job_state (workflow_id job_id : pyval) : M t pyval :=
  response <- send (GetWorkflowJobState workflow_id job_id) ;;
  workflow_job_status <- of_res (_parse_response_field response "job_state") ;;
  if negb (truthy workflow_job_status) then raise ValueError else ret workflow_job_status.

(** The [while tries_left > 0] loop of [poll_workflow_job_state], with
    [tries_left] the number of rounds left. *)
Fixpoint poll_loop (tries_left : nat) (workflow_id job_id : pyval) (wait_time : Z) : M t bool :=
  match tries_left with
  | O => ret false
  | Datatypes.S tries_left =>
      sleep wait_time ;;
      r <- try_Exception (get_workflow_job_state workflow_id job_id) ;;
      match r with
      | Raise _ => ret false
      | Ok workflow_job_state =>
          if state_equals N workflow_job_state StateJob.SUCCESS then ret true
          else if state_equals N workflow_job_state StateJob.FAILED then ret false
          else poll_loop tries_left workflow_id job_id wait_time
      end
  end.

Definition poll_workflow_job_state (workflow_id job_id : pyval) (tries wait_time : Z)
  : M t bool :=
  poll_loop (Z.to_nat tries) workflow_id job_id wait_time.

Definition harvest_one_cycle (mets_url nf_script_path : string) (reuse_workflow : bool)
  : M t unit :=
  workflow_id <-
    (if reuse_workflow
     then
       s <- get_self ;;
       if truthy (default_workflow_id s) then ret (default_workflow_id s)
       else
         workflow_id <- post_workflow_nf_script nf_script_path ;;
         modify_self (set_default_workflow_id workflow_id) ;;
         ret workflow_id
     else post_workflow_nf_script nf_script_path) ;;
  workspace_id <- post_workspace_url mets_url (USE_WORKSPACE_FILE_GROUP N) ;;
  s <- get_self ;;
  job_id <- post_workflow_job (default_workflow_id s) workspace_id (USE_WORKSPACE_FILE_GROUP N)
              "mets.xml" 8 32 ;;
  has_finished <- poll_workflow_job_state workflow_id job_id (TRIES_TILL_TIMEOUT N)
                    (WAIT_TIME_BETWEEN_POLLS N) ;;
  if negb has_finished then raise ValueError else ret tt.

(** The [for line in f] loop of [start_harvesting] on the lines still to be
    read. *)
Fixpoint harvest_lines (lines : list string) (harvested_counter limit : Z) : M t unit :=
  match lines with
  | [] => ret tt
  | line :: lines =>
      if String.eqb line EmptyString then ret tt
      else
        let mets_id := strip N line in
        if String.eqb mets_id EmptyString then raise ValueError
        else
          let mets_remote_url := VD18_URL N ++ mets_id ++ VD18_METS_EXT N in
          s <- get_self ;;
          harvest_one_cycle mets_remote_url (default_nf_workflow s) true ;;
          let harvested_counter := (harvested_counter + 1)%Z in
          if (harvested_counter =? limit)%Z then ret tt
          else harvest_lines lines harvested_counter limit
  end.

Definition start_harvesting (limit : Z) : M t unit :=
  lines <- of_option OtherException (vd18_ids_lines N) ;;
  harvest_lines lines 0 limit.

End Methods.

End Harvester.

(** ** Observations on a store, a trace and a message *)

Definition job_state_of (st : Store) (id : pyval) : option StateJob.t :=
  option_map DBWorkflowJob.job_state (find_doc DBWorkflowJob.job_id id (jobs st)).

Definition workspace_state_of (st : Store) (id : pyval) : option StateWorkspace.t :=
  option_map DBWorkspace.state (find_doc DBWorkspace.workspace_id id (workspaces st)).

Definition file_groups_of (st : Store) (id : pyval) : option (list string) :=
  option_map DBWorkspace.file_groups (find_doc DBWorkspace.workspace_id id (workspaces st)).

Definition pages_succeed_of (st : Store) (user : pyval) : option Z :=
  option_map DBProcessingStats.pages_succeed (find_doc DBProcessingStats.user_id user (stats st)).

Definition pages_failed_of (st : Store) (user : pyval) : option Z :=
  option_map DBProcessingStats.pages_failed (find_doc DBProcessingStats.user_id user (stats st)).

(** The handles the store holds for a job. *)
Definition handles_of (st : Store) (job : pyval) : list DBHPCSlurmJob.t :=
  select_docs DBHPCSlurmJob.workflow_job_id job (slurm_jobs st).

(** The delivery tags acknowledged by some events, in order. *)
Fixpoint acked (evs : list Event) : list (option nat) :=
  match evs with
  | [] => []
  | EvAck delivery_tag :: rest => delivery_tag :: acked rest
  | _ :: rest => acked rest
  end.

(** The tags of some deliveries, as acknowledgements carry them. *)
Definition delivery_tags (deliveries : list (nat * option pyval)) : list (option nat) :=
  List.map (fun d => Some (fst d)) deliveries.

(** No workspace of the store has a negative page count. *)
Definition pages_nonnegative (st : Store) : Prop :=
  Forall (fun r => (0 <= DBWorkspace.pages_amount r)%Z) (workspaces st).

(** The events that write a record of the store other than the update of a
    handle's scheduler state. *)
Definition writes_other_than_handle_state (ev : Event) : bool :=
  match ev with
  | EvUpdateWorkflowJob _ _ | EvUpdateWorkspace _ _ _ | EvCreateHPCSlurmJob _
  | EvIncreaseProcessingStats _ _ _ => true
  | _ => false
  end.

(** The job id the submit worker holds when parsing [body] has ended: the
    one of the message when its fields [user_id], [workspace_id],
    [workflow_id] and [job_id] could be read, and otherwise the one that
    was in [current_message_job_id] before. *)
Definition held_job_id (body : option pyval) (s : JobSubmitWorker.t) : pyval :=
  match body with
  | Some (PDict items) =>
      match dict_get items "user_id", dict_get items "workspace_id",
            dict_get items "workflow_id", dict_get items "job_id" with
      | Some _, Some _, Some _, Some job_id => job_id
      | _, _, _, _ => JobSubmitWorker.current_message_job_id s
      end
  | _ => JobSubmitWorker.current_message_job_id s
  end.

(** The number of acknowledgements among some events. *)
Definition acks (evs : list Event) : nat := List.length (filter is_ack evs).

(** The value of field [k] of a message body, [None] for a body without it. *)
Definition message_field (body : option pyval) (k : string) : pyval :=
  match body with
  | Some (PDict items) =>
      match dict_get items k with
      | Some v => v
      | None => PNone
      end
  | _ => PNone
  end.

(** A submission message is well formed when its body is a JSON object with
    the nine fields of the schema and [cpus] and [ram] convert with [int]. *)
Definition well_formed_submission (E : Env) (body : option pyval)
  (user_id workspace_id workflow_id job_id input_file_grp remove_file_grps partition : pyval)
  (cpus ram : Z) : Prop :=
  exists items cpus_value ram_value,
    body = Some (PDict items) /\
    dict_get items "user_id" = Some user_id /\
    dict_get items "workspace_id" = Some workspace_id /\
    dict_get items "workflow_id" = Some workflow_id /\
    dict_get items "job_id" = Some job_id /\
    dict_get items "input_file_grp" = Some input_file_grp /\
    dict_get items "remove_file_grps" = Some remove_file_grps /\
    dict_get items "partition" = Some partition /\
    dict_get items "cpus" = Some cpus_value /\
    py_int E cpus_value = Ok cpus /\
    dict_get items "ram" = Some ram_value /\
    py_int E ram_value = Ok ram.

(** The status worker's reads of the job [job], its workspace and its handle
    fail from [w]. *)
Definition status_read_fails {S : Type} (E : Env) (w : World S) (job : pyval) : Prop :=
  fault E (clock w) <> None \/
  match find_doc DBWorkflowJob.job_id job (jobs (store w)) with
  | None => True
  | Some r =>
      fault E (Datatypes.S (clock w)) <> None \/
      find_doc DBWorkspace.workspace_id (PStr (DBWorkflowJob.workspace_id r))
        (workspaces (store w)) = None \/
      fault E (Datatypes.S (Datatypes.S (clock w))) <> None \/
      find_doc DBHPCSlurmJob.workflow_job_id job (slurm_jobs (store w)) = None
  end.

(** Only the [n]-th outside call fails, and with the [Exception] [e]. *)
Definition fails_only_at (E : Env) (n : nat) (e : exn) : Prop :=
  fault E n = Some e /\ is_Exception e = true /\ forall m, m <> n -> fault E m = None.

(** A read of the submit worker for the workflow [wf] fails from [w] and no
    other call does: the store cannot be reached at the read of the
    workflow, or the workflow record is missing, or the store cannot be
    reached at the read of the workspace. *)
Definition submit_read_error {S : Type} (E : Env) (w : World S) (wf : pyval) : Prop :=
  (exists e, fails_only_at E (clock w) e) \/
  ((forall n, fault E n = None) /\
   find_doc DBWorkflow.workflow_id wf (workflows (store w)) = None) \/
  (exists e,
     fails_only_at E (Datatypes.S (clock w)) e /\
     find_doc DBWorkflow.workflow_id wf (workflows (store w)) <> None).

(** A read of the status worker for the job [job] fails from [w] and no
    other call does: a record is missing, or the store cannot be reached at
    one of the three reads. *)
Definition status_read_error {S : Type} (E : Env) (w : World S) (job : pyval) : Prop :=
  (exists e, fails_only_at E (clock w) e) \/
  ((forall n, fault E n = None) /\ status_read_fails E w job) \/
  (exists e r,
     fails_only_at E (Datatypes.S (clock w)) e /\
     find_doc DBWorkflowJob.job_id job (jobs (store w)) = Some r) \/
  (exists e r ws,
     fails_only_at E (Datatypes.S (Datatypes.S (clock w))) e /\
     find_doc DBWorkflowJob.job_id job (jobs (store w)) = Some r /\
     find_doc DBWorkspace.workspace_id (PStr (DBWorkflowJob.workspace_id r))
       (workspaces (store w)) = Some ws).

(** The [n]-th request is answered with a JSON object whose [job_state] is
    the non-empty value [v]. *)
Definition answers_job_state (N : Harvester.Net) (n : nat) (v : pyval) : Prop :=
  exists response items,
    Harvester.answer N n = Ok response /\
    Harvester.json response = Ok (PDict items) /\
    dict_get items "job_state" = Some v /\
    Harvester.truthy v = true.

(** [k] rounds of polling: a wait and a request each. *)
Fixpoint poll_rounds (k : nat) (wait_time : Z) (workflow_id job_id : pyval)
  : list Harvester.Action :=
  match k with
  | O => []
  | Datatypes.S k =>
      Harvester.Sleep wait_time :: Harvester.GetWorkflowJobState workflow_id job_id
      :: poll_rounds k wait_time workflow_id job_id
  end.

(** The number of workflow scripts uploaded by some actions. *)
Fixpoint uploads (actions : list Harvester.Action) : nat :=
  match actions with
  | [] => O
  | Harvester.PostWorkflow _ :: rest => Datatypes.S (uploads rest)
  | _ :: rest => uploads rest
  end.

(** The number of workspaces submitted by some actions. *)
Fixpoint submissions (actions : list Harvester.Action) : nat :=
  match actions with
  | [] => O
  | Harvester.PostWorkspaceUrl _ _ :: rest => Datatypes.S (submissions rest)
  | _ :: rest => submissions rest
  end.

(** [post m w Q]: running [m] from [w] ends in an outcome and a world that
    satisfy [Q]. *)
Definition post {S A : Type} (m : M S A) (w : World S) (Q : Res A -> World S -> Prop) : Prop :=
  Q (fst (m w)) (snd (m w)).

(** ** Example data

    A small store, two messages and a family of environments, used to run
    the workers on concrete inputs. *)

Module Sample.

Definition convert (slurm_job_state : string) : Res StateJob.t :=
  if String.eqb slurm_job_state "COMPLETED" then Ok StateJob.SUCCESS
  else if String.eqb slurm_job_state "FAILED" then Ok StateJob.FAILED
  else if String.eqb slurm_job_state "RUNNING" then Ok StateJob.RUNNING
  else if String.eqb slurm_job_state "PENDING" then Ok StateJob.PENDING
  else Raise ValueError.

Definition parse_int (s : string) : option Z :=
  if String.eqb s "4" then Some 4%Z
  else if String.eqb s "16" then Some 16%Z
  else None.

(** The environment in which the scheduler reports [reply] for every job,
    the METS file reads as [groups], and outside calls fail as [fault]
    says. *)
Definition env (fault : nat -> option exn) (reply : string) (groups : option (list string)) : Env :=
  mkEnv convert "batch_submit_workflow_job.sh" "48:00:00" "00:30:00" "2h" "normal"
    "/scratch/slurm_workspaces" parse_int fault (fun _ => reply) (fun _ => "4711")
    (fun _ _ => groups).

Definition no_fault : nat -> option exn := fun _ => None.

(** Only the [n]-th outside call fails, with [e]. *)
Definition fault_at (n : nat) (e : exn) : nat -> option exn :=
  fun k => if Nat.eqb k n then Some e else None.

Definition job (st : StateJob.t) : DBWorkflowJob.t :=
  DBWorkflowJob.mk "job1" "ws1" "wf1" "u1" "/jobs/job1" st.

Definition workspace (st : StateWorkspace.t) : DBWorkspace.t :=
  DBWorkspace.mk "ws1" "u1" "/ws/ws1" "/ws/ws1/mets.xml" "mets.xml" 7 ["OCR-D-IMG"] st.

Definition workflow : DBWorkflow.t :=
  DBWorkflow.mk "wf1" "/wf/wf1.nf" false ["ocrd-cis-ocropy-binarize"].

Definition handle (st : string) : DBHPCSlurmJob.t :=
  DBHPCSlurmJob.mk (PStr "u1") "job1" "4711" (Some st)
    "batch_submit_workflow_job.sh" "/scratch/slurm_workspaces/job1".

Definition user_stats : DBProcessingStats.t := DBProcessingStats.mk "u1" 10 2.

(** The store before submission: job and workspace queued, no handle. *)
Definition store_queued : Store :=
  mkStore [job StateJob.QUEUED] [workspace StateWorkspace.QUEUED] [workflow] [] [user_stats].

(** The same store without the workflow record. *)
Definition store_no_workflow : Store :=
  mkStore [job StateJob.QUEUED] [workspace StateWorkspace.QUEUED] [] [] [user_stats].

(** The store after submission, with the handle in scheduler state [st]. *)
Definition store_submitted (st : string) : Store :=
  mkStore [job StateJob.PENDING] [workspace StateWorkspace.PENDING] [workflow] [handle st]
    [user_stats].

(** The submitted store without the handle. *)
Definition store_no_handle : Store :=
  mkStore [job StateJob.PENDING] [workspace StateWorkspace.PENDING] [workflow] [] [user_stats].

(** The store after a run that ended in job state [st]. *)
Definition store_finished (st : StateJob.t) (reply : string) : Store :=
  mkStore [job st] [workspace StateWorkspace.READY] [workflow] [handle reply] [user_stats].

(** The store while the submit worker is staging the workspace. *)
Definition store_staging : Store :=
  mkStore [job StateJob.TRANSFERRING_TO_HPC] [workspace StateWorkspace.TRANSFERRING_TO_HPC]
    [workflow] [] [user_stats].

Definition submit_self : JobSubmitWorker.t :=
  JobSubmitWorker.mk false true None PNone PNone PNone PNone false.

(** The submit worker while it handles delivery 1 for [job1]. *)
Definition submit_self_in_flight : JobSubmitWorker.t :=
  JobSubmitWorker.mk false true (Some 1%nat) (PStr "u1") (PStr "ws1") (PStr "wf1") (PStr "job1")
    true.

Definition status_self : JobStatusWorker.t :=
  JobStatusWorker.mk true None PNone false.

(** The status worker while it handles delivery 1 for [job1]. *)
Definition status_self_in_flight : JobStatusWorker.t :=
  JobStatusWorker.mk true (Some 1%nat) (PStr "job1") true.

(** The world in which the submit worker, started on delivery 1 of the
    submission message, waits for the transfer to the HPC (outside call 4). *)
Definition world_staging : World JobSubmitWorker.t :=
  mkWorld submit_self_in_flight store_staging
    [EvUpdateWorkspace (PStr "ws1") StateWorkspace.TRANSFERRING_TO_HPC None;
     EvUpdateWorkflowJob (PStr "job1") StateJob.TRANSFERRING_TO_HPC]
    4.

(** The world in which the status worker, started on delivery 1 of the
    status message, waits for the scheduler's reply (outside call 3). *)
Definition world_polling : World JobStatusWorker.t :=
  mkWorld status_self_in_flight (store_submitted "RUNNING") [] 3.

Definition submit_message : option pyval :=
  Some (PDict [("user_id", PStr "u1"); ("workspace_id", PStr "ws1"); ("workflow_id", PStr "wf1");
               ("job_id", PStr "job1"); ("input_file_grp", PStr "OCR-D-IMG");
               ("remove_file_grps", PStr EmptyString); ("partition", PStr "standard96");
               ("cpus", PInt 4); ("ram", PInt 16)]).

(** The submission message without its [cpus] field. *)
Definition submit_message_no_cpus : option pyval :=
  Some (PDict [("user_id", PStr "u1"); ("workspace_id", PStr "ws1"); ("workflow_id", PStr "wf1");
               ("job_id", PStr "job1"); ("input_file_grp", PStr "OCR-D-IMG");
               ("remove_file_grps", PStr EmptyString); ("partition", PStr "standard96");
               ("ram", PInt 16)]).

Definition status_message : option pyval :=
  Some (PDict [("job_id", PStr "job1")]).

(** [v == s] for an enum whose members compare equal to their names. *)
Definition state_equals (v : pyval) (s : StateJob.t) : bool :=
  match v with
  | PStr name =>
      String.eqb name
        match s with
        | StateJob.QUEUED => "QUEUED"
        | StateJob.TRANSFERRING_TO_HPC => "TRANSFERRING_TO_HPC"
        | StateJob.PENDING => "PENDING"
        | StateJob.RUNNING => "RUNNING"
        | StateJob.TRANSFERRING_FROM_HPC => "TRANSFERRING_FROM_HPC"
        | StateJob.SUCCESS => "SUCCESS"
        | StateJob.FAILED => "FAILED"
        end
  | _ => false
  end.

Definition newline : string := String (Ascii.ascii_of_nat 10) EmptyString.

(** [str.strip] on a line that has no other white space than the newline
    at its end. *)
Definition strip (line : string) : string :=
  match String.length line with
  | O => line
  | Datatypes.S n =>
      if String.eqb (String.substring n 1 line) newline then String.substring 0 n line
      else line
  end.

Definition job_state_answer (job_state : string) : Res Harvester.Response :=
  Ok (Harvester.mkResponse (Ok (PDict [("job_state", PStr job_state)]))).

(** The server reports RUNNING to the first two requests and SUCCESS to
    the later ones. *)
Definition success_at_third_request (n : nat) : Res Harvester.Response :=
  if Nat.ltb n 2 then job_state_answer "RUNNING" else job_state_answer "SUCCESS".

(** The server answers every request with an object that carries a
    resource id and reports the job state SUCCESS. *)
Definition accepting_server (n : nat) : Res Harvester.Response :=
  Ok (Harvester.mkResponse
        (Ok (PDict [("resource_id", PStr "id1"); ("job_state", PStr "SUCCESS")]))).

(** The harvester's environment: three polls, ten seconds apart, a file of
    two ids, and a server that answers as [answer] says. *)
Definition net (answer : nat -> Res Harvester.Response) : Harvester.Net :=
  Harvester.mkNet 3 10 "DEFAULT" "https://example.org/mets/" ".xml" state_equals strip
    (fun _ => true) (fun _ => true) (Some ["PPN1" ++ newline; "PPN2" ++ newline]) answer.

Definition harvester_self : Harvester.t :=
  Harvester.mk PNone "default_workflow.nf" [].

Definition empty_store : Store := mkStore [] [] [] [] [].

End Sample.

(** ** Documents in a collection *)

Section Documents.

Context {A : Type}.
Variable key : A -> string.

Lemma id_matches_eq (id : pyval) (k : string) :
  id_matches id k = true -> id = PStr k.
Proof.
  destruct id; simpl; try discriminate.
  intros H. apply String.eqb_eq in H. now subst.
Qed.

Lemma id_matches_refl (k : string) : id_matches (PStr k) k = true.
Proof. simpl. apply String.eqb_refl. Qed.

Lemma find_doc_key (id : pyval) (l : list A) (r : A) :
  find_doc key id l = Some r -> id = PStr (key r).
Proof.
  induction l as [|x l IH]; simpl; [discriminate|].
  destruct (id_matches id (key x)) eqn:Hm; [|exact IH].
  intros H. injection H as <-. now apply id_matches_eq.
Qed.

Lemma find_doc_update_same (id : pyval) (f : A -> A) (l : list A) :
  (forall r, key (f r) = key r) ->
  find_doc key id (update_doc key id f l) = option_map f (find_doc key id l).
Proof.
  intros Hk. induction l as [|x l IH]; simpl; [reflexivity|].
  destruct (id_matches id (key x)) eqn:Hm; simpl.
  - now rewrite Hk, Hm.
  - now rewrite Hm.
Qed.

Lemma find_doc_update_other (id id' : pyval) (f : A -> A) (l : list A) :
  (forall r, key (f r) = key r) ->
  id' <> id ->
  find_doc key id' (update_doc key id f l) = find_doc key id' l.
Proof.
  intros Hk Hne. induction l as [|x l IH]; simpl; [reflexivity|].
  destruct (id_matches id (key x)) eqn:Hm; simpl.
  - rewrite Hk. destruct (id_matches id' (key x)) eqn:Hm'; [|reflexivity].
    apply id_matches_eq in Hm, Hm'. congruence.
  - now rewrite IH.
Qed.

Lemma update_doc_missing (id : pyval) (f : A -> A) (l : list A) :
  find_doc key id l = None -> update_doc key id f l = l.
Proof.
  induction l as [|x l IH]; simpl; [reflexivity|].
  destruct (id_matches id (key x)); [discriminate|].
  intros H. now rewrite IH.
Qed.

Lemma select_docs_app (id : pyval) (l l' : list A) :
  select_docs key id (l ++ l') = (select_docs key id l ++ select_docs key id l')%list.
Proof. unfold select_docs. apply filter_app. Qed.

Lemma find_doc_select_nil (id : pyval) (l : list A) :
  select_docs key id l = [] -> find_doc key id l = None.
Proof.
  unfold select_docs. induction l as [|x l IH]; simpl; [reflexivity|].
  destruct (id_matches id (key x)); [discriminate|exact IH].
Qed.

End Documents.

(** ** Rules for [post] *)

Section PostRules.

Context {S : Type}.

Lemma post_ret {A : Type} (a : A) (w : World S) (Q : Res A -> World S -> Prop) :
  Q (Ok a) w -> post (ret a) w Q.
Proof. exact (fun H => H). Qed.

Lemma post_raise {A : Type} (e : exn) (w : World S) (Q : Res A -> World S -> Prop) :
  Q (Raise e) w -> post (raise e) w Q.
Proof. exact (fun H => H). Qed.

Lemma post_of_res {A : Type} (r : Res A) (w : World S) (Q : Res A -> World S -> Prop) :
  Q r w -> post (of_res r) w Q.
Proof. exact (fun H => H). Qed.

Lemma post_get_self (w : World S) (Q : Res S -> World S -> Prop) :
  Q (Ok (self w)) w -> post get_self w Q.
Proof. exact (fun H => H). Qed.

Lemma post_modify_self (f : S -> S) (w : World S) (Q : Res unit -> World S -> Prop) :
  Q (Ok tt) (mkWorld (f (self w)) (store w) (trace w) (clock w)) -> post (modify_self f) w Q.
Proof. exact (fun H => H). Qed.

Lemma post_bind {A B : Type} (m : M S A) (k : A -> M S B) (w : World S)
  (Q : Res B -> World S -> Prop) :
  post m w (fun r w1 =>
    match r with
    | Ok a => post (k a) w1 Q
    | Raise e => Q (Raise e) w1
    end) ->
  post (bind m k) w Q.
Proof.
  unfold post, bind. destruct (m w) as [[a|e] w1]; simpl; exact (fun H => H).
Qed.

Lemma post_try_Exception {A : Type} (m : M S A) (w : World S)
  (Q : Res (Res A) -> World S -> Prop) :
  post m w (fun r w1 =>
    match r with
    | Ok a => Q (Ok (Ok a)) w1
    | Raise e => if is_Exception e then Q (Ok (Raise e)) w1 else Q (Raise e) w1
    end) ->
  post (try_Exception m) w Q.
Proof.
  unfold post, try_Exception. destruct (m w) as [[a|e] w1]; simpl; [exact (fun H => H)|].
  destruct (is_Exception e); exact (fun H => H).
Qed.

Lemma post_try_ValueError {A : Type} (m : M S A) (w : World S)
  (Q : Res (Res A) -> World S -> Prop) :
  post m w (fun r w1 =>
    match r with
    | Ok a => Q (Ok (Ok a)) w1
    | Raise e => if is_ValueError e then Q (Ok (Raise e)) w1 else Q (Raise e) w1
    end) ->
  post (try_ValueError m) w Q.
Proof.
  unfold post, try_ValueError. destruct (m w) as [[a|e] w1]; simpl; [exact (fun H => H)|].
  destruct (is_ValueError e); exact (fun H => H).
Qed.

Lemma post_outside {A : Type} (E : Env) (call : Store -> Res (A * Store * list Event))
  (w : World S) (Q : Res A -> World S -> Prop) :
  (forall e, fault E (clock w) = Some e ->
     Q (Raise e) (mkWorld (self w) (store w) (trace w) (Datatypes.S (clock w)))) ->
  (fault E (clock w) = None ->
     match call (store w) with
     | Ok (a, st, evs) => Q (Ok a) (mkWorld (self w) st (trace w ++ evs) (Datatypes.S (clock w)))
     | Raise e => Q (Raise e) (mkWorld (self w) (store w) (trace w) (Datatypes.S (clock w)))
     end) ->
  post (outside E call) w Q.
Proof.
  intros Hf Hc. unfold post, outside.
  destruct (fault E (clock w)) as [e|]; [now apply Hf|].
  specialize (Hc eq_refl). destruct (call (store w)) as [[[a st] evs]|e]; exact Hc.
Qed.

Lemma post_mono {A : Type} (m : M S A) (w : World S) (Q Q' : Res A -> World S -> Prop) :
  post m w Q -> (forall r w', Q r w' -> Q' r w') -> post m w Q'.
Proof. unfold post. auto. Qed.

Lemma post_run {A : Type} (m : M S A) (w : World S) (Q : Res A -> World S -> Prop) :
  post m w Q -> forall r w', m w = (r, w') -> Q r w'.
Proof. unfold post. intros H r w' Hm. now rewrite Hm in H. Qed.

End PostRules.

(** ** Facts about the enumerations and the record updates *)

Lemma StateJob_eqb_eq (a b : StateJob.t) : StateJob.eqb a b = true <-> a = b.
Proof. destruct a, b; simpl; split; intros H; (reflexivity || discriminate). Qed.

Lemma StateJob_eqb_refl (a : StateJob.t) : StateJob.eqb a a = true.
Proof. now apply StateJob_eqb_eq. Qed.

Lemma workspace_change_id (st : StateWorkspace.t) (g : option (list string)) (r : DBWorkspace.t) :
  DBWorkspace.workspace_id (workspace_change st g r) = DBWorkspace.workspace_id r.
Proof. now destruct g. Qed.

Lemma find_job_update_same (id : pyval) (st : StateJob.t) (l : list DBWorkflowJob.t) :
  find_doc DBWorkflowJob.job_id id
    (update_doc DBWorkflowJob.job_id id (DBWorkflowJob.with_job_state st) l)
  = option_map (DBWorkflowJob.with_job_state st) (find_doc DBWorkflowJob.job_id id l).
Proof. now apply find_doc_update_same. Qed.

Lemma find_workspace_update_same (id : pyval) (st : StateWorkspace.t) (g : option (list string))
  (l : list DBWorkspace.t) :
  find_doc DBWorkspace.workspace_id id
    (update_doc DBWorkspace.workspace_id id (workspace_change st g) l)
  = option_map (workspace_change st g) (find_doc DBWorkspace.workspace_id id l).
Proof. apply find_doc_update_same. apply workspace_change_id. Qed.

Lemma find_handle_update_same (id : pyval) (s : string) (l : list DBHPCSlurmJob.t) :
  find_doc DBHPCSlurmJob.workflow_job_id id
    (update_doc DBHPCSlurmJob.workflow_job_id id (DBHPCSlurmJob.with_hpc_slurm_job_state s) l)
  = option_map (DBHPCSlurmJob.with_hpc_slurm_job_state s)
      (find_doc DBHPCSlurmJob.workflow_job_id id l).
Proof. now apply find_doc_update_same. Qed.

Lemma find_stats_update_same (id : pyval) (a b : Z) (l : list DBProcessingStats.t) :
  find_doc DBProcessingStats.user_id id
    (update_doc DBProcessingStats.user_id id (DBProcessingStats.increase a b) l)
  = option_map (DBProcessingStats.increase a b) (find_doc DBProcessingStats.user_id id l).
Proof. now apply find_doc_update_same. Qed.

Create Rewrite HintDb store.
#[local] Hint Rewrite find_job_update_same find_workspace_update_same find_handle_update_same
  find_stats_update_same : store.

Lemma join_str (a b : string) : exists path, join a (PStr b) = Ok path.
Proof.
  unfold join. destruct (String.prefix "/" b); [eauto|].
  destruct (String.eqb a EmptyString || ends_with_slash a)%bool; eauto.
Qed.

(** ** Symbolic execution of worker methods *)

Ltac wp_simpl :=
  cbn beta iota delta
    [self store trace clock jobs workspaces workflows slurm_jobs stats fst snd option_map negb
     JobStatusWorker.rmq_consumer JobStatusWorker.current_message_delivery_tag
     JobStatusWorker.current_message_job_id JobStatusWorker.has_consumed_message
     JobStatusWorker.set_rmq_consumer JobStatusWorker.set_current_message_delivery_tag
     JobStatusWorker.set_current_message_job_id JobStatusWorker.set_has_consumed_message
     JobSubmitWorker.test_sbatch JobSubmitWorker.rmq_consumer
     JobSubmitWorker.current_message_delivery_tag JobSubmitWorker.current_message_user_id
     JobSubmitWorker.current_message_ws_id JobSubmitWorker.current_message_wf_id
     JobSubmitWorker.current_message_job_id JobSubmitWorker.has_consumed_message
     JobSubmitWorker.set_rmq_consumer JobSubmitWorker.set_current_message_delivery_tag
     JobSubmitWorker.set_current_message_user_id JobSubmitWorker.set_current_message_ws_id
     JobSubmitWorker.set_current_message_wf_id JobSubmitWorker.set_current_message_job_id
     JobSubmitWorker.set_has_consumed_message
     JobSubmitWorker.input_file_grp JobSubmitWorker.remove_file_grps
     JobSubmitWorker.slurm_job_partition JobSubmitWorker.slurm_job_cpus
     JobSubmitWorker.slurm_job_ram JobSubmitWorker.nf_process_forks
     JobSubmitWorker.workflow_script_path JobSubmitWorker.nf_uses_mets_server
     JobSubmitWorker.nf_executable_steps JobSubmitWorker.workspace_dir
     JobSubmitWorker.mets_basename JobSubmitWorker.ws_pages_amount] in *.

(** A fault contradicts the assumption that no outside call fails. *)
Ltac no_fault :=
  match goal with
  | Hnf : forall n, fault ?E n = None, Hf : fault ?E _ = Some _ |- _ =>
      rewrite Hnf in Hf; discriminate Hf
  end.

Ltac head t :=
  lazymatch t with
  | ?f _ => head f
  | _ => t
  end.

(** The scrutinee on which a term that is a [match] is stuck. *)
Ltac scrutinee t :=
  lazymatch t with
  | match ?x with _ => _ end =>
      lazymatch x with
      | match _ with _ => _ end => scrutinee x
      | negb ?y => y
      | _ => x
      end
  end.

(** Settles a scrutinee: by an equation of the context when there is one,
    by cases otherwise. *)
Ltac settle x :=
  first [ match goal with H : x = _ |- _ => rewrite H end
        | match goal with
          | H : find_doc ?k ?i ?l = _ |- _ =>
              match x with context [find_doc k i l] => rewrite H end
          end
        | destruct x eqn:? ].

Ltac wp_step :=
  lazymatch goal with
  | |- post (bind _ _) _ _ => apply post_bind
  | |- post (ret _) _ _ => apply post_ret
  | |- post (raise _) _ _ => apply post_raise
  | |- post (of_res _) _ _ => apply post_of_res
  | |- post get_self _ _ => apply post_get_self
  | |- post (modify_self _) _ _ => apply post_modify_self
  | |- post (try_Exception _) _ _ => apply post_try_Exception
  | |- post (try_ValueError _) _ _ => apply post_try_ValueError
  | |- post (outside _ _) _ _ =>
      apply post_outside; [intros ?e ?Hfault; try no_fault | intros ?Hfault]
  | |- post ?m _ _ =>
      first [ let x := scrutinee m in settle x | let h := head m in unfold h ]
  | |- ?G => let x := scrutinee G in settle x
  end; wp_simpl; try (progress autorewrite with store; wp_simpl).

(** Brings a trace into the shape [trace w ++ events]. *)
Ltac trace_norm := rewrite <- ?app_assoc, ?app_nil_r; cbn [app].

Ltac observe :=
  unfold job_state_of, workspace_state_of, file_groups_of, pages_succeed_of, pages_failed_of,
    handles_of;
  wp_simpl; autorewrite with store; wp_simpl.

(** Closes a branch in which two hypotheses give one term different
    constructors, or in which an exception is of the wrong class. *)
Ltac absurd_branch :=
  solve [ discriminate
        | match goal with
          | H1 : ?x = _, H2 : ?x = _ |- _ => rewrite H1 in H2; discriminate H2
          | H : is_Exception _ = _ |- _ => simpl in H; discriminate H
          | H : is_ValueError _ = _ |- _ => simpl in H; discriminate H
          end ].

(** Settles a goal [exists evs, trace = trace w ++ evs /\ _] on a trace in
    canonical shape. *)
Ltac added_events :=
  trace_norm;
  first [ eexists; split; [reflexivity|]
        | exists []; split; [now rewrite app_nil_r|] ].

Section StatusProperties.

Variable E : Env.

(** C5.  When the stored job state is already the state mapped from the
    scheduler's reply, as on redelivery of a status message for a finished
    job, handling the message leaves the statistics, the workspaces (so
    their file groups) and the jobs as they were: the transition branches
    sit behind the test that the mapped state differs from the stored one. *)
Theorem C5_redelivery_at_mapped_state_is_noop (tag : nat) (body : option pyval)
  (w : World JobStatusWorker.t) :
  (forall job handle,
     find_doc DBWorkflowJob.job_id (message_field body "job_id") (jobs (store w)) = Some job ->
     find_doc DBHPCSlurmJob.workflow_job_id (message_field body "job_id")
       (slurm_jobs (store w)) = Some handle ->
     convert_from_slurm_job E (slurm_state_reply E (DBHPCSlurmJob.hpc_slurm_job_id handle))
       = Ok (DBWorkflowJob.job_state job)) ->
  post (JobStatusWorker.callback E tag body) w (fun _ w' =>
    stats (store w') = stats (store w) /\
    workspaces (store w') = workspaces (store w) /\
    jobs (store w') = jobs (store w)).
Proof.
  intros H. unfold message_field in H.
  repeat (wp_step;
          try solve [intuition eauto
                    | match goal with
                      | Hc : convert_from_slurm_job _ _ = Ok ?a,
                        Hb : StateJob.eqb _ ?a = false |- _ =>
                          exfalso; erewrite H in Hc; [| first [reflexivity | eassumption] ..];
                          injection Hc as <-; rewrite StateJob_eqb_refl in Hb; discriminate Hb
                      end]).
Qed.

(** C10.  When the state mapped from the scheduler's reply is neither
    SUCCESS nor FAILED, handling a status message writes no job, workspace
    or statistics record, whatever else happens: no such write is among the
    outside effects, and those collections are as before.  The one record
    that can change is the handle, whose stored scheduler state is
    replaced. *)
Theorem C10_nonterminal_state_writes_only_handle (tag : nat) (body : option pyval)
  (w : World JobStatusWorker.t) :
  (forall job handle new_job_state,
     find_doc DBWorkflowJob.job_id (message_field body "job_id") (jobs (store w)) = Some job ->
     find_doc DBHPCSlurmJob.workflow_job_id (message_field body "job_id")
       (slurm_jobs (store w)) = Some handle ->
     convert_from_slurm_job E (slurm_state_reply E (DBHPCSlurmJob.hpc_slurm_job_id handle))
       = Ok new_job_state ->
     new_job_state <> StateJob.SUCCESS /\ new_job_state <> StateJob.FAILED) ->
  post (JobStatusWorker.callback E tag body) w (fun r w' =>
    jobs (store w') = jobs (store w) /\
    workspaces (store w') = workspaces (store w) /\
    workflows (store w') = workflows (store w) /\
    stats (store w') = stats (store w) /\
    (slurm_jobs (store w') = slurm_jobs (store w) \/
     exists new_slurm_job_state,
       slurm_jobs (store w') =
         update_doc DBHPCSlurmJob.workflow_job_id (message_field body "job_id")
           (DBHPCSlurmJob.with_hpc_slurm_job_state new_slurm_job_state)
           (slurm_jobs (store w))) /\
    exists evs,
      trace w' = (trace w ++ evs)%list /\
      forallb (fun ev => negb (writes_other_than_handle_state ev)) evs = true).
Proof.
  intros H. unfold message_field in *.
  repeat (wp_step;
          try solve [ match goal with
                      | Hc : convert_from_slurm_job _ _ = Ok _ |- _ =>
                          exfalso; edestruct H as [? ?];
                          [first [reflexivity | eassumption] .. | congruence]
                      end ]).
  all: try match goal with
           | Hj : find_doc DBWorkflowJob.job_id ?p _ = Some ?t |- _ =>
               rewrite (find_doc_key _ _ _ _ Hj)
           end.
  all: do 4 (split; [reflexivity|]).
  all: (split; [first [left; reflexivity | right; eexists; reflexivity]|]).
  all: added_events; reflexivity.
Qed.

End StatusProperties.

Section StatusTransitions.

Variable E : Env.

Hypothesis no_faults : forall n, fault E n = None.

(** C6.  When no outside call fails, the records are in the store and the
    scheduler's reply maps to SUCCESS while the stored job state is not
    SUCCESS, handling the status message returns normally after, in this
    order: querying the scheduler (and storing a changed scheduler state),
    downloading the log file, setting workspace and job to
    TRANSFERRING_FROM_HPC, fetching and unpacking the workspace, setting the
    workspace READY with the file groups read from the METS file, or with
    the marker CORRUPTED FILE GROUPS when it cannot be read, setting the job
    SUCCESS, adding the workspace's page count to [pages_succeed], and
    acknowledging. *)
Theorem C6_transition_to_success (tag : nat) (body : option pyval) (w : World JobStatusWorker.t)
  (job : DBWorkflowJob.t) (ws : DBWorkspace.t) (handle : DBHPCSlurmJob.t)
  (user_stats : DBProcessingStats.t) :
  let job_id := message_field body "job_id" in
  let ws_id := PStr (DBWorkflowJob.workspace_id job) in
  let user := PStr (DBWorkspace.user_id ws) in
  let slurm_id := DBHPCSlurmJob.hpc_slurm_job_id handle in
  let reply := slurm_state_reply E slurm_id in
  let groups := JobStatusWorker.extract_updated_file_groups E ws in
  find_doc DBWorkflowJob.job_id job_id (jobs (store w)) = Some job ->
  find_doc DBWorkspace.workspace_id ws_id (workspaces (store w)) = Some ws ->
  find_doc DBHPCSlurmJob.workflow_job_id job_id (slurm_jobs (store w)) = Some handle ->
  find_doc DBProcessingStats.user_id user (stats (store w)) = Some user_stats ->
  convert_from_slurm_job E reply = Ok StateJob.SUCCESS ->
  DBWorkflowJob.job_state job <> StateJob.SUCCESS ->
  (forall found,
     mets_file_groups E (DBWorkspace.workspace_mets_path ws) (DBWorkspace.mets_basename ws)
       = Some found -> groups = found) /\
  (mets_file_groups E (DBWorkspace.workspace_mets_path ws) (DBWorkspace.mets_basename ws)
     = None -> groups = ["CORRUPTED FILE GROUPS"]) /\
  post (JobStatusWorker.callback E tag body) w (fun r w' =>
    r = Ok tt /\
    trace w' =
      (trace w
       ++ [EvCheckSlurmJobState slurm_id]
       ++ (if JobStatusWorker.opt_string_eqb (DBHPCSlurmJob.hpc_slurm_job_state handle)
                (Some reply)
           then [] else [EvUpdateHPCSlurmJob job_id reply])
       ++ [EvDownloadSlurmJobLogFile slurm_id (DBWorkflowJob.job_dir job);
           EvUpdateWorkspace ws_id StateWorkspace.TRANSFERRING_FROM_HPC None;
           EvUpdateWorkflowJob job_id StateJob.TRANSFERRING_FROM_HPC;
           EvGetAndUnpackSlurmWorkspace (DBWorkspace.workspace_dir ws)
             (DBWorkflowJob.job_dir job);
           EvUpdateWorkspace ws_id StateWorkspace.READY (Some groups);
           EvUpdateWorkflowJob job_id StateJob.SUCCESS;
           EvIncreaseProcessingStats user (DBWorkspace.pages_amount ws) 0;
           EvAck (Some tag)])%list /\
    find_doc DBWorkspace.workspace_id ws_id (workspaces (store w'))
      = Some (DBWorkspace.with_file_groups groups
                (DBWorkspace.with_state StateWorkspace.READY ws)) /\
    job_state_of (store w') job_id = Some StateJob.SUCCESS /\
    pages_succeed_of (store w') user
      = Some (DBProcessingStats.pages_succeed user_stats + DBWorkspace.pages_amount ws)%Z /\
    pages_failed_of (store w') user = Some (DBProcessingStats.pages_failed user_stats)).
Proof.
  intros job_id ws_id user slurm_id reply groups Hjob Hws Hhandle Hstats Hconv Hstate.
  subst job_id ws_id user slurm_id reply groups.
  split; [|split].
  { intros found Hm. unfold JobStatusWorker.extract_updated_file_groups. now rewrite Hm. }
  { intros Hm. unfold JobStatusWorker.extract_updated_file_groups. now rewrite Hm. }
  pose proof (find_doc_key _ _ _ _ Hjob) as Hid.
  pose proof (find_doc_key _ _ _ _ Hws) as Hwid.
  injection Hwid as Hwid.
  unfold message_field in *.
  destruct body as [[| | | |l|items]|]; try discriminate Hid.
  destruct (dict_get items "job_id") as [v|] eqn:Hget; try discriminate Hid.
  subst v. pose proof Hws as Hws'. rewrite Hwid in Hws' |- *.
  repeat (wp_step; try congruence).
  all: try (exfalso; apply Hstate; now apply StateJob_eqb_eq).
  all: trace_norm; observe.
  all: rewrite ?Hws', ?Hjob, ?Hstats; wp_simpl.
  all: repeat split; simpl; rewrite ?Z.add_0_r; reflexivity.
Qed.

(** C7.  When no outside call fails, the records are in the store and the
    scheduler's reply maps to FAILED while the stored job state is not
    FAILED, handling the status message returns normally after downloading
    the log file, setting the workspace READY with its file groups as they
    were, setting the job FAILED, adding the workspace's page count to
    [pages_failed], and acknowledging. *)
Theorem C7_transition_to_failed (tag : nat) (body : option pyval) (w : World JobStatusWorker.t)
  (job : DBWorkflowJob.t) (ws : DBWorkspace.t) (handle : DBHPCSlurmJob.t)
  (user_stats : DBProcessingStats.t) :
  let job_id := message_field body "job_id" in
  let ws_id := PStr (DBWorkflowJob.workspace_id job) in
  let user := PStr (DBWorkspace.user_id ws) in
  let slurm_id := DBHPCSlurmJob.hpc_slurm_job_id handle in
  let reply := slurm_state_reply E slurm_id in
  find_doc DBWorkflowJob.job_id job_id (jobs (store w)) = Some job ->
  find_doc DBWorkspace.workspace_id ws_id (workspaces (store w)) = Some ws ->
  find_doc DBHPCSlurmJob.workflow_job_id job_id (slurm_jobs (store w)) = Some handle ->
  find_doc DBProcessingStats.user_id user (stats (store w)) = Some user_stats ->
  convert_from_slurm_job E reply = Ok StateJob.FAILED ->
  DBWorkflowJob.job_state job <> StateJob.FAILED ->
  post (JobStatusWorker.callback E tag body) w (fun r w' =>
    r = Ok tt /\
    trace w' =
      (trace w
       ++ [EvCheckSlurmJobState slurm_id]
       ++ (if JobStatusWorker.opt_string_eqb (DBHPCSlurmJob.hpc_slurm_job_state handle)
                (Some reply)
           then [] else [EvUpdateHPCSlurmJob job_id reply])
       ++ [EvDownloadSlurmJobLogFile slurm_id (DBWorkflowJob.job_dir job);
           EvUpdateWorkspace ws_id StateWorkspace.READY None;
           EvUpdateWorkflowJob job_id StateJob.FAILED;
           EvIncreaseProcessingStats user 0 (DBWorkspace.pages_amount ws);
           EvAck (Some tag)])%list /\
    workspace_state_of (store w') ws_id = Some StateWorkspace.READY /\
    file_groups_of (store w') ws_id = Some (DBWorkspace.file_groups ws) /\
    job_state_of (store w') job_id = Some StateJob.FAILED /\
    pages_failed_of (store w') user
      = Some (DBProcessingStats.pages_failed user_stats + DBWorkspace.pages_amount ws)%Z /\
    pages_succeed_of (store w') user = Some (DBProcessingStats.pages_succeed user_stats)).
Proof.
  intros job_id ws_id user slurm_id reply Hjob Hws Hhandle Hstats Hconv Hstate.
  subst job_id ws_id user slurm_id reply.
  pose proof (find_doc_key _ _ _ _ Hjob) as Hid.
  pose proof (find_doc_key _ _ _ _ Hws) as Hwid.
  injection Hwid as Hwid.
  unfold message_field in *.
  destruct body as [[| | | |l|items]|]; try discriminate Hid.
  destruct (dict_get items "job_id") as [v|] eqn:Hget; try discriminate Hid.
  subst v. pose proof Hws as Hws'. rewrite Hwid in Hws' |- *.
  repeat (wp_step; try congruence).
  all: try (exfalso; apply Hstate; now apply StateJob_eqb_eq).
  all: trace_norm; observe.
  all: rewrite ?Hws', ?Hjob, ?Hstats; wp_simpl.
  all: repeat split; simpl; rewrite ?Z.add_0_r; reflexivity.
Qed.

End StatusTransitions.

Section SubmitSuccess.

Variable E : Env.

Hypothesis no_faults : forall n, fault E n = None.

(** C8, amended.  For a well-formed submission message whose workflow,
    workspace and job are in the store, and with no outside call failing,
    handling returns normally; it adds exactly one handle for the job to
    those the store held (so afterwards there is exactly one when there was
    none before), the [hpc_slurm_job_id] of the new handle is what the
    gateway's [trigger_slurm_job] returned, job and workspace are PENDING,
    and the acknowledgement is the last outside call, after every write. *)
Theorem C8_successful_submission (tag : nat) (body : option pyval) (w : World JobSubmitWorker.t)
  (user_id workspace_id workflow_id job_id input_file_grp remove_file_grps partition : pyval)
  (cpus ram : Z) (workflow : DBWorkflow.t) (ws : DBWorkspace.t) (job : DBWorkflowJob.t) :
  let script := DBWorkflow.workflow_script_path workflow in
  let mets :=
    if String.eqb (DBWorkspace.mets_basename ws) EmptyString then "mets.xml"
    else DBWorkspace.mets_basename ws in
  let args :=
    mkTriggerArgs job_id script workspace_id mets input_file_grp cpus
      (DBWorkspace.pages_amount ws) (DBWorkflow.uses_mets_server workflow)
      (DBWorkflow.executable_steps workflow) remove_file_grps cpus ram
      (if JobSubmitWorker.test_sbatch (self w)
       then HPC_JOB_DEADLINE_TIME_TEST E else HPC_JOB_DEADLINE_TIME_REGULAR E)
      partition
      (if JobSubmitWorker.test_sbatch (self w)
       then HPC_JOB_QOS_SHORT E else HPC_JOB_QOS_DEFAULT E) in
  well_formed_submission E body user_id workspace_id workflow_id job_id input_file_grp
    remove_file_grps partition cpus ram ->
  find_doc DBWorkflow.workflow_id workflow_id (workflows (store w)) = Some workflow ->
  find_doc DBWorkspace.workspace_id workspace_id (workspaces (store w)) = Some ws ->
  find_doc DBWorkflowJob.job_id job_id (jobs (store w)) = Some job ->
  post (JobSubmitWorker.callback E tag body) w (fun r w' =>
    r = Ok tt /\
    exists path,
      let handle :=
        DBHPCSlurmJob.mk user_id (DBWorkflowJob.job_id job) (slurm_id_reply E args) None
          (HPC_BATCH_SUBMIT_WORKFLOW_JOB E) path in
      join (slurm_workspaces_dir E) job_id = Ok path /\
      handles_of (store w') job_id = (handles_of (store w) job_id ++ [handle])%list /\
      (handles_of (store w) job_id = [] -> handles_of (store w') job_id = [handle]) /\
      job_state_of (store w') job_id = Some StateJob.PENDING /\
      workspace_state_of (store w') workspace_id = Some StateWorkspace.PENDING /\
      trace w' =
        (trace w
         ++ [EvUpdateWorkspace workspace_id StateWorkspace.TRANSFERRING_TO_HPC None;
             EvUpdateWorkflowJob job_id StateJob.TRANSFERRING_TO_HPC;
             EvPackAndPutSlurmWorkspace (DBWorkspace.workspace_dir ws) job_id script;
             EvTriggerSlurmJob args;
             EvCreateHPCSlurmJob handle;
             EvUpdateWorkflowJob job_id StateJob.PENDING;
             EvUpdateWorkspace workspace_id StateWorkspace.PENDING None;
             EvAck (Some tag)])%list).
Proof.
  intros script mets args Hwf Hworkflow Hws Hjob.
  subst script mets args.
  destruct Hwf as (items & cv & rv & -> & Huser & Hwsid & Hwfid & Hjid & Hgrp & Hrm & Hpart
                   & Hcv & Hcpus & Hrv & Hram).
  pose proof (find_doc_key _ _ _ _ Hjob) as ->.
  destruct (join_str (slurm_workspaces_dir E) (DBWorkflowJob.job_id job)) as [path Hpath].
  repeat (wp_step; try congruence).
  all: split; [reflexivity|]; exists path; split; [reflexivity|].
  all: trace_norm; observe.
  all: rewrite ?Hws, ?Hjob; wp_simpl.
  all: assert (Hadded :
                 forall doc,
                   DBHPCSlurmJob.workflow_job_id doc = DBWorkflowJob.job_id job ->
                   select_docs DBHPCSlurmJob.workflow_job_id (PStr (DBWorkflowJob.job_id job))
                     (slurm_jobs (store w) ++ [doc])
                   = (select_docs DBHPCSlurmJob.workflow_job_id
                        (PStr (DBWorkflowJob.job_id job)) (slurm_jobs (store w))
                      ++ [doc])%list)
         by (intros doc Hdoc; rewrite select_docs_app; unfold select_docs at 2;
             cbn [filter id_matches]; rewrite Hdoc, String.eqb_refl; reflexivity).
  all: rewrite Hadded by reflexivity.
  all: split; [reflexivity|]; split; [intros ->; reflexivity|].
  all: repeat split; reflexivity.
Qed.

End SubmitSuccess.

(** The outside calls from [clock w] to [clock w + 4] when only call [n]
    fails. *)
Ltac only_fault H w :=
  let Hf := fresh "Hf" in
  let He := fresh "He" in
  let Ho := fresh "Ho" in
  destruct H as (Hf & He & Ho);
  let go n :=
    first [ assert (fault _ n = None) by (apply Ho; lia)
          | idtac ] in
  go (clock w); go (1 + clock w)%nat; go (2 + clock w)%nat; go (3 + clock w)%nat;
  go (4 + clock w)%nat; cbn [Nat.add] in *.

Ltac read_error_cases Herr w :=
  repeat match type of Herr with
         | _ \/ _ => destruct Herr as [Herr|Herr]
         end;
  repeat match type of Herr with
         | exists _, _ => let x := fresh "x" in destruct Herr as [x Herr]
         end;
  repeat match type of Herr with
         | fails_only_at _ _ _ /\ _ =>
             let H := fresh "Hrest" in destruct Herr as [Herr H]
         end;
  try match type of Herr with
      | fails_only_at _ _ _ => only_fault Herr w
      end.

Section ReadFailures.

Variable E : Env.

(** C4, amended.  In the submit worker, when a read fails for a well-formed
    message (the store cannot be reached at the read of the workflow or of
    the workspace, or the workflow record is missing) while the job and the
    workspace are in the store, the consumer is connected and no other call
    fails, handling returns normally: the job has been set FAILED, the
    workspace READY and the message acknowledged, in this order and with no
    other outside effect.  In the status worker, when a read of the job,
    its workspace or its handle fails, the store is left as it was (the job
    is not marked FAILED) whatever else happens, and the acknowledgement is
    the one outside effect exactly when handling returns normally; handling
    does return normally when the message decodes, the consumer is
    connected and no other call fails.  (A missing workspace record in the
    submit worker is left out.) *)
Theorem C4_store_read_failure (tag : nat) :
  (forall (body : option pyval) (w : World JobSubmitWorker.t)
     (user_id workspace_id workflow_id job_id input_file_grp remove_file_grps partition : pyval)
     (cpus ram : Z) (ws : DBWorkspace.t) (job : DBWorkflowJob.t),
     well_formed_submission E body user_id workspace_id workflow_id job_id input_file_grp
       remove_file_grps partition cpus ram ->
     submit_read_error E w workflow_id ->
     find_doc DBWorkspace.workspace_id workspace_id (workspaces (store w)) = Some ws ->
     find_doc DBWorkflowJob.job_id job_id (jobs (store w)) = Some job ->
     JobSubmitWorker.rmq_consumer (self w) = true ->
     post (JobSubmitWorker.callback E tag body) w (fun r w' =>
       r = Ok tt /\
       trace w' =
         (trace w ++ [EvUpdateWorkflowJob job_id StateJob.FAILED;
                      EvUpdateWorkspace workspace_id StateWorkspace.READY None;
                      EvAck (Some tag)])%list /\
       job_state_of (store w') job_id = Some StateJob.FAILED /\
       workspace_state_of (store w') workspace_id = Some StateWorkspace.READY)) /\
  (forall (body : option pyval) (w : World JobStatusWorker.t),
     status_read_fails E w (message_field body "job_id") ->
     post (JobStatusWorker.callback E tag body) w (fun r w' =>
       store w' = store w /\
       ((r = Ok tt /\ trace w' = (trace w ++ [EvAck (Some tag)])%list) \/
        (r <> Ok tt /\ trace w' = trace w)))) /\
  (forall (items : list (string * pyval)) (job_id : pyval) (w : World JobStatusWorker.t),
     dict_get items "job_id" = Some job_id ->
     status_read_error E w job_id ->
     JobStatusWorker.rmq_consumer (self w) = true ->
     post (JobStatusWorker.callback E tag (Some (PDict items))) w (fun r w' =>
       r = Ok tt /\
       store w' = store w /\
       trace w' = (trace w ++ [EvAck (Some tag)])%list)).
Proof.
  split; [|split].
  - intros body w user_id workspace_id workflow_id job_id input_file_grp remove_file_grps
      partition cpus ram ws job Hwf Herr Hws Hjob Hconsumer.
    destruct Hwf as (items & cv & rv & -> & Huser & Hwsid & Hwfid & Hjid & Hgrp & Hrm & Hpart
                     & Hcv & Hcpus & Hrv & Hram).
    unfold submit_read_error in Herr.
    read_error_cases Herr w.
    all: try destruct Herr as [Hnone Hmissing].
    all: repeat (wp_step; try absurd_branch).
    all: try congruence.
    all: trace_norm; observe.
    all: rewrite ?Hws, ?Hjob; wp_simpl.
    all: repeat split; reflexivity.
  - intros body w Hfail. unfold status_read_fails, message_field in Hfail.
    repeat (wp_step;
            try solve [ split; [reflexivity | right; split; [discriminate|now trace_norm]]
                      | split; [reflexivity | left; split; [reflexivity|now trace_norm]]
                      | exfalso; destruct Hfail as [Hf|[Hf|[Hf|[Hf|Hf]]]]; congruence
                      | exfalso; destruct Hfail as [Hf|Hf]; congruence ]).
  - intros items job_id w Hget Herr Hconsumer.
    unfold status_read_error, status_read_fails in Herr.
    read_error_cases Herr w.
    all: try destruct Herr as [Hnone Hmissing].
    all: repeat (wp_step; try absurd_branch).
    all: try congruence.
    all: try (trace_norm; repeat split; reflexivity).
    all: exfalso; repeat match goal with
                         | H : _ \/ _ |- _ => destruct H as [H|H]
                         | H : _ /\ _ |- _ => destruct H
                         end; congruence.
Qed.

End ReadFailures.

Lemma trace_same (t evs : list Event) : t = (t ++ evs)%list -> evs = [].
Proof.
  intros H. rewrite <- (app_nil_r t) in H at 1. now apply app_inv_head in H.
Qed.

(** Reduces a goal about the events added to a trace to a goal about each
    added job update. *)
Ltac added_job_updates :=
  trace_norm;
  let evs := fresh "evs" in
  let Heq := fresh "Heq" in
  let Hin := fresh "Hin" in
  let Hterm := fresh "Hterm" in
  intros evs ? ? Heq Hin Hterm;
  first [ apply app_inv_head in Heq | apply trace_same in Heq ];
  subst evs; cbn [In] in Hin;
  repeat (destruct Hin as [Hin|Hin]; [try discriminate Hin|]); try contradiction;
  injection Hin as <- <-; try discriminate Hterm.

Section TerminalJobs.

Variable E : Env.

(** C2, amended.  In the status worker, on every handling path and
    whatever fails, a job that has been set to SUCCESS or FAILED has its
    workspace READY afterwards.  In the submit worker, when a well-formed
    message has been handled and handling returns normally, a job that has
    been set to SUCCESS or FAILED is the job of the message and the
    workspace of the message is READY afterwards.  (A message that does not
    decode is left out: there only the job is written.) *)
Theorem C2_terminal_job_has_ready_workspace (tag : nat) :
  (forall (body : option pyval) (w : World JobStatusWorker.t),
     post (JobStatusWorker.callback E tag body) w (fun _ w' =>
       forall evs j st,
         trace w' = (trace w ++ evs)%list ->
         In (EvUpdateWorkflowJob j st) evs ->
         StateJob.is_terminal st = true ->
         exists job,
           find_doc DBWorkflowJob.job_id j (jobs (store w)) = Some job /\
           workspace_state_of (store w') (PStr (DBWorkflowJob.workspace_id job))
             = Some StateWorkspace.READY)) /\
  (forall (body : option pyval) (w : World JobSubmitWorker.t)
     (user_id workspace_id workflow_id job_id input_file_grp remove_file_grps partition : pyval)
     (cpus ram : Z),
     well_formed_submission E body user_id workspace_id workflow_id job_id input_file_grp
       remove_file_grps partition cpus ram ->
     post (JobSubmitWorker.callback E tag body) w (fun r w' =>
       r = Ok tt ->
       forall evs j st,
         trace w' = (trace w ++ evs)%list ->
         In (EvUpdateWorkflowJob j st) evs ->
         StateJob.is_terminal st = true ->
         j = job_id /\
         workspace_state_of (store w') workspace_id = Some StateWorkspace.READY)).
Proof.
  split.
  - intros body w.
    repeat wp_step.
    all: added_job_updates.
    all: match goal with
         | Hj : find_doc DBWorkflowJob.job_id _ (jobs (store _)) = Some ?t,
           Hw : find_doc DBWorkspace.workspace_id (PStr (DBWorkflowJob.workspace_id ?t)) _
                = Some _ |- _ =>
             exists t; split; [exact Hj|]; rewrite (find_doc_key _ _ _ _ Hw)
         end; observe.
    all: repeat match goal with H : find_doc _ _ _ = Some _ |- _ => rewrite H end.
    all: reflexivity.
  - intros body w user_id workspace_id workflow_id job_id input_file_grp remove_file_grps
      partition cpus ram Hwf.
    destruct Hwf as (items & cv & rv & -> & Huser & Hwsid & Hwfid & Hjid & Hgrp & Hrm & Hpart
                     & Hcv & Hcpus & Hrv & Hram).
    repeat (wp_step; try solve [ discriminate | intros _Hr; discriminate _Hr ]).
    all: intros _; added_job_updates.
    all: split; [reflexivity|]; observe.
    all: repeat match goal with H : find_doc _ _ _ = Some _ |- _ => rewrite H end.
    all: reflexivity.
Qed.

End TerminalJobs.

Section Signals.

Variable E : Env.

Hypothesis no_faults : forall n, fault E n = None.


End Signals.

(** ** The workers on concrete inputs *)

Section Runs.

Import Sample.

(** C1.  The scheduler query of the status worker fails with an exception
    that is not a [ValueError] (the third outside call after the reads):
    [__callback] catches only [ValueError] around the state handling, so the
    exception leaves [__callback] and the message is never acknowledged. *)
Theorem C1_status_gateway_error_escapes :
  post (JobStatusWorker.callback (env (fault_at 3 OtherException) "COMPLETED" None) 1
          status_message)
       (mkWorld status_self (store_submitted "RUNNING") [] 0)
       (fun r w' => r = Raise OtherException /\ acks (trace w') = 0%nat).
Proof. vm_compute. split; reflexivity. Qed.

(** C3.  The transfer to the HPC fails (outside call 4 of the submit
    worker): the job becomes FAILED, the workspace READY and the message is
    acknowledged once, but [pages_failed] stays at 2 although the workspace
    has 7 pages.  When instead the submission fails (outside call 5),
    [pages_failed] becomes 9. *)
Theorem C3_transfer_failure_keeps_pages_failed :
  post (JobSubmitWorker.callback (env (fault_at 4 OtherException) "PENDING" None) 1
          submit_message)
       (mkWorld submit_self store_queued [] 0)
       (fun r w' =>
          r = Ok tt /\
          job_state_of (store w') (PStr "job1") = Some StateJob.FAILED /\
          workspace_state_of (store w') (PStr "ws1") = Some StateWorkspace.READY /\
          acks (trace w') = 1%nat /\
          pages_failed_of (store w') (PStr "u1") = Some 2%Z) /\
  post (JobSubmitWorker.callback (env (fault_at 5 OtherException) "PENDING" None) 1
          submit_message)
       (mkWorld submit_self store_queued [] 0)
       (fun r w' =>
          r = Ok tt /\
          job_state_of (store w') (PStr "job1") = Some StateJob.FAILED /\
          workspace_state_of (store w') (PStr "ws1") = Some StateWorkspace.READY /\
          acks (trace w') = 1%nat /\
          pages_failed_of (store w') (PStr "u1") = Some 9%Z).
Proof. vm_compute. repeat split; reflexivity. Qed.

(** C2, counterexample.  A submission message without [cpus]: the job
    becomes FAILED while the workspace stays QUEUED. *)
Lemma C2_decode_error_leaves_workspace_queued :
  post (JobSubmitWorker.callback (env no_fault "PENDING" None) 1 submit_message_no_cpus)
       (mkWorld submit_self store_queued [] 0)
       (fun r w' =>
          r = Ok tt /\
          job_state_of (store w') (PStr "job1") = Some StateJob.FAILED /\
          workspace_state_of (store w') (PStr "ws1") = Some StateWorkspace.QUEUED /\
          workspace_state_of (store w') (PStr "ws1") <> Some StateWorkspace.READY).
Proof. vm_compute. repeat split; try reflexivity. discriminate. Qed.

(** C4, counterexample.  A status message for a job whose handle is missing
    from the store: the read fails, the message is acknowledged, and the
    job keeps its state PENDING. *)
Lemma C4_status_read_failure_leaves_job_state :
  post (JobStatusWorker.callback (env no_fault "COMPLETED" None) 1 status_message)
       (mkWorld status_self store_no_handle [] 0)
       (fun r w' =>
          r = Ok tt /\
          trace w' = [EvAck (Some 1%nat)] /\
          job_state_of (store w') (PStr "job1") = Some StateJob.PENDING /\
          job_state_of (store w') (PStr "job1") <> Some StateJob.FAILED).
Proof. vm_compute. repeat split; try reflexivity. discriminate. Qed.

(** C8, counterexample.  The acknowledgement of a successful submission
    fails (outside call 9): the error leaves [__callback], the message stays
    unacknowledged and the store holds the handle.  The message is
    redelivered to a restarted worker, whose handling reaches successful
    submission: afterwards the store holds two handles for [job1]. *)
Lemma C8_redelivery_adds_second_handle :
  post (JobSubmitWorker.callback (env (fault_at 9 OtherException) "PENDING" None) 1
          submit_message)
       (mkWorld submit_self store_queued [] 0)
       (fun r w1 =>
          r = Raise OtherException /\
          acks (trace w1) = 0%nat /\
          List.map DBHPCSlurmJob.hpc_slurm_job_id (handles_of (store w1) (PStr "job1"))
            = ["4711"] /\
          post (JobSubmitWorker.callback (env (fault_at 9 OtherException) "PENDING" None) 2
                  submit_message)
               (mkWorld submit_self (store w1) [] (clock w1))
               (fun r' w' =>
                  r' = Ok tt /\
                  job_state_of (store w') (PStr "job1") = Some StateJob.PENDING /\
                  workspace_state_of (store w') (PStr "ws1") = Some StateWorkspace.PENDING /\
                  acks (trace w') = 1%nat /\
                  List.map DBHPCSlurmJob.hpc_slurm_job_id
                    (handles_of (store w') (PStr "job1")) = ["4711"; "4711"] /\
                  List.length (handles_of (store w') (PStr "job1")) <> 1%nat)).
Proof. vm_compute. repeat split; try reflexivity. discriminate. Qed.

(** The two worlds in flight are the ones the callbacks are in when the
    process is interrupted at outside call 4, respectively 3. *)
Lemma worlds_in_flight_reached :
  post (JobSubmitWorker.callback (env (fault_at 4 SystemExit) "PENDING" None) 1 submit_message)
       (mkWorld submit_self store_queued [] 0)
       (fun r w' =>
          r = Raise SystemExit /\
          mkWorld (self w') (store w') (trace w') 4 = world_staging) /\
  post (JobStatusWorker.callback (env (fault_at 3 SystemExit) "COMPLETED" None) 1
          status_message)
       (mkWorld status_self (store_submitted "RUNNING") [] 0)
       (fun r w' =>
          r = Raise SystemExit /\
          mkWorld (self w') (store w') (trace w') 3 = world_polling).
Proof. vm_compute. repeat split; reflexivity. Qed.


End Runs.

(** ** The general theorems on the example data *)

Section Instances.

Import Sample.

(** C5 on a redelivered status message: [job1] is SUCCESS and the scheduler
    still reports COMPLETED. *)
Lemma C5_redelivery_witness :
  post (JobStatusWorker.callback (env no_fault "COMPLETED" None) 1 status_message)
       (mkWorld status_self (store_finished StateJob.SUCCESS "COMPLETED") [] 0)
       (fun _ w' =>
          stats (store w') = [user_stats] /\
          workspaces (store w') = [workspace StateWorkspace.READY] /\
          jobs (store w') = [job StateJob.SUCCESS]).
Proof.
  apply (C5_redelivery_at_mapped_state_is_noop (env no_fault "COMPLETED" None) 1 status_message
           (mkWorld status_self (store_finished StateJob.SUCCESS "COMPLETED") [] 0)).
  intros j h Hj Hh. vm_compute in Hj, Hh.
  injection Hj as <-. injection Hh as <-. reflexivity.
Defined.

(** C10 on a status message for a pending job that the scheduler reports
    as RUNNING. *)
Lemma C10_running_witness :
  post (JobStatusWorker.callback (env no_fault "RUNNING" None) 1 status_message)
       (mkWorld status_self (store_submitted "PENDING") [] 0)
       (fun _ w' =>
          jobs (store w') = [job StateJob.PENDING] /\
          workspaces (store w') = [workspace StateWorkspace.PENDING] /\
          workflows (store w') = [workflow] /\
          stats (store w') = [user_stats] /\
          (slurm_jobs (store w') = [handle "PENDING"] \/
           exists new_slurm_job_state,
             slurm_jobs (store w') =
               update_doc DBHPCSlurmJob.workflow_job_id (PStr "job1")
                 (DBHPCSlurmJob.with_hpc_slurm_job_state new_slurm_job_state)
                 [handle "PENDING"]) /\
          exists evs,
            trace w' = evs /\
            forallb (fun ev => negb (writes_other_than_handle_state ev)) evs = true).
Proof.
  apply (C10_nonterminal_state_writes_only_handle (env no_fault "RUNNING" None) 1 status_message
           (mkWorld status_self (store_submitted "PENDING") [] 0)).
  intros j h st Hj Hh Hc. vm_compute in Hj, Hh.
  injection Hh as <-. vm_compute in Hc. injection Hc as <-.
  split; discriminate.
Defined.

(** C6 on a status message for a pending job that the scheduler reports as
    COMPLETED, with an unreadable METS file: 7 pages are added to the 10
    succeeded pages. *)
Lemma C6_success_witness :
  post (JobStatusWorker.callback (env no_fault "COMPLETED" None) 1 status_message)
       (mkWorld status_self (store_submitted "RUNNING") [] 0)
       (fun r w' =>
          r = Ok tt /\
          job_state_of (store w') (PStr "job1") = Some StateJob.SUCCESS /\
          workspace_state_of (store w') (PStr "ws1") = Some StateWorkspace.READY /\
          file_groups_of (store w') (PStr "ws1") = Some ["CORRUPTED FILE GROUPS"] /\
          pages_succeed_of (store w') (PStr "u1") = Some 17%Z).
Proof.
  destruct (C6_transition_to_success (env no_fault "COMPLETED" None) (fun _ => eq_refl) 1
              status_message (mkWorld status_self (store_submitted "RUNNING") [] 0)
              (job StateJob.PENDING) (workspace StateWorkspace.PENDING) (handle "RUNNING")
              user_stats eq_refl eq_refl eq_refl eq_refl eq_refl ltac:(discriminate))
    as (_ & _ & H).
  eapply post_mono; [exact H|].
  intros r w' (Hr & _ & Hws & Hjob & Hpages & _).
  change (PStr (DBWorkflowJob.workspace_id (job StateJob.PENDING))) with (PStr "ws1") in Hws.
  unfold workspace_state_of, file_groups_of. rewrite Hws.
  repeat split; assumption || reflexivity.
Defined.

(** C7 on a status message for a pending job that the scheduler reports as
    FAILED: 7 pages are added to the 2 failed pages. *)
Lemma C7_failed_witness :
  post (JobStatusWorker.callback (env no_fault "FAILED" None) 1 status_message)
       (mkWorld status_self (store_submitted "RUNNING") [] 0)
       (fun r w' =>
          r = Ok tt /\
          job_state_of (store w') (PStr "job1") = Some StateJob.FAILED /\
          workspace_state_of (store w') (PStr "ws1") = Some StateWorkspace.READY /\
          file_groups_of (store w') (PStr "ws1") = Some ["OCR-D-IMG"] /\
          pages_failed_of (store w') (PStr "u1") = Some 9%Z).
Proof.
  eapply post_mono.
  - exact (C7_transition_to_failed (env no_fault "FAILED" None) (fun _ => eq_refl) 1
             status_message (mkWorld status_self (store_submitted "RUNNING") [] 0)
             (job StateJob.PENDING) (workspace StateWorkspace.PENDING) (handle "RUNNING")
             user_stats eq_refl eq_refl eq_refl eq_refl eq_refl ltac:(discriminate)).
  - intros r w' (Hr & _ & Hws & Hgroups & Hjob & Hpages & _).
    repeat split; assumption.
Defined.

Lemma submit_message_well_formed (E : Env) :
  well_formed_submission E submit_message (PStr "u1") (PStr "ws1") (PStr "wf1") (PStr "job1")
    (PStr "OCR-D-IMG") (PStr EmptyString) (PStr "standard96") 4 16.
Proof.
  exists [("user_id", PStr "u1"); ("workspace_id", PStr "ws1"); ("workflow_id", PStr "wf1");
          ("job_id", PStr "job1"); ("input_file_grp", PStr "OCR-D-IMG");
          ("remove_file_grps", PStr EmptyString); ("partition", PStr "standard96");
          ("cpus", PInt 4); ("ram", PInt 16)], (PInt 4), (PInt 16).
  repeat split.
Defined.

(** C8 on the submission message with [cpus=4] and [ram=16]: the handle
    carries the id 4711 the gateway returned. *)
Lemma C8_submission_witness :
  post (JobSubmitWorker.callback (env no_fault "PENDING" None) 1 submit_message)
       (mkWorld submit_self store_queued [] 0)
       (fun r w' =>
          r = Ok tt /\
          List.map DBHPCSlurmJob.hpc_slurm_job_id (handles_of (store w') (PStr "job1"))
            = ["4711"] /\
          job_state_of (store w') (PStr "job1") = Some StateJob.PENDING /\
          workspace_state_of (store w') (PStr "ws1") = Some StateWorkspace.PENDING /\
          acks (trace w') = 1%nat).
Proof.
  eapply post_mono.
  - exact (C8_successful_submission (env no_fault "PENDING" None) (fun _ => eq_refl) 1
             submit_message (mkWorld submit_self store_queued [] 0)
             (PStr "u1") (PStr "ws1") (PStr "wf1") (PStr "job1") (PStr "OCR-D-IMG")
             (PStr EmptyString) (PStr "standard96") 4 16 workflow (workspace StateWorkspace.QUEUED)
             (job StateJob.QUEUED) (submit_message_well_formed _) eq_refl eq_refl eq_refl).
  - intros r w' (Hr & path & _ & Hhandles & _ & Hjob & Hws & Htrace).
    rewrite Hhandles, Htrace. repeat split; assumption || reflexivity.
Defined.

(** C2 on the submission message when the transfer to the HPC fails: the
    job is set FAILED and the workspace is READY. *)
Lemma C2_transfer_failure_witness :
  post (JobSubmitWorker.callback (env (fault_at 4 OtherException) "PENDING" None) 1
          submit_message)
       (mkWorld submit_self store_queued [] 0)
       (fun r w' =>
          r = Ok tt ->
          forall evs j st,
            trace w' = evs ->
            In (EvUpdateWorkflowJob j st) evs ->
            StateJob.is_terminal st = true ->
            j = PStr "job1" /\
            workspace_state_of (store w') (PStr "ws1") = Some StateWorkspace.READY).
Proof.
  exact (proj2 (C2_terminal_job_has_ready_workspace
                  (env (fault_at 4 OtherException) "PENDING" None) 1)
           submit_message (mkWorld submit_self store_queued [] 0)
           (PStr "u1") (PStr "ws1") (PStr "wf1") (PStr "job1") (PStr "OCR-D-IMG") (PStr EmptyString)
           (PStr "standard96") 4%Z 16%Z (submit_message_well_formed _)).
Defined.

(** C4 on the submission message when the workflow record is missing: the
    job is set FAILED, the workspace READY, and the message acknowledged. *)
Lemma C4_missing_workflow_witness :
  post (JobSubmitWorker.callback (env no_fault "PENDING" None) 1 submit_message)
       (mkWorld submit_self store_no_workflow [] 0)
       (fun r w' =>
          r = Ok tt /\
          trace w' =
            [EvUpdateWorkflowJob (PStr "job1") StateJob.FAILED;
             EvUpdateWorkspace (PStr "ws1") StateWorkspace.READY None;
             EvAck (Some 1%nat)] /\
          job_state_of (store w') (PStr "job1") = Some StateJob.FAILED /\
          workspace_state_of (store w') (PStr "ws1") = Some StateWorkspace.READY).
Proof.
  exact (proj1 (C4_store_read_failure (env no_fault "PENDING" None) 1)
           submit_message (mkWorld submit_self store_no_workflow [] 0)
           (PStr "u1") (PStr "ws1") (PStr "wf1") (PStr "job1") (PStr "OCR-D-IMG") (PStr EmptyString)
           (PStr "standard96") 4%Z 16%Z (workspace StateWorkspace.QUEUED) (job StateJob.QUEUED)
           (submit_message_well_formed _)
           (or_intror (or_introl (conj (fun _ => eq_refl) eq_refl)))
           eq_refl eq_refl eq_refl).
Defined.


End Instances.

(** ** Acknowledgements of the callbacks and of the consume loop *)

Lemma acked_app (evs evs' : list Event) : acked (evs ++ evs') = (acked evs ++ acked evs')%list.
Proof.
  induction evs as [|ev evs IH]; [reflexivity|].
  destruct ev; simpl; rewrite IH; reflexivity.
Qed.

Section Acknowledgements.

Variable E : Env.

Lemma submit_callback_acked (tag : nat) (body : option pyval) (w : World JobSubmitWorker.t) :
  post (JobSubmitWorker.callback E tag body) w (fun r w' =>
    exists evs,
      trace w' = (trace w ++ evs)%list /\
      match r with
      | Ok _ =>
          acked evs = [Some tag] /\
          last evs EvDisconnect = EvAck (Some tag) /\
          JobSubmitWorker.has_consumed_message (self w') = false
      | Raise _ => acked evs = []
      end).
Proof.
  repeat wp_step.
  all: added_events; repeat split; reflexivity.
Qed.

Lemma status_callback_acked (tag : nat) (body : option pyval) (w : World JobStatusWorker.t) :
  post (JobStatusWorker.callback E tag body) w (fun r w' =>
    exists evs,
      trace w' = (trace w ++ evs)%list /\
      match r with
      | Ok _ =>
          acked evs = [Some tag] /\
          last evs EvDisconnect = EvAck (Some tag) /\
          JobStatusWorker.has_consumed_message (self w') = false
      | Raise _ => acked evs = []
      end).
Proof.
  repeat wp_step.
  all: added_events; repeat split; reflexivity.
Qed.

(** X1.  The submit worker acknowledges a delivery exactly when handling it
    returns normally: then the delivery's own tag is acknowledged once, as
    the last outside effect; when handling ends in an exception, nothing
    has been acknowledged.  This holds for every body and whatever fails. *)
Theorem submit_callback_acknowledges_iff_it_returns (tag : nat) (body : option pyval)
  (w : World JobSubmitWorker.t) :
  post (JobSubmitWorker.callback E tag body) w (fun r w' =>
    exists evs,
      trace w' = (trace w ++ evs)%list /\
      match r with
      | Ok _ => acked evs = [Some tag] /\ last evs EvDisconnect = EvAck (Some tag)
      | Raise _ => acked evs = []
      end).
Proof.
  eapply post_mono; [apply submit_callback_acked|].
  intros [[]|e] w' (evs & Htrace & H); exists evs; split; trivial.
  destruct H as (Ha & Hl & _). now split.
Qed.

(** X2.  The status worker acknowledges a delivery exactly when handling it
    returns normally: then the delivery's own tag is acknowledged once, as
    the last outside effect; when handling ends in an exception, nothing
    has been acknowledged. *)
Theorem status_callback_acknowledges_iff_it_returns (tag : nat) (body : option pyval)
  (w : World JobStatusWorker.t) :
  post (JobStatusWorker.callback E tag body) w (fun r w' =>
    exists evs,
      trace w' = (trace w ++ evs)%list /\
      match r with
      | Ok _ => acked evs = [Some tag] /\ last evs EvDisconnect = EvAck (Some tag)
      | Raise _ => acked evs = []
      end).
Proof.
  eapply post_mono; [apply status_callback_acked|].
  intros [[]|e] w' (evs & Htrace & H); exists evs; split; trivial.
  destruct H as (Ha & Hl & _). now split.
Qed.

End Acknowledgements.

Section ConsumeLoop.

Context {S : Type}.
Variable callback_method : nat -> option pyval -> M S unit.

Hypothesis callback_acked : forall tag body w,
  post (callback_method tag body) w (fun r w' =>
    exists evs,
      trace w' = (trace w ++ evs)%list /\
      acked evs = match r with Ok _ => [Some tag] | Raise _ => [] end).

Lemma start_consuming_acked (deliveries : list (nat * option pyval)) :
  forall w,
    post (start_consuming callback_method deliveries) w (fun r w' =>
      exists evs,
        trace w' = (trace w ++ evs)%list /\
        match r with
        | Ok _ => acked evs = delivery_tags deliveries
        | Raise _ =>
            exists k,
              (k < List.length deliveries)%nat /\
              acked evs = delivery_tags (firstn k deliveries)
        end).
Proof.
  induction deliveries as [|[tag body] rest IH]; intros w.
  - apply post_ret. exists []. split; [now rewrite app_nil_r|reflexivity].
  - cbn [start_consuming]. apply post_bind.
    eapply post_mono; [apply callback_acked|].
    intros [[]|e] w1 (evs1 & Ht1 & Ha1).
    + eapply post_mono; [apply IH|].
      intros r w2 (evs2 & Ht2 & H2).
      exists (evs1 ++ evs2)%list. split; [now rewrite Ht2, Ht1, app_assoc|].
      rewrite acked_app, Ha1. destruct r as [[]|e].
      * now rewrite H2.
      * destruct H2 as (k & Hk & H2). exists (Datatypes.S k). split; [simpl; lia|].
        now rewrite H2.
    + exists evs1. split; [exact Ht1|]. exists 0%nat. split; [simpl; lia|exact Ha1].
Qed.

End ConsumeLoop.

(** Runs the start-up calls of [run], up to the consume loop. *)
Ltac wp_startup :=
  repeat lazymatch goal with
         | |- post (start_consuming _ _) _ _ => fail
         | _ => wp_step
         end.

Section Run.

Variable E : Env.

Lemma submit_run_acked (deliveries : list (nat * option pyval)) (w : World JobSubmitWorker.t) :
  post (JobSubmitWorker.run E deliveries) w (fun r w' =>
    exists evs,
      trace w' = (trace w ++ evs)%list /\
      match r with
      | Ok _ => acked evs = delivery_tags deliveries
      | Raise _ =>
          exists k, (k <= List.length deliveries)%nat /\
                    acked evs = delivery_tags (firstn k deliveries)
      end).
Proof.
  wp_startup.
  all: try (added_events; exists 0%nat; split; [lia|reflexivity]).
  all: eapply post_mono;
    [ apply start_consuming_acked; intros tag body w0;
      eapply post_mono; [apply submit_callback_acked|];
      intros [[]|e'] w1 (evs & Ht & H); exists evs; (split; [exact Ht|]);
      [now destruct H|exact H]
    | ].
  all: intros [[]|e'] w' (evs & Ht & H); wp_simpl; rewrite ?app_nil_r in Ht.
  all: repeat wp_step.
  all: exists evs; (split; [exact Ht|]); try exact H.
  all: destruct H as (k & Hk & H); exists k; split; [lia|exact H].
Qed.

Lemma status_run_acked (deliveries : list (nat * option pyval)) (w : World JobStatusWorker.t) :
  post (JobStatusWorker.run E deliveries) w (fun r w' =>
    exists evs,
      trace w' = (trace w ++ evs)%list /\
      match r with
      | Ok _ => acked evs = delivery_tags deliveries
      | Raise _ =>
          exists k, (k <= List.length deliveries)%nat /\
                    acked evs = delivery_tags (firstn k deliveries)
      end).
Proof.
  wp_startup.
  all: try (added_events; exists 0%nat; split; [lia|reflexivity]).
  all: eapply post_mono;
    [ apply start_consuming_acked; intros tag body w0;
      eapply post_mono; [apply status_callback_acked|];
      intros [[]|e'] w1 (evs & Ht & H); exists evs; (split; [exact Ht|]);
      [now destruct H|exact H]
    | ].
  all: intros [[]|e'] w' (evs & Ht & H); wp_simpl; rewrite ?app_nil_r in Ht.
  all: repeat wp_step.
  all: exists evs; (split; [exact Ht|]); try exact H.
  all: destruct H as (k & Hk & H); exists k; split; [lia|exact H].
Qed.

(** X3.  [run] of either worker acknowledges deliveries in the order of
    delivery and never skips one: the acknowledged tags are those of a
    prefix of the deliveries, each once, and they are all the deliveries
    when [run] returns normally.  This holds whatever fails. *)
Theorem run_acknowledges_in_delivery_order (deliveries : list (nat * option pyval)) :
  (forall w : World JobSubmitWorker.t,
     post (JobSubmitWorker.run E deliveries) w (fun r w' =>
       exists evs k,
         trace w' = (trace w ++ evs)%list /\
         (k <= List.length deliveries)%nat /\
         acked evs = delivery_tags (firstn k deliveries) /\
         (r = Ok tt -> k = List.length deliveries))) /\
  (forall w : World JobStatusWorker.t,
     post (JobStatusWorker.run E deliveries) w (fun r w' =>
       exists evs k,
         trace w' = (trace w ++ evs)%list /\
         (k <= List.length deliveries)%nat /\
         acked evs = delivery_tags (firstn k deliveries) /\
         (r = Ok tt -> k = List.length deliveries))).
Proof.
  split; intros w.
  - eapply post_mono; [apply submit_run_acked|].
    intros [[]|e] w' (evs & Ht & H); exists evs.
    + exists (List.length deliveries). rewrite firstn_all. auto.
    + destruct H as (k & Hk & H). exists k. repeat split; trivial. discriminate.
  - eapply post_mono; [apply status_run_acked|].
    intros [[]|e] w' (evs & Ht & H); exists evs.
    + exists (List.length deliveries). rewrite firstn_all. auto.
    + destruct H as (k & Hk & H). exists k. repeat split; trivial. discriminate.
Qed.

(** The start-up calls of [run] are the six outside calls from [clock w]. *)
Ltac startup_fault H :=
  let k := fresh "k" in
  let Hk := fresh "Hk" in
  let Hf := fresh "Hf" in
  destruct H as (k & Hk & Hf);
  do 6 (destruct k as [|k]; [rewrite ?Nat.add_0_r, <- ?plus_n_Sm, ?Nat.add_0_r in Hf;
                             cbn [Nat.add] in Hf; congruence|]);
  lia.

(** X4.  When one of the six start-up calls of [run] fails (becoming session
    leader, reaching the store, the two HPC connections, the queue
    connection, configuring consumption), [run] does not return normally
    and no delivery is handled: the store and the record of outside
    effects are as before.  An [Exception] is re-raised as a plain
    [Exception]. *)
Theorem run_start_up_failure_is_fatal (deliveries : list (nat * option pyval)) :
  (forall w : World JobSubmitWorker.t,
     (exists k, (k < 6)%nat /\ fault E (clock w + k) <> None) ->
     post (JobSubmitWorker.run E deliveries) w (fun r w' =>
       (exists e, r = Raise e /\ (e = OtherException \/ is_Exception e = false)) /\
       store w' = store w /\ trace w' = trace w)) /\
  (forall w : World JobStatusWorker.t,
     (exists k, (k < 6)%nat /\ fault E (clock w + k) <> None) ->
     post (JobStatusWorker.run E deliveries) w (fun r w' =>
       (exists e, r = Raise e /\ (e = OtherException \/ is_Exception e = false)) /\
       store w' = store w /\ trace w' = trace w)).
Proof.
  split; intros w H.
  - wp_startup.
    all: try (rewrite ?app_nil_r; split; [eexists; split; [reflexivity|]; auto|];
              split; reflexivity).
    exfalso. startup_fault H.
  - wp_startup.
    all: try (rewrite ?app_nil_r; split; [eexists; split; [reflexivity|]; auto|];
              split; reflexivity).
    exfalso. startup_fault H.
Qed.

End Run.

(** ** What the callbacks keep in the store *)

Lemma map_update_doc {A B : Type} (key : A -> string) (g : A -> B) (id : pyval) (f : A -> A)
  (l : list A) :
  (forall r, g (f r) = g r) ->
  List.map g (update_doc key id f l) = List.map g l.
Proof.
  intros Hg. induction l as [|x l IH]; simpl; [reflexivity|].
  destruct (id_matches id (key x)); simpl; [now rewrite Hg|now rewrite IH].
Qed.

Lemma find_doc_In {A : Type} (key : A -> string) (id : pyval) (l : list A) (r : A) :
  find_doc key id l = Some r -> In r l.
Proof.
  induction l as [|x l IH]; simpl; [discriminate|].
  destruct (id_matches id (key x)); [intros H; injection H as <-; now left|auto].
Qed.

Lemma pages_found (st : Store) (id : pyval) (r : DBWorkspace.t) :
  pages_nonnegative st ->
  find_doc DBWorkspace.workspace_id id (workspaces st) = Some r ->
  (0 <= DBWorkspace.pages_amount r)%Z.
Proof.
  intros Hnn Hf. apply find_doc_In in Hf.
  unfold pages_nonnegative in Hnn. rewrite Forall_forall in Hnn. now apply Hnn.
Qed.

Lemma stats_found_after_increase (user user' : pyval) (a b : Z) (l : list DBProcessingStats.t)
  (r : DBProcessingStats.t) :
  find_doc DBProcessingStats.user_id user l = Some r ->
  exists r',
    find_doc DBProcessingStats.user_id user
      (update_doc DBProcessingStats.user_id user' (DBProcessingStats.increase a b) l) = Some r' /\
    (r' = r \/ r' = DBProcessingStats.increase a b r).
Proof.
  induction l as [|x l IH]; simpl; [discriminate|].
  destruct (id_matches user' (DBProcessingStats.user_id x)) eqn:Hm'; simpl.
  - destruct (id_matches user (DBProcessingStats.user_id x)) eqn:Hm.
    + intros H. injection H as <-. eauto.
    + intros H. eauto.
  - destruct (id_matches user (DBProcessingStats.user_id x)) eqn:Hm.
    + intros H. injection H as <-. eauto.
    + exact IH.
Qed.

Ltac keep_ids :=
  rewrite ?(map_update_doc DBWorkflowJob.job_id DBWorkflowJob.job_id) by reflexivity;
  rewrite ?(map_update_doc DBWorkspace.workspace_id DBWorkspace.workspace_id)
    by apply workspace_change_id;
  rewrite ?(map_update_doc DBProcessingStats.user_id DBProcessingStats.user_id) by reflexivity;
  rewrite ?(map_update_doc DBHPCSlurmJob.workflow_job_id
              (fun r => (DBHPCSlurmJob.workflow_job_id r, DBHPCSlurmJob.hpc_slurm_job_id r)))
    by reflexivity.

(** Derives that the page count of every workspace found in the store is
    not negative. *)
Ltac pages_facts Hnn :=
  repeat match goal with
         | H : find_doc DBWorkspace.workspace_id _ (workspaces (store _)) = Some ?t |- _ =>
             lazymatch goal with
             | Hp : (0 <= DBWorkspace.pages_amount t)%Z |- _ => fail
             | _ => pose proof (pages_found _ _ _ Hnn H)
             end
         end.

(** Settles a goal about a counter record after one increase of the
    statistics. *)
Ltac after_increase Hu :=
  match goal with
  | |- context [update_doc DBProcessingStats.user_id ?u (DBProcessingStats.increase ?a ?b) ?l] =>
      let r' := fresh "r'" in
      let Hr' := fresh "Hr'" in
      destruct (stats_found_after_increase _ u a b l _ Hu) as (r' & Hr' & [->| ->]);
      eexists; (split; [exact Hr'|]); simpl; lia
  end.

Section Kept.

Variable E : Env.

(** X5.  Neither callback adds or removes a job, a workspace or a
    statistics record, or changes the id of one, and neither touches the
    workflows, whatever the message is and whatever fails.  The submit
    worker leaves the handles as they are or adds one at the end; the
    status worker keeps, handle by handle, the job id and the scheduler's
    job id. *)
Theorem callbacks_keep_the_records (tag : nat) (body : option pyval) :
  (forall w : World JobSubmitWorker.t,
     post (JobSubmitWorker.callback E tag body) w (fun _ w' =>
       List.map DBWorkflowJob.job_id (jobs (store w'))
         = List.map DBWorkflowJob.job_id (jobs (store w)) /\
       List.map DBWorkspace.workspace_id (workspaces (store w'))
         = List.map DBWorkspace.workspace_id (workspaces (store w)) /\
       List.map DBProcessingStats.user_id (stats (store w'))
         = List.map DBProcessingStats.user_id (stats (store w)) /\
       workflows (store w') = workflows (store w) /\
       (slurm_jobs (store w') = slurm_jobs (store w) \/
        exists handle, slurm_jobs (store w') = (slurm_jobs (store w) ++ [handle])%list))) /\
  (forall w : World JobStatusWorker.t,
     post (JobStatusWorker.callback E tag body) w (fun _ w' =>
       List.map DBWorkflowJob.job_id (jobs (store w'))
         = List.map DBWorkflowJob.job_id (jobs (store w)) /\
       List.map DBWorkspace.workspace_id (workspaces (store w'))
         = List.map DBWorkspace.workspace_id (workspaces (store w)) /\
       List.map DBProcessingStats.user_id (stats (store w'))
         = List.map DBProcessingStats.user_id (stats (store w)) /\
       workflows (store w') = workflows (store w) /\
       List.map (fun r => (DBHPCSlurmJob.workflow_job_id r, DBHPCSlurmJob.hpc_slurm_job_id r))
         (slurm_jobs (store w'))
         = List.map
             (fun r => (DBHPCSlurmJob.workflow_job_id r, DBHPCSlurmJob.hpc_slurm_job_id r))
             (slurm_jobs (store w)))).
Proof.
  split; intros w.
  - repeat wp_step.
    all: keep_ids; repeat split; eauto.
  - repeat wp_step.
    all: keep_ids; repeat split; eauto.
Qed.

(** X6.  When no workspace of the store has a negative page count, no
    callback lowers a counter of the statistics, whatever the message is
    and whatever fails: the submit worker leaves [pages_succeed] of every
    user as it is and never lowers [pages_failed]; the status worker lowers
    neither. *)
Theorem callbacks_never_lower_the_counters (tag : nat) (body : option pyval) :
  (forall w : World JobSubmitWorker.t,
     pages_nonnegative (store w) ->
     post (JobSubmitWorker.callback E tag body) w (fun _ w' =>
       forall user r,
         find_doc DBProcessingStats.user_id user (stats (store w)) = Some r ->
         exists r',
           find_doc DBProcessingStats.user_id user (stats (store w')) = Some r' /\
           DBProcessingStats.pages_succeed r' = DBProcessingStats.pages_succeed r /\
           (DBProcessingStats.pages_failed r <= DBProcessingStats.pages_failed r')%Z)) /\
  (forall w : World JobStatusWorker.t,
     pages_nonnegative (store w) ->
     post (JobStatusWorker.callback E tag body) w (fun _ w' =>
       forall user r,
         find_doc DBProcessingStats.user_id user (stats (store w)) = Some r ->
         exists r',
           find_doc DBProcessingStats.user_id user (stats (store w')) = Some r' /\
           (DBProcessingStats.pages_succeed r <= DBProcessingStats.pages_succeed r')%Z /\
           (DBProcessingStats.pages_failed r <= DBProcessingStats.pages_failed r')%Z)).
Proof.
  split; intros w Hnn.
  - repeat wp_step.
    all: pages_facts Hnn; intros user r Hu.
    all: first [ exists r; split; [exact Hu|]; split; [reflexivity|lia]
               | after_increase Hu ].
  - repeat wp_step.
    all: pages_facts Hnn; intros user r Hu.
    all: first [ exists r; split; [exact Hu|]; split; lia
               | after_increase Hu ].
Qed.

End Kept.

(** ** Failure paths of the submit worker *)

(** The outside calls up to [clock w + 9] when only call [clock w + k]
    fails. *)
Ltac single_fault Hf Ho :=
  match type of Hf with
  | fault ?E (clock ?w + _) = _ =>
      let go n :=
        first [ assert (fault E n = None) by (apply Ho; lia)
              | let H := fresh "Hfail" in
                assert (H : fault E n = Some _) by (rewrite <- Hf; f_equal; lia) ] in
      go (clock w); go (1 + clock w)%nat; go (2 + clock w)%nat; go (3 + clock w)%nat;
      go (4 + clock w)%nat; go (5 + clock w)%nat; go (6 + clock w)%nat;
      go (7 + clock w)%nat; go (8 + clock w)%nat; go (9 + clock w)%nat;
      cbn [Nat.add] in *
  end.

Section SubmitFailures.

Variable E : Env.

(** X7.  A submission message that is not well formed (not JSON, no
    object, a field missing, or [cpus] or [ram] that [int] rejects) never
    reaches the HPC gateway and changes no workspace, handle or statistics
    record.  The one write is that of FAILED to the job whose id the worker
    holds: the id of the message when parsing got as far as [job_id], and
    otherwise the id left from an earlier delivery.  The message is
    acknowledged, and handling returns normally, exactly when that write
    and the acknowledgement both succeed. *)
Theorem submit_malformed_message_reaches_no_gateway (tag : nat) (body : option pyval)
  (w : World JobSubmitWorker.t) :
  (forall user_id workspace_id workflow_id job_id input_file_grp remove_file_grps partition
          cpus ram,
     ~ well_formed_submission E body user_id workspace_id workflow_id job_id input_file_grp
         remove_file_grps partition cpus ram) ->
  post (JobSubmitWorker.callback E tag body) w (fun r w' =>
    let job_id := held_job_id body (self w) in
    workspaces (store w') = workspaces (store w) /\
    slurm_jobs (store w') = slurm_jobs (store w) /\
    stats (store w') = stats (store w) /\
    ((r = Ok tt /\
      trace w' = (trace w ++ [EvUpdateWorkflowJob job_id StateJob.FAILED;
                              EvAck (Some tag)])%list) \/
     (r <> Ok tt /\
      (trace w' = trace w \/
       trace w' = (trace w ++ [EvUpdateWorkflowJob job_id StateJob.FAILED])%list)))).
Proof.
  intros Hnwf. unfold held_job_id.
  repeat (wp_step;
          try solve [ exfalso; eapply Hnwf; do 3 eexists; repeat split; eassumption ]).
  all: trace_norm; repeat split; try reflexivity.
  all: first [ left; split; [reflexivity|reflexivity]
             | right; split; [discriminate|]; first [left; reflexivity
                                                    |right; reflexivity] ].
Qed.

(** X9.  When the submission to the scheduler ([trigger_slurm_job], the
    sixth outside call of the callback) is the one call that fails, the
    workspace has been staged but no scheduler job exists: the pages of the
    workspace are added to [pages_failed] of the user of the message,
    [pages_succeed] is unchanged, the job becomes FAILED, the workspace
    READY, no handle is created, and the message is acknowledged last. *)
Theorem trigger_failure_counts_the_pages (tag : nat) (body : option pyval)
  (w : World JobSubmitWorker.t) (e : exn)
  (user_id workspace_id workflow_id job_id input_file_grp remove_file_grps partition : pyval)
  (cpus ram : Z) (workflow : DBWorkflow.t) (ws : DBWorkspace.t) (job : DBWorkflowJob.t)
  (user_stats : DBProcessingStats.t) :
  fault E (clock w + 5) = Some e ->
  is_Exception e = true ->
  (forall n, n <> (clock w + 5)%nat -> fault E n = None) ->
  well_formed_submission E body user_id workspace_id workflow_id job_id input_file_grp
    remove_file_grps partition cpus ram ->
  find_doc DBWorkflow.workflow_id workflow_id (workflows (store w)) = Some workflow ->
  find_doc DBWorkspace.workspace_id workspace_id (workspaces (store w)) = Some ws ->
  find_doc DBWorkflowJob.job_id job_id (jobs (store w)) = Some job ->
  find_doc DBProcessingStats.user_id user_id (stats (store w)) = Some user_stats ->
  JobSubmitWorker.rmq_consumer (self w) = true ->
  post (JobSubmitWorker.callback E tag body) w (fun r w' =>
    r = Ok tt /\
    trace w' =
      (trace w
       ++ [EvUpdateWorkspace workspace_id StateWorkspace.TRANSFERRING_TO_HPC None;
           EvUpdateWorkflowJob job_id StateJob.TRANSFERRING_TO_HPC;
           EvPackAndPutSlurmWorkspace (DBWorkspace.workspace_dir ws) job_id
             (DBWorkflow.workflow_script_path workflow);
           EvIncreaseProcessingStats user_id 0 (DBWorkspace.pages_amount ws);
           EvUpdateWorkflowJob job_id StateJob.FAILED;
           EvUpdateWorkspace workspace_id StateWorkspace.READY None;
           EvAck (Some tag)])%list /\
    job_state_of (store w') job_id = Some StateJob.FAILED /\
    workspace_state_of (store w') workspace_id = Some StateWorkspace.READY /\
    pages_failed_of (store w') user_id
      = Some (DBProcessingStats.pages_failed user_stats + DBWorkspace.pages_amount ws)%Z /\
    pages_succeed_of (store w') user_id = Some (DBProcessingStats.pages_succeed user_stats) /\
    slurm_jobs (store w') = slurm_jobs (store w)).
Proof.
  intros Hf He Ho Hwf Hworkflow Hws Hjob Hstats Hconsumer.
  destruct Hwf as (items & cv & rv & -> & Huser & Hwsid & Hwfid & Hjid & Hgrp & Hrm & Hpart
                   & Hcv & Hcpus & Hrv & Hram).
  single_fault Hf Ho.
  repeat (wp_step; try absurd_branch).
  all: try congruence.
  all: trace_norm; observe.
  all: rewrite ?Hws, ?Hjob, ?Hstats; wp_simpl.
  all: repeat split; simpl; rewrite ?Z.add_0_r; reflexivity.
Qed.
(** X10.  When saving the handle ([sync_db_create_hpc_slurm_job], the
    seventh outside call of the callback) is the one call that fails, the
    scheduler has accepted the job but the store holds no handle for it: the
    job becomes FAILED, the workspace READY, the message is acknowledged,
    and neither the handles nor the statistics change. *)
Theorem unsaved_handle_leaves_the_scheduler_job_untracked (tag : nat) (body : option pyval)
  (w : World JobSubmitWorker.t) (e : exn)
  (user_id workspace_id workflow_id job_id input_file_grp remove_file_grps partition : pyval)
  (cpus ram : Z) (workflow : DBWorkflow.t) (ws : DBWorkspace.t) (job : DBWorkflowJob.t) :
  fault E (clock w + 6) = Some e ->
  is_Exception e = true ->
  (forall n, n <> (clock w + 6)%nat -> fault E n = None) ->
  well_formed_submission E body user_id workspace_id workflow_id job_id input_file_grp
    remove_file_grps partition cpus ram ->
  find_doc DBWorkflow.workflow_id workflow_id (workflows (store w)) = Some workflow ->
  find_doc DBWorkspace.workspace_id workspace_id (workspaces (store w)) = Some ws ->
  find_doc DBWorkflowJob.job_id job_id (jobs (store w)) = Some job ->
  JobSubmitWorker.rmq_consumer (self w) = true ->
  post (JobSubmitWorker.callback E tag body) w (fun r w' =>
    r = Ok tt /\
    (exists args,
       trace w' =
         (trace w
          ++ [EvUpdateWorkspace workspace_id StateWorkspace.TRANSFERRING_TO_HPC None;
              EvUpdateWorkflowJob job_id StateJob.TRANSFERRING_TO_HPC;
              EvPackAndPutSlurmWorkspace (DBWorkspace.workspace_dir ws) job_id
                (DBWorkflow.workflow_script_path workflow);
              EvTriggerSlurmJob args;
              EvUpdateWorkflowJob job_id StateJob.FAILED;
              EvUpdateWorkspace workspace_id StateWorkspace.READY None;
              EvAck (Some tag)])%list) /\
    job_state_of (store w') job_id = Some StateJob.FAILED /\
    workspace_state_of (store w') workspace_id = Some StateWorkspace.READY /\
    slurm_jobs (store w') = slurm_jobs (store w) /\
    stats (store w') = stats (store w)).
Proof.
  intros Hf He Ho Hwf Hworkflow Hws Hjob Hconsumer.
  destruct Hwf as (items & cv & rv & -> & Huser & Hwsid & Hwfid & Hjid & Hgrp & Hrm & Hpart
                   & Hcv & Hcpus & Hrv & Hram).
  pose proof (find_doc_key _ _ _ _ Hjob) as ->.
  destruct (join_str (slurm_workspaces_dir E) (DBWorkflowJob.job_id job)) as [path Hpath].
  single_fault Hf Ho.
  repeat (wp_step; try absurd_branch).
  all: try congruence.
  all: trace_norm; observe.
  all: rewrite ?Hws, ?Hjob; wp_simpl.
  all: repeat split; try reflexivity.
  all: eexists; reflexivity.
Qed.

(** X22.  When one of the three staging calls of the submit worker (the two
    state writes and the transfer to the HPC) is the one call that fails,
    the job becomes FAILED, the workspace READY and the message is
    acknowledged, but no page is counted as failed: the statistics and the
    handles are unchanged. *)
Theorem staging_failure_counts_no_pages (tag : nat) (body : option pyval)
  (w : World JobSubmitWorker.t) (e : exn) (k : nat)
  (user_id workspace_id workflow_id job_id input_file_grp remove_file_grps partition : pyval)
  (cpus ram : Z) (workflow : DBWorkflow.t) (ws : DBWorkspace.t) (job : DBWorkflowJob.t) :
  (2 <= k <= 4)%nat ->
  fault E (clock w + k) = Some e ->
  is_Exception e = true ->
  (forall n, n <> (clock w + k)%nat -> fault E n = None) ->
  well_formed_submission E body user_id workspace_id workflow_id job_id input_file_grp
    remove_file_grps partition cpus ram ->
  find_doc DBWorkflow.workflow_id workflow_id (workflows (store w)) = Some workflow ->
  find_doc DBWorkspace.workspace_id workspace_id (workspaces (store w)) = Some ws ->
  find_doc DBWorkflowJob.job_id job_id (jobs (store w)) = Some job ->
  JobSubmitWorker.rmq_consumer (self w) = true ->
  post (JobSubmitWorker.callback E tag body) w (fun r w' =>
    r = Ok tt /\
    job_state_of (store w') job_id = Some StateJob.FAILED /\
    workspace_state_of (store w') workspace_id = Some StateWorkspace.READY /\
    stats (store w') = stats (store w) /\
    slurm_jobs (store w') = slurm_jobs (store w) /\
    exists evs,
      trace w' =
        (trace w ++ evs
         ++ [EvUpdateWorkflowJob job_id StateJob.FAILED;
             EvUpdateWorkspace workspace_id StateWorkspace.READY None;
             EvAck (Some tag)])%list /\
      (List.length evs = k - 2)%nat).
Proof.
  intros Hk Hf He Ho Hwf Hworkflow Hws Hjob Hconsumer.
  destruct Hwf as (items & cv & rv & -> & Huser & Hwsid & Hwfid & Hjid & Hgrp & Hrm & Hpart
                   & Hcv & Hcpus & Hrv & Hram).
  assert (k = 2 \/ k = 3 \/ k = 4)%nat as [->|[->| ->]] by lia.
  all: single_fault Hf Ho.
  all: repeat (wp_step; try absurd_branch).
  all: try congruence.
  all: trace_norm; observe.
  all: rewrite ?Hws, ?Hjob; wp_simpl.
  all: do 5 (split; [reflexivity|]).
  all: first [ exists []; split; reflexivity
             | eexists [_]; split; reflexivity
             | eexists [_; _]; split; reflexivity ].
Qed.

(** X23.  When the first seven outside calls of the submit worker succeed,
    the job has been submitted and its handle saved.  A failure of one of
    the three calls that follow (the writes of PENDING to the job and to
    the workspace, and the acknowledgement) is not caught: it leaves
    [__callback] with the message unacknowledged. *)
Theorem failure_after_submission_escapes (tag : nat) (body : option pyval)
  (w : World JobSubmitWorker.t)
  (user_id workspace_id workflow_id job_id input_file_grp remove_file_grps partition : pyval)
  (cpus ram : Z) (workflow : DBWorkflow.t) (ws : DBWorkspace.t) (job : DBWorkflowJob.t) :
  (forall n, (n < clock w + 7)%nat -> fault E n = None) ->
  well_formed_submission E body user_id workspace_id workflow_id job_id input_file_grp
    remove_file_grps partition cpus ram ->
  find_doc DBWorkflow.workflow_id workflow_id (workflows (store w)) = Some workflow ->
  find_doc DBWorkspace.workspace_id workspace_id (workspaces (store w)) = Some ws ->
  find_doc DBWorkflowJob.job_id job_id (jobs (store w)) = Some job ->
  post (JobSubmitWorker.callback E tag body) w (fun r w' =>
    (exists handle, In handle (handles_of (store w') job_id)) /\
    exists evs,
      trace w' = (trace w ++ evs)%list /\
      match r with
      | Ok _ =>
          acked evs = [Some tag] /\
          forall k, (7 <= k <= 9)%nat -> fault E (clock w + k) = None
      | Raise e =>
          acked evs = [] /\
          exists k, (7 <= k <= 9)%nat /\ fault E (clock w + k) = Some e
      end).
Proof.
  intros Ho Hwf Hworkflow Hws Hjob.
  destruct Hwf as (items & cv & rv & -> & Huser & Hwsid & Hwfid & Hjid & Hgrp & Hrm & Hpart
                   & Hcv & Hcpus & Hrv & Hram).
  pose proof (find_doc_key _ _ _ _ Hjob) as ->.
  destruct (join_str (slurm_workspaces_dir E) (DBWorkflowJob.job_id job)) as [path Hpath].
  assert (H0 : fault E (clock w) = None) by (apply Ho; lia).
  assert (H1 : fault E (1 + clock w) = None) by (apply Ho; lia).
  assert (H2 : fault E (2 + clock w) = None) by (apply Ho; lia).
  assert (H3 : fault E (3 + clock w) = None) by (apply Ho; lia).
  assert (H4 : fault E (4 + clock w) = None) by (apply Ho; lia).
  assert (H5 : fault E (5 + clock w) = None) by (apply Ho; lia).
  assert (H6 : fault E (6 + clock w) = None) by (apply Ho; lia).
  cbn [Nat.add] in *. clear Ho.
  repeat (wp_step; try absurd_branch).
  all: try congruence.
  all: trace_norm; observe.
  all: (split;
        [ eexists; unfold select_docs; rewrite filter_app; apply in_or_app; right;
          cbn [filter DBHPCSlurmJob.workflow_job_id id_matches]; rewrite String.eqb_refl;
          left; reflexivity
        | eexists; split; [reflexivity|]; split; [reflexivity|] ]).
  all: try (eexists 7%nat; split; [lia|]; rewrite <- ?plus_n_Sm, <- plus_n_O; assumption).
  all: try (eexists 8%nat; split; [lia|]; rewrite <- ?plus_n_Sm, <- plus_n_O; assumption).
  all: try (eexists 9%nat; split; [lia|]; rewrite <- ?plus_n_Sm, <- plus_n_O; assumption).
  intros k Hk.
  assert (k = 7 \/ k = 8 \/ k = 9)%nat as [->|[->| ->]] by lia;
    rewrite <- ?plus_n_Sm, <- plus_n_O; assumption.
Qed.

End SubmitFailures.

(** ** A missing workspace record *)

Section MissingWorkspace.

Variable E : Env.

Hypothesis no_faults : forall n, fault E n = None.

(** X25.  When the workspace record of a well-formed submission message is
    missing (the workflow and the job are in the store and no call fails),
    the read of the workspace fails and the failure handler sets the job
    FAILED; its write of READY to the missing workspace then raises, and
    the error leaves [__callback]: the message is not acknowledged. *)
Theorem missing_workspace_record_escapes (tag : nat) (body : option pyval)
  (w : World JobSubmitWorker.t)
  (user_id workspace_id workflow_id job_id input_file_grp remove_file_grps partition : pyval)
  (cpus ram : Z) (workflow : DBWorkflow.t) (job : DBWorkflowJob.t) :
  well_formed_submission E body user_id workspace_id workflow_id job_id input_file_grp
    remove_file_grps partition cpus ram ->
  find_doc DBWorkflow.workflow_id workflow_id (workflows (store w)) = Some workflow ->
  find_doc DBWorkspace.workspace_id workspace_id (workspaces (store w)) = None ->
  find_doc DBWorkflowJob.job_id job_id (jobs (store w)) = Some job ->
  post (JobSubmitWorker.callback E tag body) w (fun r w' =>
    r = Raise RuntimeError /\
    trace w' = (trace w ++ [EvUpdateWorkflowJob job_id StateJob.FAILED])%list /\
    job_state_of (store w') job_id = Some StateJob.FAILED /\
    workspaces (store w') = workspaces (store w)).
Proof.
  intros Hwf Hworkflow Hws Hjob.
  destruct Hwf as (items & cv & rv & -> & Huser & Hwsid & Hwfid & Hjid & Hgrp & Hrm & Hpart
                   & Hcv & Hcpus & Hrv & Hram).
  repeat (wp_step; try absurd_branch).
  all: try congruence.
  all: trace_norm; observe.
  all: rewrite ?Hjob; wp_simpl.
  all: repeat split; reflexivity.
Qed.

End MissingWorkspace.

(** ** A stale job id *)

Section StaleJob.

Variable E : Env.

Hypothesis no_faults : forall n, fault E n = None.

(** Where a successful submission leaves the worker and the store. *)
Lemma submit_success_leaves_job_id (tag : nat) (body : option pyval)
  (w : World JobSubmitWorker.t)
  (user_id workspace_id workflow_id job_id input_file_grp remove_file_grps partition : pyval)
  (cpus ram : Z) (workflow : DBWorkflow.t) (ws : DBWorkspace.t) (job : DBWorkflowJob.t) :
  well_formed_submission E body user_id workspace_id workflow_id job_id input_file_grp
    remove_file_grps partition cpus ram ->
  find_doc DBWorkflow.workflow_id workflow_id (workflows (store w)) = Some workflow ->
  find_doc DBWorkspace.workspace_id workspace_id (workspaces (store w)) = Some ws ->
  find_doc DBWorkflowJob.job_id job_id (jobs (store w)) = Some job ->
  post (JobSubmitWorker.callback E tag body) w (fun r w' =>
    r = Ok tt /\
    JobSubmitWorker.current_message_job_id (self w') = job_id /\
    JobSubmitWorker.rmq_consumer (self w') = JobSubmitWorker.rmq_consumer (self w) /\
    job_state_of (store w') job_id = Some StateJob.PENDING /\
    workspace_state_of (store w') workspace_id = Some StateWorkspace.PENDING /\
    (exists handle, In handle (handles_of (store w') job_id)) /\
    exists evs,
      trace w' =
        (trace w ++ evs
         ++ [EvUpdateWorkflowJob job_id StateJob.PENDING;
             EvUpdateWorkspace workspace_id StateWorkspace.PENDING None;
             EvAck (Some tag)])%list).
Proof.
  intros Hwf Hworkflow Hws Hjob.
  destruct Hwf as (items & cv & rv & -> & Huser & Hwsid & Hwfid & Hjid & Hgrp & Hrm & Hpart
                   & Hcv & Hcpus & Hrv & Hram).
  pose proof (find_doc_key _ _ _ _ Hjob) as ->.
  destruct (join_str (slurm_workspaces_dir E) (DBWorkflowJob.job_id job)) as [path Hpath].
  repeat (wp_step; try congruence).
  all: trace_norm; observe.
  all: rewrite ?Hws, ?Hjob; wp_simpl.
  all: split; [reflexivity|]; split; [reflexivity|]; split; [reflexivity|].
  all: split; [reflexivity|]; split; [reflexivity|].
  all: split;
    [ eexists; unfold select_docs; rewrite filter_app; apply in_or_app; right;
      cbn [filter DBHPCSlurmJob.workflow_job_id id_matches]; rewrite String.eqb_refl;
      left; reflexivity
    | eexists (_ :: _ :: _ :: _ :: _ :: nil); reflexivity ].
Qed.

(** A delivery whose body is no JSON object fails the job whose id the
    worker holds. *)
Lemma no_object_fails_the_held_job (tag : nat) (body : option pyval)
  (w : World JobSubmitWorker.t) (job : DBWorkflowJob.t) :
  (forall items, body <> Some (PDict items)) ->
  find_doc DBWorkflowJob.job_id (JobSubmitWorker.current_message_job_id (self w))
    (jobs (store w)) = Some job ->
  JobSubmitWorker.rmq_consumer (self w) = true ->
  post (JobSubmitWorker.callback E tag body) w (fun r w' =>
    r = Ok tt /\
    jobs (store w') =
      update_doc DBWorkflowJob.job_id (JobSubmitWorker.current_message_job_id (self w))
        (DBWorkflowJob.with_job_state StateJob.FAILED) (jobs (store w)) /\
    workspaces (store w') = workspaces (store w) /\
    slurm_jobs (store w') = slurm_jobs (store w) /\
    trace w' =
      (trace w ++ [EvUpdateWorkflowJob (JobSubmitWorker.current_message_job_id (self w))
                     StateJob.FAILED;
                   EvAck (Some tag)])%list).
Proof.
  intros Hbody Hjob Hconsumer.
  repeat (wp_step; try absurd_branch).
  all: try (exfalso; eapply Hbody; reflexivity).
  all: trace_norm; repeat split; reflexivity.
Qed.

(** X8.  The submit worker keeps the job id of a delivery it has handled
    successfully.  When the next delivery is no JSON object, parsing fails
    before a job id is read, and the job that is set FAILED is the one just
    submitted: it ends FAILED although its workspace is PENDING and its
    handle exists.  Both deliveries are acknowledged. *)
Theorem delivery_that_is_no_object_fails_the_previous_job (tag tag' : nat)
  (body body' : option pyval) (w : World JobSubmitWorker.t)
  (user_id workspace_id workflow_id job_id input_file_grp remove_file_grps partition : pyval)
  (cpus ram : Z) (workflow : DBWorkflow.t) (ws : DBWorkspace.t) (job : DBWorkflowJob.t) :
  well_formed_submission E body user_id workspace_id workflow_id job_id input_file_grp
    remove_file_grps partition cpus ram ->
  (forall items, body' <> Some (PDict items)) ->
  find_doc DBWorkflow.workflow_id workflow_id (workflows (store w)) = Some workflow ->
  find_doc DBWorkspace.workspace_id workspace_id (workspaces (store w)) = Some ws ->
  find_doc DBWorkflowJob.job_id job_id (jobs (store w)) = Some job ->
  JobSubmitWorker.rmq_consumer (self w) = true ->
  post (JobSubmitWorker.callback E tag body ;; JobSubmitWorker.callback E tag' body') w
    (fun r w' =>
       r = Ok tt /\
       job_state_of (store w') job_id = Some StateJob.FAILED /\
       workspace_state_of (store w') workspace_id = Some StateWorkspace.PENDING /\
       (exists handle, In handle (handles_of (store w') job_id)) /\
       exists evs,
         trace w' =
           (trace w ++ evs
            ++ [EvUpdateWorkflowJob job_id StateJob.PENDING;
                EvUpdateWorkspace workspace_id StateWorkspace.PENDING None;
                EvAck (Some tag);
                EvUpdateWorkflowJob job_id StateJob.FAILED;
                EvAck (Some tag')])%list).
Proof.
  intros Hwf Hbody' Hworkflow Hws Hjob Hconsumer.
  apply post_bind.
  eapply post_mono;
    [exact (submit_success_leaves_job_id tag body w _ _ _ _ _ _ _ _ _ _ _ _
              Hwf Hworkflow Hws Hjob)|].
  intros r w1 (-> & Hid & Hc & Hj1 & Hws1 & Hh1 & evs & Ht1).
  unfold job_state_of in Hj1.
  destruct (find_doc DBWorkflowJob.job_id job_id (jobs (store w1))) as [job1|] eqn:Hjob1;
    [|discriminate Hj1].
  rewrite <- Hid in Hjob1.
  eapply post_mono;
    [apply (no_object_fails_the_held_job tag' body' w1 job1 Hbody' Hjob1); congruence|].
  intros r w' (-> & Hjobs & Hwss & Hhs & Ht).
  rewrite Hid in *.
  unfold job_state_of, workspace_state_of, handles_of in *.
  rewrite Hjobs, Hwss, Hhs, find_job_update_same, Hjob1.
  repeat split; trivial.
  exists evs. rewrite Ht, Ht1. now rewrite <- !app_assoc.
Qed.

End StaleJob.

(** ** Shutdown *)

Section Shutdown.

Variable E : Env.

(** X11.  A termination signal that reaches a worker while no message is
    in flight writes nothing to the store.  With a connected consumer it
    disconnects and exits with [SystemExit], leaving [rmq_consumer] unset;
    before the consumer is connected (the handler is registered earlier in
    [run]) the handler fails on [self.rmq_consumer.disconnect()] and does
    not reach [exit(0)]. *)
Theorem signal_when_idle_only_disconnects :
  (forall w : World JobSubmitWorker.t,
     JobSubmitWorker.has_consumed_message (self w) = false ->
     post (JobSubmitWorker.signal_handler E) w (fun r w' =>
       store w' = store w /\
       (JobSubmitWorker.rmq_consumer (self w) = true ->
        fault E (clock w) = None ->
        r = Raise SystemExit /\
        trace w' = (trace w ++ [EvDisconnect])%list /\
        JobSubmitWorker.rmq_consumer (self w') = false) /\
       (JobSubmitWorker.rmq_consumer (self w) = false ->
        r = Raise OtherException /\ trace w' = trace w))) /\
  (forall w : World JobStatusWorker.t,
     JobStatusWorker.has_consumed_message (self w) = false ->
     post (JobStatusWorker.signal_handler E) w (fun r w' =>
       store w' = store w /\
       (JobStatusWorker.rmq_consumer (self w) = true ->
        fault E (clock w) = None ->
        r = Raise SystemExit /\
        trace w' = (trace w ++ [EvDisconnect])%list /\
        JobStatusWorker.rmq_consumer (self w') = false) /\
       (JobStatusWorker.rmq_consumer (self w) = false ->
        r = Raise OtherException /\ trace w' = trace w))).
Proof.
  split; intros w Hidle.
  - repeat (wp_step; try absurd_branch).
    all: split; [reflexivity|]; split; intros; try absurd_branch.
    all: repeat split; reflexivity.
  - repeat (wp_step; try absurd_branch).
    all: split; [reflexivity|]; split; intros; try absurd_branch.
    all: repeat split; reflexivity.
Qed.

Lemma submit_signal_when_idle (w : World JobSubmitWorker.t) :
  JobSubmitWorker.has_consumed_message (self w) = false ->
  post (JobSubmitWorker.signal_handler E) w (fun r w' =>
    store w' = store w /\ exists evs, trace w' = (trace w ++ evs)%list /\ acked evs = []).
Proof.
  intros Hidle.
  repeat (wp_step; try absurd_branch).
  all: split; [reflexivity|]; added_events; reflexivity.
Qed.

Lemma status_signal_when_idle (w : World JobStatusWorker.t) :
  JobStatusWorker.has_consumed_message (self w) = false ->
  post (JobStatusWorker.signal_handler E) w (fun r w' =>
    store w' = store w /\ exists evs, trace w' = (trace w ++ evs)%list /\ acked evs = []).
Proof.
  intros Hidle.
  repeat (wp_step; try absurd_branch).
  all: split; [reflexivity|]; added_events; reflexivity.
Qed.

(** X12.  A delivery that a callback has handled is not acknowledged a
    second time when a termination signal follows: over the callback and
    the signal handler its tag is acknowledged once, and the handler writes
    nothing to the store. *)
Theorem handled_delivery_is_not_acknowledged_again (tag : nat) (body : option pyval) :
  (forall w : World JobSubmitWorker.t,
     post (JobSubmitWorker.callback E tag body) w (fun r w1 =>
       r = Ok tt ->
       post (JobSubmitWorker.signal_handler E) w1 (fun _ w' =>
         store w' = store w1 /\
         exists evs evs',
           trace w1 = (trace w ++ evs)%list /\
           trace w' = (trace w1 ++ evs')%list /\
           acked (evs ++ evs') = [Some tag]))) /\
  (forall w : World JobStatusWorker.t,
     post (JobStatusWorker.callback E tag body) w (fun r w1 =>
       r = Ok tt ->
       post (JobStatusWorker.signal_handler E) w1 (fun _ w' =>
         store w' = store w1 /\
         exists evs evs',
           trace w1 = (trace w ++ evs)%list /\
           trace w' = (trace w1 ++ evs')%list /\
           acked (evs ++ evs') = [Some tag]))).
Proof.
  split; intros w.
  - eapply post_mono; [apply submit_callback_acked|].
    intros r w1 (evs & Ht & H) ->. destruct H as (Ha & _ & Hidle).
    eapply post_mono; [apply submit_signal_when_idle, Hidle|].
    intros r' w' (Hs & evs' & Ht' & Ha'). split; [exact Hs|].
    exists evs, evs'. rewrite acked_app, Ha, Ha'. auto.
  - eapply post_mono; [apply status_callback_acked|].
    intros r w1 (evs & Ht & H) ->. destruct H as (Ha & _ & Hidle).
    eapply post_mono; [apply status_signal_when_idle, Hidle|].
    intros r' w' (Hs & evs' & Ht' & Ha'). split; [exact Hs|].
    exists evs, evs'. rewrite acked_app, Ha, Ha'. auto.
Qed.

(** X13.  When no outside call is interrupted, a signal handler that ends
    in [SystemExit] has unset [rmq_consumer], so [__del__] afterwards makes
    no call: the consumer is not disconnected a second time. *)
Theorem destructor_after_shutdown_makes_no_call :
  (forall n, fault E n <> Some SystemExit) ->
  (forall w : World JobSubmitWorker.t,
     post (JobSubmitWorker.signal_handler E) w (fun r w1 =>
       r = Raise SystemExit ->
       post (JobSubmitWorker.__del__ E) w1 (fun r' w' => r' = Ok tt /\ w' = w1))) /\
  (forall w : World JobStatusWorker.t,
     post (JobStatusWorker.signal_handler E) w (fun r w1 =>
       r = Raise SystemExit ->
       post (JobStatusWorker.__del__ E) w1 (fun r' w' => r' = Ok tt /\ w' = w1))).
Proof.
  intros Hfaults. split; intros w.
  - repeat wp_step.
    all: intros Hr; try discriminate Hr.
    all: try (injection Hr as ->; exfalso; eapply Hfaults; eassumption).
    all: repeat wp_step; split; reflexivity.
  - repeat wp_step.
    all: intros Hr; try discriminate Hr.
    all: try (injection Hr as ->; exfalso; eapply Hfaults; eassumption).
    all: repeat wp_step; split; reflexivity.
Qed.

End Shutdown.

(** ** A scheduler state without a job state *)

Lemma opt_string_eqb_eq (a b : option string) :
  JobStatusWorker.opt_string_eqb a b = true -> a = b.
Proof.
  destruct a as [x|], b as [y|]; simpl; try discriminate; [|reflexivity].
  intros H. apply String.eqb_eq in H. now subst.
Qed.

(** A message field that selects a document is a string in a JSON object. *)
Lemma message_field_selects {A : Type} (key : A -> string) (body : option pyval) (k : string)
  (l : list A) (r : A) :
  find_doc key (message_field body k) l = Some r ->
  exists items, body = Some (PDict items) /\ dict_get items k = Some (PStr (key r)).
Proof.
  intros H. pose proof (find_doc_key _ _ _ _ H) as Hid. unfold message_field in Hid.
  destruct body as [[| | | | |items]|]; try discriminate Hid.
  exists items. split; [reflexivity|].
  destruct (dict_get items k); [now subst|discriminate Hid].
Qed.

Section UnknownSchedulerState.

Variable E : Env.

Hypothesis no_faults : forall n, fault E n = None.

(** X14.  When [StateJob.convert_from_slurm_job] raises on the state the
    scheduler reports, that state has already been stored on the handle,
    and no job, workspace or statistics record is written.  For a
    [ValueError] the message is acknowledged and dropped and the job id of
    the worker is reset; any other exception leaves [__callback] with the
    message unacknowledged. *)
Theorem unmapped_scheduler_state_is_dropped (tag : nat) (body : option pyval)
  (w : World JobStatusWorker.t) (job : DBWorkflowJob.t) (ws : DBWorkspace.t)
  (handle : DBHPCSlurmJob.t) (e : exn) :
  let job_id := message_field body "job_id" in
  let reply := slurm_state_reply E (DBHPCSlurmJob.hpc_slurm_job_id handle) in
  find_doc DBWorkflowJob.job_id job_id (jobs (store w)) = Some job ->
  find_doc DBWorkspace.workspace_id (PStr (DBWorkflowJob.workspace_id job))
    (workspaces (store w)) = Some ws ->
  find_doc DBHPCSlurmJob.workflow_job_id job_id (slurm_jobs (store w)) = Some handle ->
  convert_from_slurm_job E reply = Raise e ->
  JobStatusWorker.rmq_consumer (self w) = true ->
  post (JobStatusWorker.callback E tag body) w (fun r w' =>
    jobs (store w') = jobs (store w) /\
    workspaces (store w') = workspaces (store w) /\
    stats (store w') = stats (store w) /\
    option_map DBHPCSlurmJob.hpc_slurm_job_state
      (find_doc DBHPCSlurmJob.workflow_job_id job_id (slurm_jobs (store w'))) = Some (Some reply) /\
    exists evs,
      trace w' = (trace w ++ EvCheckSlurmJobState (DBHPCSlurmJob.hpc_slurm_job_id handle)
                           :: evs)%list /\
      if is_ValueError e
      then r = Ok tt /\ acked evs = [Some tag] /\
           JobStatusWorker.current_message_job_id (self w') = PNone
      else r = Raise e /\ acked evs = []).
Proof.
  intros job_id reply Hjob Hws Hhandle Hconv Hconsumer.
  subst job_id reply.
  destruct (message_field_selects _ _ _ _ _ Hjob) as (items & -> & Hget).
  unfold message_field in *. rewrite Hget in *.
  repeat (wp_step; try absurd_branch).
  all: repeat match goal with
              | H : JobStatusWorker.opt_string_eqb _ _ = true |- _ =>
                  apply opt_string_eqb_eq in H
              end.
  all: trace_norm; repeat split; try reflexivity.
  all: wp_simpl; autorewrite with store; rewrite ?Hhandle; wp_simpl.
  all: try (f_equal; assumption).
  all: try reflexivity.
  all: try (eexists; split; [reflexivity|]; repeat split; reflexivity).
Qed.

End UnknownSchedulerState.

(** ** A download that fails *)

Section InterruptedTransfer.

Variable E : Env.

(** X24.  When the scheduler reports a state that maps to SUCCESS and
    that differs from the one stored on the handle, and the download of the
    results ([get_and_unpack_slurm_workspace], then the ninth outside call)
    is the one call that fails, the job and its workspace stay
    TRANSFERRING_FROM_HPC and no page is counted.  Unless the
    exception is a [ValueError], it leaves [__callback] with the message
    unacknowledged; a [ValueError] is caught and the message acknowledged
    and dropped. *)
Theorem download_failure_leaves_the_job_in_transfer (tag : nat) (body : option pyval)
  (w : World JobStatusWorker.t) (job : DBWorkflowJob.t) (ws : DBWorkspace.t)
  (handle : DBHPCSlurmJob.t) (e : exn) :
  let job_id := message_field body "job_id" in
  let reply := slurm_state_reply E (DBHPCSlurmJob.hpc_slurm_job_id handle) in
  fault E (clock w + 8) = Some e ->
  (forall n, n <> (clock w + 8)%nat -> fault E n = None) ->
  find_doc DBWorkflowJob.job_id job_id (jobs (store w)) = Some job ->
  find_doc DBWorkspace.workspace_id (PStr (DBWorkflowJob.workspace_id job))
    (workspaces (store w)) = Some ws ->
  find_doc DBHPCSlurmJob.workflow_job_id job_id (slurm_jobs (store w)) = Some handle ->
  DBHPCSlurmJob.hpc_slurm_job_state handle <> Some reply ->
  convert_from_slurm_job E reply = Ok StateJob.SUCCESS ->
  DBWorkflowJob.job_state job <> StateJob.SUCCESS ->
  JobStatusWorker.rmq_consumer (self w) = true ->
  post (JobStatusWorker.callback E tag body) w (fun r w' =>
    job_state_of (store w') job_id = Some StateJob.TRANSFERRING_FROM_HPC /\
    workspace_state_of (store w') (PStr (DBWorkflowJob.workspace_id job))
      = Some StateWorkspace.TRANSFERRING_FROM_HPC /\
    stats (store w') = stats (store w) /\
    exists evs,
      trace w' = (trace w ++ evs)%list /\
      if is_ValueError e
      then r = Ok tt /\ acked evs = [Some tag]
      else r = Raise e /\ acked evs = []).
Proof.
  intros job_id reply Hf Ho Hjob Hws Hhandle Hchanged Hconv Hstate Hconsumer.
  subst job_id reply.
  destruct (message_field_selects _ _ _ _ _ Hjob) as (items & -> & Hget).
  unfold message_field in *. rewrite Hget in *.
  pose proof (find_doc_key _ _ _ _ Hws) as Hwsid.
  single_fault Hf Ho.
  repeat (wp_step; try absurd_branch).
  all: repeat match goal with
              | H : JobStatusWorker.opt_string_eqb _ _ = true |- _ =>
                  apply opt_string_eqb_eq in H
              | H : StateJob.eqb _ _ = true |- _ => apply StateJob_eqb_eq in H
              end.
  all: try congruence.
  all: rewrite Hwsid in *.
  all: trace_norm; observe.
  all: rewrite ?Hjob, ?Hws; wp_simpl.
  all: do 3 (split; [reflexivity|]).
  all: eexists; split; [reflexivity|].
  all: match goal with
       | H1 : fault E ?n = Some ?a, H2 : fault E ?n = Some ?b |- _ =>
           rewrite H1 in H2; injection H2 as <-
       end.
  all: match goal with H : is_ValueError _ = _ |- _ => rewrite H end.
  all: split; reflexivity.
Qed.

End InterruptedTransfer.

(** ** The harvester *)

Ltac hv_simpl :=
  cbn beta iota delta
    [self store trace clock fst snd negb
     Harvester.default_workflow_id Harvester.default_nf_workflow Harvester.done
     Harvester.set_default_workflow_id Harvester.record] in *.

Lemma post_send (N : Harvester.Net) (a : Harvester.Action) (w : World Harvester.t)
  (Q : Res Harvester.Response -> World Harvester.t -> Prop) :
  Q (Harvester.answer N (clock w))
    (mkWorld (Harvester.record a (self w)) (store w) (trace w) (Datatypes.S (clock w))) ->
  post (Harvester.send N a) w Q.
Proof. exact (fun H => H). Qed.

Ltac hv_step :=
  lazymatch goal with
  | |- post (Harvester.send _ _) _ _ => apply post_send
  | _ => wp_step
  end; hv_simpl.

Lemma uploads_app (l l' : list Harvester.Action) :
  uploads (l ++ l') = (uploads l + uploads l')%nat.
Proof.
  induction l as [|a l IH]; [reflexivity|]. destruct a; simpl; now rewrite IH.
Qed.

Lemma submissions_app (l l' : list Harvester.Action) :
  submissions (l ++ l') = (submissions l + submissions l')%nat.
Proof.
  induction l as [|a l IH]; [reflexivity|]. destruct a; simpl; now rewrite IH.
Qed.

Lemma uploads_poll_rounds (k : nat) (wait_time : Z) (workflow_id job_id : pyval) :
  uploads (poll_rounds k wait_time workflow_id job_id) = 0%nat.
Proof. induction k; simpl; auto. Qed.

Lemma submissions_poll_rounds (k : nat) (wait_time : Z) (workflow_id job_id : pyval) :
  submissions (poll_rounds k wait_time workflow_id job_id) = 0%nat.
Proof. induction k; simpl; auto. Qed.

Lemma In_poll_rounds (k : nat) (wait_time : Z) (workflow_id job_id : pyval)
  (a : Harvester.Action) :
  In a (poll_rounds k wait_time workflow_id job_id) ->
  a = Harvester.Sleep wait_time \/ a = Harvester.GetWorkflowJobState workflow_id job_id.
Proof.
  induction k; simpl; [contradiction|]. intros [H|[H|H]]; auto.
Qed.

Section Polling.

Variable N : Harvester.Net.

(** One request for the job state. *)
Lemma get_workflow_job_state_spec (workflow_id job_id : pyval) (w : World Harvester.t) :
  post (Harvester.get_workflow_job_state N workflow_id job_id) w (fun r w' =>
    w' = mkWorld (Harvester.record (Harvester.GetWorkflowJobState workflow_id job_id) (self w))
           (store w) (trace w) (Datatypes.S (clock w)) /\
    forall v, r = Ok v <-> answers_job_state N (clock w) v).
Proof.
  unfold post, Harvester.get_workflow_job_state, bind, Harvester.send, of_res,
    answers_job_state, Harvester._parse_response_field.
  cbn [fst snd self store trace clock].
  destruct (Harvester.answer N (clock w)) as [[[js|e]]|e]; cbn [fst snd Harvester.json].
  - destruct js as [| | | | |items];
      try (split; [reflexivity|]; intros v; split;
           [discriminate|intros (? & ? & Ha & Hj & _); injection Ha as <-; discriminate Hj]).
    destruct (dict_get items "job_state") as [x|] eqn:Hget; cbn [fst snd].
    + destruct (Harvester.truthy x) eqn:Hx; unfold raise, ret; cbn [fst snd negb].
      * split; [reflexivity|]. intros v. split.
        -- intros Hv. injection Hv as <-.
           exists {| Harvester.json := Ok (PDict items) |}, items. auto.
        -- intros (? & ? & Ha & Hj & Hd & _). injection Ha as <-. cbn in Hj.
           injection Hj as <-. congruence.
      * split; [reflexivity|]. intros v. split; [discriminate|].
        intros (? & ? & Ha & Hj & Hd & Ht). injection Ha as <-. cbn in Hj.
        injection Hj as <-. congruence.
    + unfold raise; cbn [fst snd Harvester.truthy negb].
      split; [reflexivity|]. intros v. split; [discriminate|].
      intros (? & ? & Ha & Hj & Hd & Ht). injection Ha as <-. cbn in Hj.
      injection Hj as <-. congruence.
  - split; [reflexivity|]. intros v. split; [discriminate|].
    intros (? & ? & Ha & Hj & _). injection Ha as <-. discriminate Hj.
  - split; [reflexivity|]. intros v. split; [discriminate|].
    intros (? & ? & Ha & _). discriminate Ha.
Qed.


Lemma poll_loop_spec (workflow_id job_id : pyval) (wait_time : Z) (tries_left : nat) :
  forall w : World Harvester.t,
    post (Harvester.poll_loop N tries_left workflow_id job_id wait_time) w (fun r w' =>
      exists k,
        (k <= tries_left)%nat /\
        store w' = store w /\ trace w' = trace w /\
        Harvester.default_workflow_id (self w') = Harvester.default_workflow_id (self w) /\
        Harvester.default_nf_workflow (self w') = Harvester.default_nf_workflow (self w) /\
        Harvester.done (self w')
          = (Harvester.done (self w) ++ poll_rounds k wait_time workflow_id job_id)%list /\
        clock w' = (clock w + k)%nat /\
        match r with
        | Ok true =>
            exists k' v,
              k = Datatypes.S k' /\ answers_job_state N (clock w + k') v /\
              Harvester.state_equals N v StateJob.SUCCESS = true
        | Ok false => True
        | Raise e => is_Exception e = false \/ (wait_time < 0)%Z
        end).
Proof.
  induction tries_left as [|n IH]; intros w; cbn [Harvester.poll_loop].
  - apply post_ret. exists 0%nat. rewrite app_nil_r, Nat.add_0_r. repeat split; trivial.
  - apply post_bind. unfold Harvester.sleep.
    destruct (wait_time <? 0)%Z eqn:Hwait.
    + apply post_raise. exists 0%nat. rewrite app_nil_r, Nat.add_0_r.
      split; [lia|]. do 6 (split; [reflexivity|]). right. now apply Z.ltb_lt.
    + apply post_modify_self. apply post_bind, post_try_Exception.
      eapply post_mono; [apply get_workflow_job_state_spec|].
      intros r w1 [-> Hr]. hv_simpl.
      assert (Hrounds : forall k,
                 (((Harvester.done (self w) ++ [Harvester.Sleep wait_time])
                   ++ [Harvester.GetWorkflowJobState workflow_id job_id])
                  ++ poll_rounds k wait_time workflow_id job_id
                  = Harvester.done (self w)
                    ++ poll_rounds (Datatypes.S k) wait_time workflow_id job_id)%list)
        by (intros k; now rewrite <- !app_assoc).
      assert (Hone : forall P : Prop, P ->
                 exists k,
                   (k <= Datatypes.S n)%nat /\
                   store w = store w /\ trace w = trace w /\
                   Harvester.default_workflow_id (self w)
                     = Harvester.default_workflow_id (self w) /\
                   Harvester.default_nf_workflow (self w)
                     = Harvester.default_nf_workflow (self w) /\
                   ((Harvester.done (self w) ++ [Harvester.Sleep wait_time])
                    ++ [Harvester.GetWorkflowJobState workflow_id job_id]
                    = Harvester.done (self w)
                      ++ poll_rounds k wait_time workflow_id job_id)%list /\
                   Datatypes.S (clock w) = (clock w + k)%nat /\ (k = 1%nat /\ P)).
      { intros P HP. exists 1%nat. rewrite <- (Hrounds 0%nat), app_nil_r.
        split; [lia|]. do 5 (split; [reflexivity|]). split; [lia|]. now split. }
      destruct r as [v|e].
      * destruct (Harvester.state_equals N v StateJob.SUCCESS) eqn:Hs.
        { apply post_ret. hv_simpl.
          destruct (Hone True I) as (k & H1 & H2 & H3 & H4 & H5 & H6 & H7 & -> & _).
          exists 1%nat. do 7 (split; [assumption|]).
          exists 0%nat, v. rewrite Nat.add_0_r. repeat split; trivial. now apply Hr. }
        destruct (Harvester.state_equals N v StateJob.FAILED) eqn:Hf.
        { apply post_ret. hv_simpl.
          destruct (Hone True I) as (k & H1 & H2 & H3 & H4 & H5 & H6 & H7 & -> & _).
          exists 1%nat. do 7 (split; [assumption|]). exact I. }
        eapply post_mono; [apply IH|].
        intros r' w' (k & Hk & Hst & Htr & Hid & Hnf & Hdone & Hclock & H). hv_simpl.
        exists (Datatypes.S k). rewrite Hdone, Hrounds.
        split; [lia|]. do 5 (split; [assumption || reflexivity|]). split; [lia|].
        destruct r' as [[|]|e']; trivial.
        destruct H as (k' & v' & -> & Ha & Hs').
        exists (Datatypes.S k'), v'. repeat split; trivial.
        now replace (clock w + Datatypes.S k')%nat with (Datatypes.S (clock w) + k')%nat by lia.
      * destruct (is_Exception e) eqn:He.
        { apply post_ret. hv_simpl.
          destruct (Hone True I) as (k & H1 & H2 & H3 & H4 & H5 & H6 & H7 & -> & _).
          exists 1%nat. do 7 (split; [assumption|]). exact I. }
        destruct (Hone True I) as (k & H1 & H2 & H3 & H4 & H5 & H6 & H7 & -> & _).
        exists 1%nat. do 7 (split; [assumption|]). now left.
Qed.

(** Polling that meets [k] states that are neither SUCCESS nor FAILED and
    then SUCCESS. *)
Lemma poll_loop_reaches_success (workflow_id job_id : pyval) (wait_time : Z) (v : pyval)
  (k : nat) :
  (0 <= wait_time)%Z ->
  forall (tries_left : nat) (w : World Harvester.t),
    (k < tries_left)%nat ->
    (forall j, (j < k)%nat ->
       exists u, answers_job_state N (clock w + j) u /\
                 Harvester.state_equals N u StateJob.SUCCESS = false /\
                 Harvester.state_equals N u StateJob.FAILED = false) ->
    answers_job_state N (clock w + k) v ->
    Harvester.state_equals N v StateJob.SUCCESS = true ->
    post (Harvester.poll_loop N tries_left workflow_id job_id wait_time) w (fun r w' =>
      r = Ok true /\
      Harvester.done (self w')
        = (Harvester.done (self w)
           ++ poll_rounds (Datatypes.S k) wait_time workflow_id job_id)%list /\
      clock w' = (clock w + Datatypes.S k)%nat).
Proof.
  intros Hwait. induction k as [|k IH]; intros n w Hk Hbefore Hlast Hs.
  - destruct n as [|n]; [lia|]. cbn [Harvester.poll_loop].
    apply post_bind. unfold Harvester.sleep.
    destruct (wait_time <? 0)%Z eqn:Hw; [apply Z.ltb_lt in Hw; lia|].
    apply post_modify_self. apply post_bind, post_try_Exception.
    eapply post_mono; [apply get_workflow_job_state_spec|].
    intros r w1 [-> Hr]. hv_simpl. rewrite Nat.add_0_r in Hlast.
    apply Hr in Hlast. subst r. rewrite Hs.
    apply post_ret. hv_simpl. rewrite <- !app_assoc. repeat split; trivial. lia.
  - destruct n as [|n]; [lia|]. cbn [Harvester.poll_loop].
    apply post_bind. unfold Harvester.sleep.
    destruct (wait_time <? 0)%Z eqn:Hw; [apply Z.ltb_lt in Hw; lia|].
    apply post_modify_self. apply post_bind, post_try_Exception.
    eapply post_mono; [apply get_workflow_job_state_spec|].
    intros r w1 [-> Hr]. hv_simpl.
    destruct (Hbefore 0%nat ltac:(lia)) as (u & Hu & Hus & Huf).
    rewrite Nat.add_0_r in Hu. apply Hr in Hu. subst r. rewrite Hus, Huf.
    eapply post_mono.
    + apply (IH n); hv_simpl; [lia| |
        now replace (Datatypes.S (clock w) + k)%nat with (clock w + Datatypes.S k)%nat by lia
        |exact Hs].
      intros j Hj. destruct (Hbefore (Datatypes.S j) ltac:(lia)) as (u' & Hu' & H').
      exists u'. split; [|exact H'].
      now replace (Datatypes.S (clock w) + j)%nat with (clock w + Datatypes.S j)%nat by lia.
    + intros r' w' (-> & Hdone & Hclock). hv_simpl.
      rewrite Hdone, Hclock. rewrite <- !app_assoc. repeat split; trivial. lia.
Qed.

(** X15.  With a wait time that is not negative,
    [poll_workflow_job_state] makes at most [tries] rounds, each one wait
    followed by one request, and none at all when [tries] is not positive
    (it then returns [False]); whatever the server answers, it returns a
    boolean, unless something that is no [Exception] is raised. *)
Theorem polling_is_bounded_and_does_not_raise (workflow_id job_id : pyval) (tries wait_time : Z)
  (w : World Harvester.t) :
  (0 <= wait_time)%Z ->
  post (Harvester.poll_workflow_job_state N workflow_id job_id tries wait_time) w (fun r w' =>
    exists k,
      (Z.of_nat k <= Z.max 0 tries)%Z /\
      Harvester.done (self w')
        = (Harvester.done (self w) ++ poll_rounds k wait_time workflow_id job_id)%list /\
      ((exists has_finished, r = Ok has_finished) \/
       (exists e, r = Raise e /\ is_Exception e = false)) /\
      ((tries <= 0)%Z -> r = Ok false /\ k = 0%nat)).
Proof.
  intros Hwait. unfold Harvester.poll_workflow_job_state.
  destruct (Z.to_nat tries) as [|n] eqn:Hn.
  - apply post_ret. exists 0%nat. rewrite app_nil_r. split; [lia|]. eauto 6.
  - eapply post_mono; [apply poll_loop_spec|].
    intros r w' (k & Hk & _ & _ & _ & _ & Hdone & _ & H).
    exists k. split; [lia|]. split; [exact Hdone|]. split; [|lia].
    destruct r as [b|e]; [left; eauto|]. right. exists e. split; [reflexivity|].
    destruct H as [H|H]; [exact H|lia].
Qed.

(** X16.  [poll_workflow_job_state] returns [True] only when its last
    request, one of the first [tries], was answered with a JSON object
    whose [job_state] equals [StateJob.SUCCESS]. *)
Theorem polling_says_finished_only_on_success (workflow_id job_id : pyval)
  (tries wait_time : Z) (w : World Harvester.t) :
  post (Harvester.poll_workflow_job_state N workflow_id job_id tries wait_time) w (fun r w' =>
    r = Ok true ->
    exists k v,
      (Z.of_nat k < tries)%Z /\
      clock w' = (clock w + Datatypes.S k)%nat /\
      answers_job_state N (clock w + k) v /\
      Harvester.state_equals N v StateJob.SUCCESS = true).
Proof.
  unfold Harvester.poll_workflow_job_state.
  eapply post_mono; [apply poll_loop_spec|].
  intros r w' (k & Hk & _ & _ & _ & _ & _ & Hclock & H) ->.
  destruct H as (k' & v & -> & Ha & Hs). exists k', v. repeat split; trivial. lia.
Qed.

(** X17.  When the server reports [k] states that are neither SUCCESS nor
    FAILED and then SUCCESS, with [k < tries] and a wait time that is not
    negative, [poll_workflow_job_state] returns [True] after [k + 1]
    rounds. *)
Theorem polling_finishes_when_the_server_reports_success (workflow_id job_id : pyval)
  (tries wait_time : Z) (w : World Harvester.t) (k : nat) (v : pyval) :
  (0 <= wait_time)%Z ->
  (Z.of_nat k < tries)%Z ->
  (forall j, (j < k)%nat ->
     exists u, answers_job_state N (clock w + j) u /\
               Harvester.state_equals N u StateJob.SUCCESS = false /\
               Harvester.state_equals N u StateJob.FAILED = false) ->
  answers_job_state N (clock w + k) v ->
  Harvester.state_equals N v StateJob.SUCCESS = true ->
  post (Harvester.poll_workflow_job_state N workflow_id job_id tries wait_time) w (fun r w' =>
    r = Ok true /\
    Harvester.done (self w')
      = (Harvester.done (self w)
         ++ poll_rounds (Datatypes.S k) wait_time workflow_id job_id)%list).
Proof.
  intros Hwait Hk Hbefore Hlast Hs. unfold Harvester.poll_workflow_job_state.
  eapply post_mono;
    [apply (poll_loop_reaches_success workflow_id job_id wait_time v k Hwait);
     [lia|exact Hbefore|exact Hlast|exact Hs]|].
  intros r w' (Hr & Hdone & _). now split.
Qed.

End Polling.

(** Settles what a cycle has added, from the actions it is known to have
    made. *)
Ltac job_posted_under Hin :=
  cbn [In] in Hin;
  repeat (destruct Hin as [Hin|Hin];
          [first [discriminate Hin | injection Hin; intros; subst; reflexivity]|]);
  first [ contradiction
        | apply In_poll_rounds in Hin; destruct Hin as [Hin|Hin]; discriminate Hin ].

Ltac cycle_added :=
  repeat match goal with
         | H : Harvester.done (self _) = _ |- _ => rewrite H; clear H
         end;
  rewrite <- ?app_assoc; cbn [app];
  first [ eexists; split; [reflexivity|]
        | exists []; split; [now rewrite app_nil_r|] ];
  repeat match goal with
         | H : Harvester.default_workflow_id (self _) = _ |- _ => rewrite H; clear H
         | H : Harvester.default_nf_workflow (self _) = _ |- _ => rewrite H; clear H
         end;
  cbn [uploads submissions]; rewrite ?uploads_poll_rounds, ?submissions_poll_rounds;
  split; [reflexivity|]; split; [lia|]; split; [lia|];
  split; [let Hin := fresh "Hin" in intros ? ? ? ? ? ? Hin; job_posted_under Hin|];
  split; [intros ?; first [discriminate | reflexivity]|];
  split; [intros ? ?; first [discriminate | congruence | split; reflexivity]|];
  intros ? ?; first [discriminate | assumption | congruence].

Section Harvest.

Variable N : Harvester.Net.

(** What one cycle adds to the actions, and where it leaves the stored
    workflow id. *)
Lemma harvest_one_cycle_spec (mets_url nf_script_path : string) (reuse_workflow : bool)
  (w : World Harvester.t) :
  post (Harvester.harvest_one_cycle N mets_url nf_script_path reuse_workflow) w (fun r w' =>
    exists added,
      Harvester.done (self w') = (Harvester.done (self w) ++ added)%list /\
      Harvester.default_nf_workflow (self w') = Harvester.default_nf_workflow (self w) /\
      (uploads added <= 1)%nat /\
      (submissions added <= 1)%nat /\
      (forall workflow_id workspace_id input_file_grp mets_base cpus ram,
         In (Harvester.PostWorkflowJob workflow_id workspace_id input_file_grp mets_base
               cpus ram) added ->
         workflow_id = Harvester.default_workflow_id (self w')) /\
      (reuse_workflow = false ->
       Harvester.default_workflow_id (self w') = Harvester.default_workflow_id (self w)) /\
      (reuse_workflow = true ->
       Harvester.truthy (Harvester.default_workflow_id (self w)) = true ->
       uploads added = 0%nat /\
       Harvester.default_workflow_id (self w') = Harvester.default_workflow_id (self w)) /\
      (reuse_workflow = true -> r = Ok tt ->
       Harvester.truthy (Harvester.default_workflow_id (self w')) = true)).
Proof.
  unfold Harvester.harvest_one_cycle, Harvester.post_workflow_nf_script,
    Harvester.post_workspace_url, Harvester.post_workflow_job, Harvester.open_rb.
  repeat lazymatch goal with
         | |- post (Harvester.poll_workflow_job_state _ _ _ _ _) _ _ => fail
         | _ => hv_step
         end.
  all: try (eapply post_mono; [apply poll_loop_spec|];
            intros ?r ?w' (?k & _ & _ & _ & ?Hid & ?Hnf & ?Hdone & _ & _); hv_simpl;
            repeat hv_step).
  all: cycle_added.
Qed.


Lemma harvest_lines_spec (limit : Z) (lines : list string) :
  forall (harvested_counter : Z) (w : World Harvester.t),
    post (Harvester.harvest_lines N lines harvested_counter limit) w (fun r w' =>
      exists added,
        Harvester.done (self w') = (Harvester.done (self w) ++ added)%list /\
        (submissions added <= List.length lines)%nat /\
        ((harvested_counter < limit)%Z ->
         (Z.of_nat (submissions added) <= limit - harvested_counter)%Z) /\
        (uploads added <= 1)%nat /\
        (Harvester.truthy (Harvester.default_workflow_id (self w)) = true ->
         uploads added = 0%nat)).
Proof.
  induction lines as [|line lines IH]; intros c w; cbn [Harvester.harvest_lines].
  - apply post_ret. exists []. rewrite app_nil_r. simpl. repeat split; trivial; lia.
  - destruct (String.eqb line EmptyString).
    { apply post_ret. exists []. rewrite app_nil_r. simpl. repeat split; trivial; lia. }
    destruct (String.eqb (Harvester.strip N line) EmptyString).
    { apply post_raise. exists []. rewrite app_nil_r. simpl. repeat split; trivial; lia. }
    apply post_bind, post_get_self. apply post_bind.
    eapply post_mono; [apply harvest_one_cycle_spec|].
    intros r w1 (added1 & Hdone1 & _ & Hup1 & Hsub1 & _ & _ & Hkept & Hstored).
    specialize (Hkept eq_refl). specialize (Hstored eq_refl).
    destruct r as [[]|e].
    + destruct (c + 1 =? limit)%Z eqn:Hlimit.
      * apply post_ret. exists added1. cbn [List.length].
        repeat split; trivial; try lia. intros Ht. now apply Hkept.
      * apply Z.eqb_neq in Hlimit.
        eapply post_mono; [apply IH|].
        intros r' w' (added & Hdone & Hsub & Hlim & Hup & Hnone).
        specialize (Hnone (Hstored eq_refl)).
        exists (added1 ++ added)%list.
        rewrite Hdone, Hdone1, app_assoc, submissions_app, uploads_app. cbn [List.length].
        repeat split; trivial; try lia. intros Ht. destruct (Hkept Ht) as [-> _]. lia.
    + exists added1. cbn [List.length].
      repeat split; trivial; try lia. intros Ht. now apply Hkept.
Qed.

End Harvest.

Section Harvesting.

Variable N : Harvester.Net.

(** X18.  [harvest_one_cycle] returns normally only when it has submitted
    the workspace and its last request, a poll, was answered with SUCCESS;
    a failed job, a timeout and a failed poll all end it with an
    exception. *)
Theorem cycle_returns_only_on_success (mets_url nf_script_path : string)
  (reuse_workflow : bool) (w : World Harvester.t) :
  post (Harvester.harvest_one_cycle N mets_url nf_script_path reuse_workflow) w (fun r w' =>
    r = Ok tt ->
    exists added v,
      Harvester.done (self w') = (Harvester.done (self w) ++ added)%list /\
      submissions added = 1%nat /\
      answers_job_state N (Nat.pred (clock w')) v /\
      Harvester.state_equals N v StateJob.SUCCESS = true).
Proof.
  unfold Harvester.harvest_one_cycle, Harvester.post_workflow_nf_script,
    Harvester.post_workspace_url, Harvester.post_workflow_job, Harvester.open_rb.
  repeat lazymatch goal with
         | |- post (Harvester.poll_workflow_job_state _ _ _ _ _) _ _ => fail
         | _ => hv_step
         end.
  all: try discriminate.
  all: eapply post_mono; [apply poll_loop_spec|];
    intros r w' (k & _ & _ & _ & _ & _ & Hdone & Hclock & H); hv_simpl;
    repeat hv_step; try discriminate.
  all: intros _; destruct H as (k' & v & -> & Ha & Hs).
  all: rewrite Hdone, Hclock, <- ?app_assoc; cbn [app].
  all: eexists; exists v; split; [reflexivity|].
  all: cbn [submissions]; rewrite submissions_poll_rounds.
  all: rewrite <- plus_n_Sm; cbn [Nat.pred]; auto.
Qed.

(** X19.  With [reuse_workflow=False], [harvest_one_cycle] leaves
    [default_workflow_id] as it was and posts the job under that stored id
    ([None] when no workflow has been stored), not under the id of the
    script it has just uploaded. *)
Theorem cycle_posts_the_job_under_the_stored_workflow_id (mets_url nf_script_path : string)
  (w : World Harvester.t) :
  post (Harvester.harvest_one_cycle N mets_url nf_script_path false) w (fun r w' =>
    Harvester.default_workflow_id (self w') = Harvester.default_workflow_id (self w) /\
    exists added,
      Harvester.done (self w') = (Harvester.done (self w) ++ added)%list /\
      forall workflow_id workspace_id input_file_grp mets_base cpus ram,
        In (Harvester.PostWorkflowJob workflow_id workspace_id input_file_grp mets_base
              cpus ram) added ->
        workflow_id = Harvester.default_workflow_id (self w)).
Proof.
  eapply post_mono; [apply harvest_one_cycle_spec|].
  intros r w' (added & Hdone & _ & _ & _ & Hjob & Hkept & _).
  specialize (Hkept eq_refl). split; [exact Hkept|].
  exists added. split; [exact Hdone|]. rewrite <- Hkept. exact Hjob.
Qed.

(** X20.  [start_harvesting] uploads the workflow script at most once,
    and not at all when a workflow id is already stored; it submits at most
    one workspace per line of the ids file.  This holds for every limit and
    whatever the server answers. *)
Theorem harvesting_uploads_the_script_at_most_once (limit : Z) (w : World Harvester.t) :
  post (Harvester.start_harvesting N limit) w (fun r w' =>
    exists added,
      Harvester.done (self w') = (Harvester.done (self w) ++ added)%list /\
      (uploads added <= 1)%nat /\
      (Harvester.truthy (Harvester.default_workflow_id (self w)) = true ->
       uploads added = 0%nat) /\
      forall lines,
        Harvester.vd18_ids_lines N = Some lines ->
        (submissions added <= List.length lines)%nat).
Proof.
  unfold Harvester.start_harvesting. apply post_bind.
  destruct (Harvester.vd18_ids_lines N) as [lines|]; cbn [of_option].
  - apply post_ret. eapply post_mono; [apply harvest_lines_spec|].
    intros r w' (added & Hdone & Hsub & _ & Hup & Hnone).
    exists added. repeat split; trivial. intros ? [= <-]. exact Hsub.
  - apply post_raise. exists []. rewrite app_nil_r.
    split; [reflexivity|]. split; [simpl; lia|]. split; [reflexivity|]. discriminate.
Qed.

(** X21.  With a positive [limit], [start_harvesting] submits at most
    [limit] workspaces. *)
Theorem harvesting_stops_at_the_limit (limit : Z) (w : World Harvester.t) :
  (0 < limit)%Z ->
  post (Harvester.start_harvesting N limit) w (fun r w' =>
    exists added,
      Harvester.done (self w') = (Harvester.done (self w) ++ added)%list /\
      (Z.of_nat (submissions added) <= limit)%Z).
Proof.
  intros Hlimit. unfold Harvester.start_harvesting. apply post_bind.
  destruct (Harvester.vd18_ids_lines N) as [lines|]; cbn [of_option].
  - apply post_ret. eapply post_mono; [apply harvest_lines_spec|].
    intros r w' (added & Hdone & _ & Hlim & _).
    exists added. split; [exact Hdone|]. specialize (Hlim Hlimit). lia.
  - apply post_raise. exists []. rewrite app_nil_r. split; [reflexivity|]. simpl. lia.
Qed.

End Harvesting.

(** ** The further theorems on the example data *)

Section MoreInstances.

Import Sample.

(** X4 when connecting the HPC executor fails (start-up call 2). *)
Lemma run_start_up_failure_witness :
  post (JobSubmitWorker.run (env (fault_at 2 OtherException) "PENDING" None)
          [(1%nat, submit_message)])
       (mkWorld submit_self store_queued [] 0)
       (fun r w' =>
          (exists e, r = Raise e /\ (e = OtherException \/ is_Exception e = false)) /\
          store w' = store_queued /\ trace w' = []).
Proof.
  apply (proj1 (run_start_up_failure_is_fatal (env (fault_at 2 OtherException) "PENDING" None)
                  [(1%nat, submit_message)])).
  exists 2%nat. split; [lia|]. vm_compute. discriminate.
Defined.

(** X6 on the submission message when the submission to the scheduler
    fails: the workspace of the store has 7 pages. *)
Lemma counters_witness :
  post (JobSubmitWorker.callback (env (fault_at 5 OtherException) "PENDING" None) 1
          submit_message)
       (mkWorld submit_self store_queued [] 0)
       (fun _ w' =>
          forall user r,
            find_doc DBProcessingStats.user_id user [user_stats] = Some r ->
            exists r',
              find_doc DBProcessingStats.user_id user (stats (store w')) = Some r' /\
              DBProcessingStats.pages_succeed r' = DBProcessingStats.pages_succeed r /\
              (DBProcessingStats.pages_failed r <= DBProcessingStats.pages_failed r')%Z).
Proof.
  apply (proj1 (callbacks_never_lower_the_counters
                  (env (fault_at 5 OtherException) "PENDING" None) 1 submit_message)).
  repeat constructor. simpl. lia.
Defined.

Lemma submit_message_no_cpus_malformed (E : Env)
  (user_id workspace_id workflow_id job_id input_file_grp remove_file_grps partition : pyval)
  (cpus ram : Z) :
  ~ well_formed_submission E submit_message_no_cpus user_id workspace_id workflow_id job_id
      input_file_grp remove_file_grps partition cpus ram.
Proof.
  intros (items & cv & rv & Hbody & _ & _ & _ & _ & _ & _ & _ & Hcv & _).
  injection Hbody as <-. discriminate Hcv.
Defined.

(** X7 on the submission message without [cpus]. *)
Lemma malformed_message_witness :
  post (JobSubmitWorker.callback (env no_fault "PENDING" None) 1 submit_message_no_cpus)
       (mkWorld submit_self store_queued [] 0)
       (fun r w' =>
          workspaces (store w') = [workspace StateWorkspace.QUEUED] /\
          slurm_jobs (store w') = [] /\
          stats (store w') = [user_stats] /\
          ((r = Ok tt /\
            trace w' = [EvUpdateWorkflowJob (PStr "job1") StateJob.FAILED;
                        EvAck (Some 1%nat)]) \/
           (r <> Ok tt /\
            (trace w' = [] \/
             trace w' = [EvUpdateWorkflowJob (PStr "job1") StateJob.FAILED])))).
Proof.
  exact (submit_malformed_message_reaches_no_gateway (env no_fault "PENDING" None) 1
           submit_message_no_cpus (mkWorld submit_self store_queued [] 0)
           (submit_message_no_cpus_malformed _)).
Defined.

(** X8 on the submission message followed by a delivery that is not JSON. *)
Lemma stale_job_witness :
  post (JobSubmitWorker.callback (env no_fault "PENDING" None) 1 submit_message ;;
        JobSubmitWorker.callback (env no_fault "PENDING" None) 2 None)
       (mkWorld submit_self store_queued [] 0)
       (fun r w' =>
          r = Ok tt /\
          job_state_of (store w') (PStr "job1") = Some StateJob.FAILED /\
          workspace_state_of (store w') (PStr "ws1") = Some StateWorkspace.PENDING).
Proof.
  eapply post_mono.
  - exact (delivery_that_is_no_object_fails_the_previous_job (env no_fault "PENDING" None)
             (fun _ => eq_refl) 1 2 submit_message None (mkWorld submit_self store_queued [] 0)
             (PStr "u1") (PStr "ws1") (PStr "wf1") (PStr "job1") (PStr "OCR-D-IMG")
             (PStr EmptyString) (PStr "standard96") 4 16 workflow
             (workspace StateWorkspace.QUEUED) (job StateJob.QUEUED)
             (submit_message_well_formed _) ltac:(discriminate) eq_refl eq_refl eq_refl
             eq_refl).
  - intros r w' (Hr & Hjob & Hws & _). auto.
Defined.

Lemma fault_at_elsewhere (k : nat) (e : exn) (n : nat) : n <> k -> fault_at k e n = None.
Proof.
  intros Hn. unfold fault_at. destruct (Nat.eqb_spec n k); [contradiction|reflexivity].
Defined.

(** X9 on the submission message: 7 pages are added to the 2 failed pages. *)
Lemma trigger_failure_witness :
  post (JobSubmitWorker.callback (env (fault_at 5 OtherException) "PENDING" None) 1
          submit_message)
       (mkWorld submit_self store_queued [] 0)
       (fun r w' =>
          r = Ok tt /\
          job_state_of (store w') (PStr "job1") = Some StateJob.FAILED /\
          workspace_state_of (store w') (PStr "ws1") = Some StateWorkspace.READY /\
          pages_failed_of (store w') (PStr "u1") = Some 9%Z /\
          pages_succeed_of (store w') (PStr "u1") = Some 10%Z).
Proof.
  eapply post_mono.
  - exact (trigger_failure_counts_the_pages (env (fault_at 5 OtherException) "PENDING" None) 1
             submit_message (mkWorld submit_self store_queued [] 0) OtherException
             (PStr "u1") (PStr "ws1") (PStr "wf1") (PStr "job1") (PStr "OCR-D-IMG")
             (PStr EmptyString) (PStr "standard96") 4 16 workflow
             (workspace StateWorkspace.QUEUED) (job StateJob.QUEUED) user_stats
             eq_refl eq_refl (fault_at_elsewhere 5 OtherException)
             (submit_message_well_formed _) eq_refl eq_refl eq_refl eq_refl eq_refl).
  - intros r w' (Hr & _ & Hjob & Hws & Hfailed & Hsucceed & _). auto.
Defined.

(** X10 on the submission message: the scheduler accepted the job, the
    store holds no handle for it. *)
Lemma unsaved_handle_witness :
  post (JobSubmitWorker.callback (env (fault_at 6 OtherException) "PENDING" None) 1
          submit_message)
       (mkWorld submit_self store_queued [] 0)
       (fun r w' =>
          r = Ok tt /\
          job_state_of (store w') (PStr "job1") = Some StateJob.FAILED /\
          workspace_state_of (store w') (PStr "ws1") = Some StateWorkspace.READY /\
          slurm_jobs (store w') = [] /\
          stats (store w') = [user_stats]).
Proof.
  eapply post_mono.
  - exact (unsaved_handle_leaves_the_scheduler_job_untracked
             (env (fault_at 6 OtherException) "PENDING" None) 1
             submit_message (mkWorld submit_self store_queued [] 0) OtherException
             (PStr "u1") (PStr "ws1") (PStr "wf1") (PStr "job1") (PStr "OCR-D-IMG")
             (PStr EmptyString) (PStr "standard96") 4 16 workflow
             (workspace StateWorkspace.QUEUED) (job StateJob.QUEUED)
             eq_refl eq_refl (fault_at_elsewhere 6 OtherException)
             (submit_message_well_formed _) eq_refl eq_refl eq_refl eq_refl).
  - intros r w' (Hr & _ & Hjob & Hws & Hhandles & Hstats). auto.
Defined.

(** X11 on an idle submit worker. *)
Lemma idle_signal_witness :
  post (JobSubmitWorker.signal_handler (env no_fault "PENDING" None))
       (mkWorld submit_self store_queued [] 0)
       (fun r w' =>
          store w' = store_queued /\ r = Raise SystemExit /\ trace w' = [EvDisconnect]).
Proof.
  eapply post_mono.
  - exact (proj1 (signal_when_idle_only_disconnects (env no_fault "PENDING" None))
             (mkWorld submit_self store_queued [] 0) eq_refl).
  - intros r w' (Hstore & Hconnected & _).
    destruct (Hconnected eq_refl eq_refl) as (Hr & Htrace & _). auto.
Defined.

(** X13 on the submit worker signalled while it stages [job1]. *)
Lemma destructor_witness :
  post (JobSubmitWorker.signal_handler (env no_fault "PENDING" None)) world_staging
       (fun r w1 =>
          r = Raise SystemExit ->
          post (JobSubmitWorker.__del__ (env no_fault "PENDING" None)) w1
            (fun r' w' => r' = Ok tt /\ w' = w1)).
Proof.
  apply (proj1 (destructor_after_shutdown_makes_no_call (env no_fault "PENDING" None)
                  ltac:(discriminate))).
Defined.

(** X14 on a status message for a job that the scheduler reports as
    CANCELLED, a state the conversion rejects. *)
Lemma unmapped_state_witness :
  post (JobStatusWorker.callback (env no_fault "CANCELLED" None) 1 status_message)
       (mkWorld status_self (store_submitted "RUNNING") [] 0)
       (fun r w' =>
          r = Ok tt /\
          jobs (store w') = [job StateJob.PENDING] /\
          workspaces (store w') = [workspace StateWorkspace.PENDING] /\
          stats (store w') = [user_stats] /\
          option_map DBHPCSlurmJob.hpc_slurm_job_state
            (find_doc DBHPCSlurmJob.workflow_job_id (PStr "job1") (slurm_jobs (store w')))
            = Some (Some "CANCELLED")).
Proof.
  eapply post_mono.
  - exact (unmapped_scheduler_state_is_dropped (env no_fault "CANCELLED" None)
             (fun _ => eq_refl) 1 status_message
             (mkWorld status_self (store_submitted "RUNNING") [] 0)
             (job StateJob.PENDING) (workspace StateWorkspace.PENDING) (handle "RUNNING")
             ValueError eq_refl eq_refl eq_refl eq_refl eq_refl).
  - intros r w' (Hjobs & Hws & Hstats & Hhandle & evs & _ & Hr & _). auto.
Defined.

(** X15 on three polls ten seconds apart. *)
Lemma polling_bounded_witness :
  post (Harvester.poll_workflow_job_state (net success_at_third_request) (PStr "wf1")
          (PStr "job1") 3 10)
       (mkWorld harvester_self empty_store [] 0)
       (fun r w' =>
          exists k,
            (Z.of_nat k <= 3)%Z /\
            Harvester.done (self w') = poll_rounds k 10 (PStr "wf1") (PStr "job1")).
Proof.
  eapply post_mono.
  - exact (polling_is_bounded_and_does_not_raise (net success_at_third_request) (PStr "wf1")
             (PStr "job1") 3 10 (mkWorld harvester_self empty_store [] 0) ltac:(lia)).
  - intros r w' (k & Hk & Hdone & _). exists k. split; [lia|exact Hdone].
Defined.

Lemma answers_running (n : nat) :
  (n < 2)%nat ->
  exists u,
    answers_job_state (net success_at_third_request) (0 + n) u /\
    Harvester.state_equals (net success_at_third_request) u StateJob.SUCCESS = false /\
    Harvester.state_equals (net success_at_third_request) u StateJob.FAILED = false.
Proof.
  intros Hn. exists (PStr "RUNNING"). split; [|split; reflexivity].
  exists (Harvester.mkResponse (Ok (PDict [("job_state", PStr "RUNNING")]))),
    [("job_state", PStr "RUNNING")].
  destruct n as [|[|n]]; [repeat split ..|lia].
Defined.

Lemma answers_success :
  answers_job_state (net success_at_third_request) (0 + 2) (PStr "SUCCESS").
Proof.
  exists (Harvester.mkResponse (Ok (PDict [("job_state", PStr "SUCCESS")]))),
    [("job_state", PStr "SUCCESS")].
  repeat split.
Defined.

(** X17 on a server that reports RUNNING twice and then SUCCESS. *)
Lemma polling_success_witness :
  post (Harvester.poll_workflow_job_state (net success_at_third_request) (PStr "wf1")
          (PStr "job1") 3 10)
       (mkWorld harvester_self empty_store [] 0)
       (fun r w' =>
          r = Ok true /\
          Harvester.done (self w') = poll_rounds 3 10 (PStr "wf1") (PStr "job1")).
Proof.
  exact (polling_finishes_when_the_server_reports_success (net success_at_third_request)
           (PStr "wf1") (PStr "job1") 3 10 (mkWorld harvester_self empty_store [] 0) 2
           (PStr "SUCCESS") ltac:(lia) ltac:(lia) answers_running answers_success eq_refl).
Defined.

(** X21 with limit 1 on the file of two ids and a server that accepts
    every request: one workspace is submitted and the harvest returns,
    where without a limit both are submitted. *)
Lemma harvesting_limit_witness :
  post (Harvester.start_harvesting (net accepting_server) 1)
       (mkWorld harvester_self empty_store [] 0)
       (fun r w' =>
          exists added,
            Harvester.done (self w') = added /\ (Z.of_nat (submissions added) <= 1)%Z) /\
  post (Harvester.start_harvesting (net accepting_server) 1)
       (mkWorld harvester_self empty_store [] 0)
       (fun r w' => r = Ok tt /\ submissions (Harvester.done (self w')) = 1%nat) /\
  post (Harvester.start_harvesting (net accepting_server) 0)
       (mkWorld harvester_self empty_store [] 0)
       (fun r w' => r = Ok tt /\ submissions (Harvester.done (self w')) = 2%nat).
Proof.
  split; [|split].
  - exact (harvesting_stops_at_the_limit (net accepting_server) 1
             (mkWorld harvester_self empty_store [] 0) ltac:(lia)).
  - vm_compute. split; reflexivity.
  - vm_compute. split; reflexivity.
Defined.

(** X22 on the submission message when the transfer to the HPC fails. *)
Lemma staging_failure_witness :
  post (JobSubmitWorker.callback (env (fault_at 4 OtherException) "PENDING" None) 1
          submit_message)
       (mkWorld submit_self store_queued [] 0)
       (fun r w' =>
          r = Ok tt /\
          job_state_of (store w') (PStr "job1") = Some StateJob.FAILED /\
          workspace_state_of (store w') (PStr "ws1") = Some StateWorkspace.READY /\
          stats (store w') = [user_stats] /\
          slurm_jobs (store w') = []).
Proof.
  eapply post_mono.
  - exact (staging_failure_counts_no_pages (env (fault_at 4 OtherException) "PENDING" None) 1
             submit_message (mkWorld submit_self store_queued [] 0) OtherException 4
             (PStr "u1") (PStr "ws1") (PStr "wf1") (PStr "job1") (PStr "OCR-D-IMG")
             (PStr EmptyString) (PStr "standard96") 4 16 workflow
             (workspace StateWorkspace.QUEUED) (job StateJob.QUEUED)
             ltac:(lia) eq_refl eq_refl (fault_at_elsewhere 4 OtherException)
             (submit_message_well_formed _) eq_refl eq_refl eq_refl eq_refl).
  - intros r w' (Hr & Hjob & Hws & Hstats & Hhandles & _). auto.
Defined.

(** X23 on the submission message when no call fails. *)
Lemma submitted_witness :
  post (JobSubmitWorker.callback (env no_fault "PENDING" None) 1 submit_message)
       (mkWorld submit_self store_queued [] 0)
       (fun r w' =>
          (exists handle, In handle (handles_of (store w') (PStr "job1"))) /\
          exists evs,
            trace w' = evs /\
            match r with
            | Ok _ =>
                acked evs = [Some 1%nat] /\
                forall k, (7 <= k <= 9)%nat ->
                          fault (env no_fault "PENDING" None) (0 + k) = None
            | Raise e =>
                acked evs = [] /\
                exists k, (7 <= k <= 9)%nat /\
                          fault (env no_fault "PENDING" None) (0 + k) = Some e
            end).
Proof.
  exact (failure_after_submission_escapes (env no_fault "PENDING" None) 1 submit_message
           (mkWorld submit_self store_queued [] 0)
           (PStr "u1") (PStr "ws1") (PStr "wf1") (PStr "job1") (PStr "OCR-D-IMG")
           (PStr EmptyString) (PStr "standard96") 4 16 workflow
           (workspace StateWorkspace.QUEUED) (job StateJob.QUEUED)
           (fun _ _ => eq_refl) (submit_message_well_formed _) eq_refl eq_refl eq_refl).
Defined.

(** X24 on a status message for a job that the scheduler reports as
    COMPLETED, when the download of the results fails. *)
Lemma download_failure_witness :
  post (JobStatusWorker.callback (env (fault_at 8 OtherException) "COMPLETED" None) 1
          status_message)
       (mkWorld status_self (store_submitted "RUNNING") [] 0)
       (fun r w' =>
          r = Raise OtherException /\
          job_state_of (store w') (PStr "job1") = Some StateJob.TRANSFERRING_FROM_HPC /\
          workspace_state_of (store w') (PStr "ws1")
            = Some StateWorkspace.TRANSFERRING_FROM_HPC /\
          stats (store w') = [user_stats] /\
          acks (trace w') = 0%nat).
Proof.
  eapply post_mono.
  - exact (download_failure_leaves_the_job_in_transfer
             (env (fault_at 8 OtherException) "COMPLETED" None) 1 status_message
             (mkWorld status_self (store_submitted "RUNNING") [] 0)
             (job StateJob.PENDING) (workspace StateWorkspace.PENDING) (handle "RUNNING")
             OtherException eq_refl (fault_at_elsewhere 8 OtherException)
             eq_refl eq_refl eq_refl ltac:(discriminate) eq_refl ltac:(discriminate)
             eq_refl).
  - intros r w' (Hjob & Hws & Hstats & evs & Htrace & Hr & Hacked).
    repeat split; trivial.
    rewrite Htrace. clear - Hacked. unfold acks. cbn [trace app].
    induction evs as [|ev evs IH]; [reflexivity|].
    destruct ev; try discriminate Hacked; cbn in *; auto.
Defined.

(** X25 on the submission message when the store holds no workspace. *)
Lemma missing_workspace_witness :
  post (JobSubmitWorker.callback (env no_fault "PENDING" None) 1 submit_message)
       (mkWorld submit_self (mkStore [job StateJob.QUEUED] [] [workflow] [] [user_stats]) [] 0)
       (fun r w' =>
          r = Raise RuntimeError /\
          trace w' = [EvUpdateWorkflowJob (PStr "job1") StateJob.FAILED] /\
          job_state_of (store w') (PStr "job1") = Some StateJob.FAILED /\
          workspaces (store w') = []).
Proof.
  exact (missing_workspace_record_escapes (env no_fault "PENDING" None) (fun _ => eq_refl) 1
           submit_message
           (mkWorld submit_self (mkStore [job StateJob.QUEUED] [] [workflow] [] [user_stats])
              [] 0)
           (PStr "u1") (PStr "ws1") (PStr "wf1") (PStr "job1") (PStr "OCR-D-IMG")
           (PStr EmptyString) (PStr "standard96") 4 16 workflow (job StateJob.QUEUED)
           (submit_message_well_formed _) eq_refl eq_refl eq_refl).
Defined.

End MoreInstances.
